(** * The JSON-RPC subprocess harness of [interact_mcp.py]

    A shallow embedding of [send_message], [read_message] and [main], with
    the parts of the Python runtime they rely on: exceptions, the values
    returned by [json.loads], membership and subscript on them, and
    [base64.b64decode].

    Conventions.
    - A Python [str] is represented by its UTF-8 encoding, a [string] of
      bytes; [bytes] objects are [string]s as well.  Under this reading
      [s.encode('utf-8')] is the identity and [b.decode('utf-8')] is a
      well-formedness check.
    - The child process is described by what the harness observes of it:
      what each successive wait on its output yields, whether each flush of
      its input succeeds, and how it reacts to the termination request.
    - [json.dumps] and [json.loads] are library functions; the harness is
      defined over an arbitrary pair of them (Section variables), and a
      reference pair for the float-free fragment of JSON is given to run it
      on concrete conversations.
    - Printing and writing the output file always succeed; the lines that
      the thread draining the child's error stream prints are left out of
      the log, and of that thread only its being joined is recorded.
    - The handshake loop takes fuel, one unit per round, and yields [None]
      when it is still running once the fuel is spent. *)

From Stdlib Require Import ZArith NArith Bool List Ascii String Lia SpecFloat.
From Stdlib Require DecimalString.
From stdpp Require Import base option list strings gmap.
Import ListNotations.

Local Open Scope string_scope.

(** ** Exceptions and results *)

(** The exception classes the harness can meet; all derive from Python's
    [Exception].  [TimeoutExpired] is [subprocess.TimeoutExpired], which is
    not a [TimeoutError]. *)
Inductive exn : Type :=
| TimeoutError (msg : string)
| RuntimeError (msg : string)
| TypeError
| KeyError
| IndexError
| AttributeError
| ValueError
| JSONDecodeError
| UnicodeDecodeError
| BinasciiError
| BrokenPipeError
| OSError
| TimeoutExpired.

Inductive result (A : Type) : Type :=
| Ok (a : A)
| Raise (e : exn).
Arguments Ok {A} a.
Arguments Raise {A} e.

(** [except TimeoutError] *)
Definition is_TimeoutError (e : exn) : bool :=
  match e with TimeoutError _ => true | _ => false end.

(** ** base64 *)

Module Base64.

Local Open Scope N_scope.

Definition BASE64_PAD : ascii := "="%char.

Definition alphabet : string :=
  "ABCDEFGHIJKLMNOPQRSTUVWXYZabcdefghijklmnopqrstuvwxyz0123456789+/".

(** [table_b2a_base64[i]] *)
Definition table_b2a_base64 (i : N) : ascii :=
  match String.get (N.to_nat i) alphabet with
  | Some ch => ch
  | None => BASE64_PAD
  end.

Fixpoint index_from (ch : ascii) (s : string) (i : N) : N :=
  match s with
  | EmptyString => 64
  | String x rest => if Ascii.eqb x ch then i else index_from ch rest (i + 1)
  end.

(** [table_a2b_base64[ch]]: the value of [ch], 64 or more when [ch] is not
    in the alphabet. *)
Definition table_a2b_base64 (ch : ascii) : N := index_from ch alphabet 0.

Definition chr (n : N) : ascii := ascii_of_N (n mod 256).
Definition ord (ch : ascii) : N := N_of_ascii ch.

(** The four characters of a full group of three bytes. *)
Definition enc1 (a : N) : N := N.shiftr a 2.
Definition enc2 (a b : N) : N := N.lor (N.shiftl (N.land a 3) 4) (N.shiftr b 4).
Definition enc3 (b c : N) : N := N.lor (N.shiftl (N.land b 15) 2) (N.shiftr c 6).
Definition enc4 (c : N) : N := N.land c 63.

(** [base64.b64encode(bs)]: three bytes give four characters; a rest of
    one or two bytes is padded with zero bits and with [=]. *)
Fixpoint b64encode (bs : string) : string :=
  match bs with
  | EmptyString => EmptyString
  | String a EmptyString =>
      String (table_b2a_base64 (enc1 (ord a)))
     (String (table_b2a_base64 (enc2 (ord a) 0))
     (String BASE64_PAD (String BASE64_PAD EmptyString)))
  | String a (String b EmptyString) =>
      String (table_b2a_base64 (enc1 (ord a)))
     (String (table_b2a_base64 (enc2 (ord a) (ord b)))
     (String (table_b2a_base64 (enc3 (ord b) 0))
     (String BASE64_PAD EmptyString)))
  | String a (String b (String c rest)) =>
      String (table_b2a_base64 (enc1 (ord a)))
     (String (table_b2a_base64 (enc2 (ord a) (ord b)))
     (String (table_b2a_base64 (enc3 (ord b) (ord c)))
     (String (table_b2a_base64 (enc4 (ord c)))
     (b64encode rest))))
  end.

(** The decoder of [binascii.a2b_base64] with [strict_mode] off, which is
    what [base64.b64decode(s)] runs: a four-phase automaton over the input.
    [bin_data] holds the bytes produced so far. *)
Record a2b_state : Type := A2B {
  quad_pos : N;
  leftchar : N;
  pads : N;
  bin_data : string
}.

Definition a2b_init : a2b_state := A2B 0 0 0 EmptyString.

Definition emit (st : a2b_state) (byte : N) : string :=
  bin_data st +:+ String (chr byte) EmptyString.

(** One alphabet character of value [this_ch]: the [switch (quad_pos)]. *)
Definition a2b_shift (st : a2b_state) (this_ch : N) : a2b_state :=
  match quad_pos st with
  | 0 => A2B 1 this_ch 0 (bin_data st)
  | 1 => A2B 2 (N.land this_ch 15) 0
           (emit st (N.lor (N.shiftl (leftchar st) 2) (N.shiftr this_ch 4)))
  | 2 => A2B 3 (N.land this_ch 3) 0
           (emit st (N.lor (N.shiftl (leftchar st) 4) (N.shiftr this_ch 2)))
  | _ => A2B 0 0 0
           (emit st (N.lor (N.shiftl (leftchar st) 6) this_ch))
  end.

(** The [for] loop; [inl] is the jump to [done] at a complete pad
    sequence, [inr] the state at the end of the input. *)
Fixpoint a2b_loop (ascii_data : string) (st : a2b_state) : string + a2b_state :=
  match ascii_data with
  | EmptyString => inr st
  | String this_ch rest =>
      if Ascii.eqb this_ch BASE64_PAD then
        if 2 <=? quad_pos st then
          if 4 <=? quad_pos st + (pads st + 1) then inl (bin_data st)
          else a2b_loop rest (A2B (quad_pos st) (leftchar st) (pads st + 1) (bin_data st))
        else a2b_loop rest st
      else
        let v := table_a2b_base64 this_ch in
        if 64 <=? v then a2b_loop rest st
        else a2b_loop rest (a2b_shift st v)
  end.

Definition a2b_base64 (ascii_data : string) : result string :=
  match a2b_loop ascii_data a2b_init with
  | inl out => Ok out
  | inr st => if quad_pos st =? 0 then Ok (bin_data st) else Raise BinasciiError
  end.

Definition is_ascii (s : string) : bool :=
  forallb (fun ch => ord ch <? 128) (list_ascii_of_string s).

(** [f] holds of every number below [n]; used to settle facts about
    bytes and sextets by enumeration. *)
Fixpoint all_below (n : nat) (f : N -> bool) : bool :=
  match n with
  | O => true
  | S k => f (N.of_nat k) && all_below k f
  end.

End Base64.

(** ** Python values and the operations the harness applies to them *)

Module Py.

Local Set Warnings "-register-all".

(** What [json.loads] can return: [None], [bool], [int], [float], [str],
    [list] and [dict] with [str] keys (insertion-ordered, keys distinct). *)
Inductive json : Type :=
| JNull
| JBool (b : bool)
| JInt (z : Z)
| JFloat (f : spec_float)
| JStr (s : string)
| JArr (items : list json)
| JObj (members : list (string * json)).

(** [d[key]] on the members of a dict, [None] when the key is absent. *)
Fixpoint lookup_key (key : string) (members : list (string * json)) : option json :=
  match members with
  | [] => None
  | (k, v) :: rest => if String.eqb k key then Some v else lookup_key key rest
  end.

(** [v == s] for a [str] constant [s]: only an equal [str] compares equal. *)
Definition eq_str (v : json) (s : string) : bool :=
  match v with
  | JStr t => String.eqb t s
  | _ => false
  end.

(** [needle in hay] on two [str]. *)
Fixpoint contains (needle hay : string) : bool :=
  String.prefix needle hay ||
  match hay with
  | EmptyString => false
  | String _ rest => contains needle rest
  end.

(** [key in v] for a [str] constant [key]: key membership on a dict,
    element membership on a list, substring test on a [str], and a
    [TypeError] on values that are not containers. *)
Definition py_in (key : string) (v : json) : result bool :=
  match v with
  | JObj members => Ok (match lookup_key key members with Some _ => true | None => false end)
  | JArr items => Ok (existsb (fun x => eq_str x key) items)
  | JStr s => Ok (contains key s)
  | JNull | JBool _ | JInt _ | JFloat _ => Raise TypeError
  end.

(** [v[key]] for a [str] constant [key]. *)
Definition getitem (v : json) (key : string) : result json :=
  match v with
  | JObj members =>
      match lookup_key key members with
      | Some x => Ok x
      | None => Raise KeyError
      end
  | _ => Raise TypeError
  end.

Definition is_continuation (ch : ascii) : bool :=
  let n := N_of_ascii ch in (128 <=? n)%N && (n <? 192)%N.

Fixpoint take_continuation (s : string) : string :=
  match s with
  | EmptyString => EmptyString
  | String ch rest =>
      if is_continuation ch then String ch (take_continuation rest) else EmptyString
  end.

(** [v[0]]: the first element of a list, the first character of a [str];
    a dict from JSON has no key [0]. *)
Definition getitem0 (v : json) : result json :=
  match v with
  | JArr items =>
      match items with
      | x :: _ => Ok x
      | [] => Raise IndexError
      end
  | JStr EmptyString => Raise IndexError
  | JStr (String ch rest) => Ok (JStr (String ch (take_continuation rest)))
  | JObj _ => Raise KeyError
  | JNull | JBool _ | JInt _ | JFloat _ => Raise TypeError
  end.

(** [bool(v)] *)
Definition truthy (v : json) : bool :=
  match v with
  | JNull => false
  | JBool b => b
  | JInt z => negb (z =? 0)%Z
  | JFloat (S754_zero _) => false
  | JFloat _ => true
  | JStr s => negb (String.eqb s EmptyString)
  | JArr items => match items with [] => false | _ => true end
  | JObj members => match members with [] => false | _ => true end
  end.

(** [v.get(key)]: only a dict has the method; an absent key gives [None]. *)
Definition get (v : json) (key : string) : result json :=
  match v with
  | JObj members =>
      match lookup_key key members with
      | Some x => Ok x
      | None => Ok JNull
      end
  | _ => Raise AttributeError
  end.

(** [base64.b64decode(v)]: a [str] must be ASCII, then [a2b_base64]; the
    other JSON values are not bytes-like. *)
Definition b64decode (v : json) : result string :=
  match v with
  | JStr s =>
      if Base64.is_ascii s then Base64.a2b_base64 s else Raise ValueError
  | _ => Raise TypeError
  end.

(** Well-formed UTF-8, as the strict [utf-8] codec accepts it. *)
Definition in_range (lo hi : N) (ch : ascii) : bool :=
  let n := N_of_ascii ch in (lo <=? n)%N && (n <=? hi)%N.

Fixpoint utf8_valid (fuel : nat) (s : string) : bool :=
  match fuel with
  | O => false
  | S fuel' =>
      match s with
      | EmptyString => true
      | String a r1 =>
          if in_range 0 127 a then utf8_valid fuel' r1
          else match r1 with
          | EmptyString => false
          | String b r2 =>
              if in_range 194 223 a then in_range 128 191 b && utf8_valid fuel' r2
              else match r2 with
              | EmptyString => false
              | String c r3 =>
                  if in_range 224 239 a then
                    in_range (if in_range 224 224 a then 160 else 128)
                             (if in_range 237 237 a then 159 else 191) b
                    && in_range 128 191 c && utf8_valid fuel' r3
                  else match r3 with
                  | EmptyString => false
                  | String d r4 =>
                      in_range 240 244 a
                      && in_range (if in_range 240 240 a then 144 else 128)
                                  (if in_range 244 244 a then 143 else 191) b
                      && in_range 128 191 c && in_range 128 191 d
                      && utf8_valid fuel' r4
                  end
              end
          end
      end
  end.

(** [b.decode('utf-8')] *)
Definition decode_utf8 (b : string) : result string :=
  if utf8_valid (S (String.length b)) b then Ok b else Raise UnicodeDecodeError.

End Py.

(** ** The harness *)

Module Harness.

Import Py.

(** The child process as the harness observes it.
    - [stdout k]: what the [k]-th wait on the child's output yields:
      [None] when nothing becomes readable within the timeout ([select]
      returns no stream), [Some b] for the bytes [readline] returns, empty
      at end of stream.
    - [stdin_accepts k]: whether the [k]-th flush of the child's input
      succeeds; otherwise the pipe is broken.
    - [alive_at_shutdown]: [poll()] is [None] when the [finally] runs.
    - [sigterm_latency]: seconds the child takes to exit once asked to
      terminate, [None] when it never does. *)
Record child : Type := Child {
  stdout : nat -> option string;
  stdin_accepts : nat -> bool;
  alive_at_shutdown : bool;
  sigterm_latency : option Z
}.

(** One constructor per [print] of the script. *)
Inductive entry : Type :=
| Sent (message_str : string)
    (* print(f"Sent: {message_str}", file=sys.stderr) *)
| WaitingForMessage (timeout : Z)
    (* print(f"Waiting for message with timeout={timeout}s", file=sys.stderr) *)
| Received (line : string)
    (* print(f"Received: {line.strip()}", file=sys.stderr) *)
| ServerInfoReceived
    (* "Received server_info, proceeding with initialization." *)
| WaitingForServerInfo
    (* "Waiting for server_info..." *)
| NoMessageFromServer
    (* "No message from server, assuming it's ready for initialization." *)
| InitializeResponse (v : json)
    (* print("Initialize response:", json.dumps(init_response, indent=2)) *)
| ListDevicesResponse (v : json)
    (* print("List devices response:", json.dumps(..., indent=2)) *)
| FoundDevice (device_id : json)
    (* print(f"Found device: {device_id}", file=sys.stderr) *)
| ScreenshotResponse (v : json)
    (* print("Screenshot response:", json.dumps(..., indent=2)) *)
| ScreenshotSaved
    (* "Screenshot saved to screenshot.png" *)
| NoDevicesFound
    (* "No devices found." *)
| ErrorOccurred (e : exn)
    (* print(f"An error occurred: {e}", file=sys.stderr) *)
| TerminatingServer.
    (* "Terminating server process." *)

(** Everything the script reads or changes. *)
Record world : Type := World {
  reads : nat;                  (* waits on the child's output so far *)
  flushes : nat;                (* flushes of the child's input so far *)
  stdin_buffer : string;        (* written, not yet flushed *)
  stdin_pipe : string;          (* delivered to the child *)
  log : list entry;             (* what was printed, oldest first *)
  files : gmap string string;   (* the file system *)
  child_alive : bool;
  sigterm_sent : bool;
  stderr_joined : bool
}.

Definition initial_world (fs : gmap string string) : world :=
  World 0 0 EmptyString EmptyString [] fs false false false.

Definition set_reads (n : nat) (w : world) : world :=
  World n (flushes w) (stdin_buffer w) (stdin_pipe w) (log w) (files w)
        (child_alive w) (sigterm_sent w) (stderr_joined w).
Definition set_stdin (n : nat) (buf pipe : string) (w : world) : world :=
  World (reads w) n buf pipe (log w) (files w)
        (child_alive w) (sigterm_sent w) (stderr_joined w).
Definition set_log (l : list entry) (w : world) : world :=
  World (reads w) (flushes w) (stdin_buffer w) (stdin_pipe w) l (files w)
        (child_alive w) (sigterm_sent w) (stderr_joined w).
Definition set_files (fs : gmap string string) (w : world) : world :=
  World (reads w) (flushes w) (stdin_buffer w) (stdin_pipe w) (log w) fs
        (child_alive w) (sigterm_sent w) (stderr_joined w).
Definition set_process (alive term joined : bool) (w : world) : world :=
  World (reads w) (flushes w) (stdin_buffer w) (stdin_pipe w) (log w) (files w)
        alive term joined.

(** The world once [entries] are printed, once [data] is written to the
    child's input and flushed, once one more wait on the child's output
    is over, and once [data] is stored at [path]. *)
Definition logged (entries : list entry) (w : world) : world :=
  set_log (log w ++ entries) w.
Definition delivered (data : string) (w : world) : world :=
  set_stdin (S (flushes w)) EmptyString (stdin_pipe w +:+ (stdin_buffer w +:+ data)) w.
Definition waited (w : world) : world :=
  set_reads (S (reads w)) w.
Definition stored (path data : string) (w : world) : world :=
  set_files (<[path := data]> (files w)) w.

(** The world once the child runs. *)
Definition spawned (w : world) : world := set_process true false false w.

(** [w'] has the same child input as [w]: nothing was written or
    flushed in between. *)
Definition same_stdin (w w' : world) : Prop :=
  flushes w' = flushes w /\ stdin_buffer w' = stdin_buffer w
  /\ stdin_pipe w' = stdin_pipe w.

(** [w'] differs from [w] at most in what was read and printed. *)
Definition only_listened (w w' : world) : Prop :=
  same_stdin w w' /\ files w' = files w /\ child_alive w' = child_alive w
  /\ sigterm_sent w' = sigterm_sent w /\ stderr_joined w' = stderr_joined w.

(** Every run of [m] relates the world before to the world after. *)
Definition keeps {A : Type} (R : world -> world -> Prop) (m : world -> world * result A)
  : Prop :=
  forall w, R w (fst (m w)).

(** Computations: the world is threaded through, an exception ends the
    computation and keeps the effects made so far. *)
Definition M (A : Type) : Type := world -> world * result A.

#[global] Instance M_ret : MRet M := fun A a w => (w, Ok a).
#[global] Instance M_bind : MBind M := fun A B f m w =>
  match m w with
  | (w', Ok a) => f a w'
  | (w', Raise e) => (w', Raise e)
  end.

Definition lift {A : Type} (r : result A) : M A := fun w => (w, r).
Definition raise {A : Type} (e : exn) : M A := fun w => (w, Raise e).
Definition say (e : entry) : M unit := fun w => (set_log (log w ++ [e]) w, Ok tt).

(** The two characters written after the message: ['\\n'] in the source
    is a backslash followed by the letter n. *)
Definition backslash_n : string := String "092" (String "n" EmptyString).

(** The line terminator, one character. *)
Definition newline : string := String "010" EmptyString.

Definition output_path : string := "screenshot.png".

Definition init_request : json :=
  JObj [("jsonrpc", JStr "2.0");
        ("method", JStr "initialize");
        ("params", JObj [("clientInfo", JObj [("name", JStr "python-script")])]);
        ("id", JInt 0)].

Definition list_devices_request : json :=
  JObj [("jsonrpc", JStr "2.0");
        ("method", JStr "tool/call");
        ("params", JObj [("name", JStr "mobile_list_available_devices");
                         ("input", JObj [])]);
        ("id", JInt 1)].

Definition screenshot_request (device_id : json) : json :=
  JObj [("jsonrpc", JStr "2.0");
        ("method", JStr "tool/call");
        ("params", JObj [("name", JStr "mobile_take_screenshot");
                         ("input", JObj [("device", device_id)])]);
        ("id", JInt 2)].

Section Codec.

(** [json.dumps(v)], and [json.loads(s)] with [None] for a
    [JSONDecodeError]. *)
Variable json_dumps : json -> string.
Variable json_loads : string -> option json.

Definition loads (s : string) : result json :=
  match json_loads s with
  | Some v => Ok v
  | None => Raise JSONDecodeError
  end.

(** [json.loads(v)] on a value: only a [str] can be parsed. *)
Definition loads_value (v : json) : result json :=
  match v with
  | JStr s => loads s
  | _ => Raise TypeError
  end.

(** The world once [m] is sent with [send_message] and the line [line]
    is received with [read_message] and printed as [shown]. *)
Definition exchanged (m : json) (line : string) (shown : entry) (w : world) : world :=
  logged [Sent (json_dumps m); WaitingForMessage 30; Received line; shown]
         (waited (delivered (json_dumps m +:+ backslash_n) w)).

(** The same at end of stream, where nothing is received. *)
Definition hung_up (m : json) (shown : entry) (w : world) : world :=
  logged [Sent (json_dumps m); WaitingForMessage 30; shown]
         (waited (delivered (json_dumps m +:+ backslash_n) w)).

Section Child.

Variable c : child.

(** [proc.stdin.write(b)] *)
Definition stdin_write (b : string) : M unit := fun w =>
  (set_stdin (flushes w) (stdin_buffer w +:+ b) (stdin_pipe w) w, Ok tt).

(** [proc.stdin.flush()] *)
Definition stdin_flush : M unit := fun w =>
  if stdin_accepts c (flushes w) then
    (set_stdin (S (flushes w)) EmptyString (stdin_pipe w +:+ stdin_buffer w) w, Ok tt)
  else
    (set_stdin (S (flushes w)) (stdin_buffer w) (stdin_pipe w) w, Raise BrokenPipeError).

Definition send_message (message : json) : M unit :=
  let message_str := json_dumps message in
  stdin_write (message_str +:+ backslash_n) ;;
  stdin_flush ;;
  say (Sent message_str).

(** [select.select([proc.stdout], [], [], timeout)] followed, when the
    stream is readable, by [proc.stdout.readline()]. *)
Definition select_readline : M (option string) := fun w =>
  (set_reads (S (reads w)) w, Ok (stdout c (reads w))).

Definition read_message (timeout : Z) : M json :=
  say (WaitingForMessage timeout) ;;
  rlist ← select_readline;
  match rlist with
  | None => raise (TimeoutError "Timed out waiting for a response from the server.")
  | Some raw =>
      line ← lift (decode_utf8 raw);
      if String.eqb line EmptyString then mret JNull
      else say (Received line) ;; lift (loads line)
  end.

(** The [k]-th wait on the child's output yields the line [line], which
    parses to [v]. *)
Definition yields (k : nat) (line : string) (v : json) : Prop :=
  exists raw, stdout c k = Some raw /\ decode_utf8 raw = Ok line
              /\ line <> EmptyString /\ json_loads line = Some v.

(** The body of the [try] inside the handshake loop; [true] stands for
    [break]. *)
Definition handshake_attempt : M bool :=
  initial_message ← read_message 5;
  ready ← (if truthy initial_message
           then method ← lift (get initial_message "method");
                mret (eq_str method "server_info")
           else mret false);
  if ready : bool then say ServerInfoReceived ;; mret true
  else say WaitingForServerInfo ;; mret false.

(** One round of the loop, with its [except TimeoutError]. *)
Definition handshake_round : M bool := fun w =>
  match handshake_attempt w with
  | (w', Raise e) =>
      if is_TimeoutError e then (say NoMessageFromServer ;; mret true) w'
      else (w', Raise e)
  | r => r
  end.

(** [while True]: [None] when the loop is still running after [fuel]
    rounds. *)
Fixpoint handshake (fuel : nat) (w : world) : option (world * result unit) :=
  match fuel with
  | O => None
  | S fuel' =>
      match handshake_round w with
      | (w', Ok true) => Some (w', Ok tt)
      | (w', Ok false) => handshake fuel' w'
      | (w', Raise e) => Some (w', Raise e)
      end
  end.

(** ['result' in r and 'content' in r['result']] *)
Definition has_content (r : json) : M bool :=
  has_result ← lift (py_in "result" r);
  if has_result : bool then
    res ← lift (getitem r "result");
    lift (py_in "content" res)
  else mret false.

(** [r['result']['content'][0][field]] *)
Definition first_content (r : json) (field : string) : M json :=
  res ← lift (getitem r "result");
  content ← lift (getitem res "content");
  first ← lift (getitem0 content);
  lift (getitem first field).

(** [open(path, "wb")] leaves the file empty; the write replaces its
    content. *)
Definition open_wb (path : string) : M unit := fun w =>
  (set_files (<[path := EmptyString]> (files w)) w, Ok tt).
Definition file_write (path : string) (data : string) : M unit := fun w =>
  (set_files (<[path := data]> (files w)) w, Ok tt).

(** Lines 115 to 119: what is done with the capture response.  The file
    is opened, hence emptied, before the data is decoded. *)
Definition save_screenshot (screenshot_response : json) : M unit :=
  ok ← has_content screenshot_response;
  if ok : bool then
    image_data ← first_content screenshot_response "data";
    open_wb output_path ;;
    data ← lift (b64decode image_data);
    file_write output_path data ;;
    say ScreenshotSaved
  else mret tt.

(** Lines 102 to 119: the capture step for the selected device. *)
Definition capture (device_id : json) : M unit :=
  send_message (screenshot_request device_id) ;;
  screenshot_response ← read_message 30;
  say (ScreenshotResponse screenshot_response) ;;
  save_screenshot screenshot_response.

(** Lines 82 to 121: the device-listing step and what follows from it. *)
Definition list_devices : M unit :=
  send_message list_devices_request ;;
  list_devices_response ← read_message 30;
  say (ListDevicesResponse list_devices_response) ;;
  ok ← has_content list_devices_response;
  if ok : bool then
    devices_text ← first_content list_devices_response "text";
    devices_data ← lift (loads_value devices_text);
    devices ← lift (getitem devices_data "devices");
    if truthy devices then
      first ← lift (getitem0 devices);
      device_id ← lift (getitem first "id");
      say (FoundDevice device_id) ;;
      capture device_id
    else say NoDevicesFound
  else mret tt.

(** Lines 68 to 80: the initialize step. *)
Definition initialize : M unit :=
  send_message init_request ;;
  init_response ← read_message 30;
  say (InitializeResponse init_response) ;;
  failed ← lift (py_in "error" init_response);
  if failed : bool then raise (RuntimeError "Server initialization failed")
  else mret tt.

(** Lines 68 to 121: what follows the handshake inside the [try]. *)
Definition conversation : M unit :=
  initialize ;; list_devices.

(** The [try] block once the child is spawned and the thread draining
    its error stream is started. *)
Definition scripted (fuel : nat) (w : world) : option (world * result unit) :=
  match handshake fuel w with
  | Some (w', Ok _) => Some (conversation w')
  | other => other
  end.

(** [except Exception as e] *)
Definition handler (st : world * result unit) : world :=
  match st with
  | (w, Ok _) => w
  | (w, Raise e) => fst (say (ErrorOccurred e) w)
  end.

Definition poll : M bool := fun w =>
  (set_process (alive_at_shutdown c) (sigterm_sent w) (stderr_joined w) w,
   Ok (alive_at_shutdown c)).

Definition terminate : M unit := fun w =>
  (set_process (child_alive w) true (stderr_joined w) w, Ok tt).

(** The child is gone within [timeout] seconds of the termination
    request. *)
Definition exits_within (timeout : Z) : bool :=
  match sigterm_latency c with
  | Some t => (t <=? timeout)%Z
  | None => false
  end.

(** [server_process.wait(timeout=...)], called after [terminate()]. *)
Definition wait (timeout : Z) : M unit := fun w =>
  if exits_within timeout
  then (set_process false (sigterm_sent w) (stderr_joined w) w, Ok tt)
  else (w, Raise TimeoutExpired).

Definition join_stderr_thread : M unit := fun w =>
  (set_process (child_alive w) (sigterm_sent w) true w, Ok tt).

(** The [finally] block when [server_process] is set. *)
Definition shutdown : M unit :=
  running ← poll;
  (if running : bool then say TerminatingServer ;; terminate ;; wait 5 else mret tt) ;;
  join_stderr_thread.

(** [main] once [Popen] has returned the child [c]. *)
Definition run (fuel : nat) (w : world) : option (world * result unit) :=
  match scripted fuel (spawned w) with
  | Some st => Some (shutdown (handler st))
  | None => None
  end.

End Child.

(** [main()].  [popen] is the outcome of [subprocess.Popen]: [None] when
    it raises, in which case [server_process] stays [None] and the
    [finally] block has nothing to do. *)
Definition main (fs : gmap string string) (popen : option child) (fuel : nat)
  : option (world * result unit) :=
  match popen with
  | Some c => run c fuel (initial_world fs)
  | None => Some (handler (initial_world fs, Raise OSError), Ok tt)
  end.

End Codec.

(** The exit status of the script: [main()] returning lets the
    interpreter exit with 0, an exception leaving [main] gives 1. *)
Definition exit_code (r : result unit) : Z :=
  match r with
  | Ok _ => 0
  | Raise _ => 1
  end.

End Harness.

(** ** A reference JSON codec

    [ref_dumps] and [ref_loads] follow [json.dumps] and [json.loads] with
    their default arguments on JSON without fractions and exponents; they
    are the pair the harness is run with on concrete conversations.  The
    shortest-digits printing and the correctly rounded reading of finite
    floats are not reproduced: [ref_loads] gives up on such a literal and
    [ref_dumps] prints only zeros, infinities and NaN as Python does. *)

Module Codec.

Import Py.

Local Open Scope N_scope.

Definition hex_digit (n : N) : ascii :=
  match String.get (N.to_nat n) "0123456789abcdef" with
  | Some ch => ch
  | None => "0"%char
  end.

(** ['\\u{0:04x}'.format(n)] *)
Definition u_escape (n : N) : string :=
  String "092" (String "u"
    (String (hex_digit (N.shiftr n 12 mod 16))
    (String (hex_digit (N.shiftr n 8 mod 16))
    (String (hex_digit (N.shiftr n 4 mod 16))
    (String (hex_digit (n mod 16)) EmptyString))))).

Definition cont (ch : ascii) : N := N_of_ascii ch mod 64.

(** The first code point of a UTF-8 string and what follows it. *)
Definition next_code_point (s : string) : option (N * string) :=
  match s with
  | EmptyString => None
  | String a r1 =>
      let x := N_of_ascii a in
      if x <? 128 then Some (x, r1)
      else match r1 with
      | EmptyString => Some (x, r1)
      | String b r2 =>
          if x <? 224 then Some ((x mod 32) * 64 + cont b, r2)
          else match r2 with
          | EmptyString => Some (x, r1)
          | String c r3 =>
              if x <? 240 then Some (((x mod 16) * 64 + cont b) * 64 + cont c, r3)
              else match r3 with
              | EmptyString => Some (x, r1)
              | String d r4 =>
                  Some ((((x mod 8) * 64 + cont b) * 64 + cont c) * 64 + cont d, r4)
              end
          end
      end
  end.

(** One character as [py_encode_basestring_ascii] writes it. *)
Definition escape_code_point (n : N) : string :=
  if n =? 34 then String "092" (String "034" EmptyString)
  else if n =? 92 then String "092" (String "092" EmptyString)
  else if n =? 10 then String "092" (String "n" EmptyString)
  else if n =? 13 then String "092" (String "r" EmptyString)
  else if n =? 9 then String "092" (String "t" EmptyString)
  else if n =? 8 then String "092" (String "b" EmptyString)
  else if n =? 12 then String "092" (String "f" EmptyString)
  else if (32 <=? n) && (n <=? 126) then String (ascii_of_N n) EmptyString
  else if n <? 65536 then u_escape n
  else
    let v := n - 65536 in
    u_escape (55296 + N.shiftr v 10) +:+ u_escape (56320 + v mod 1024).

Fixpoint escape_string (fuel : nat) (s : string) : string :=
  match fuel with
  | O => EmptyString
  | S fuel' =>
      match next_code_point s with
      | None => EmptyString
      | Some (n, rest) => escape_code_point n +:+ escape_string fuel' rest
      end
  end.

Definition quote (s : string) : string :=
  String "034" (escape_string (String.length s) s +:+ String "034" EmptyString).

Definition dumps_int (z : Z) : string :=
  DecimalString.NilZero.string_of_int (Z.to_int z).

Definition dumps_float (f : spec_float) : string :=
  match f with
  | S754_zero false => "0.0"
  | S754_zero true => "-0.0"
  | S754_infinity false => "Infinity"
  | S754_infinity true => "-Infinity"
  | S754_nan => "NaN"
  | S754_finite _ _ _ => "NaN"   (* not reproduced, see above *)
  end.

Fixpoint join (sep : string) (l : list string) : string :=
  match l with
  | [] => EmptyString
  | [x] => x
  | x :: rest => x +:+ sep +:+ join sep rest
  end.

Fixpoint ref_dumps (v : json) : string :=
  match v with
  | JNull => "null"
  | JBool true => "true"
  | JBool false => "false"
  | JInt z => dumps_int z
  | JFloat f => dumps_float f
  | JStr s => quote s
  | JArr items => "[" +:+ join ", " (map ref_dumps items) +:+ "]"
  | JObj members =>
      "{" +:+ join ", " (map (fun kv => quote (fst kv) +:+ ": " +:+ ref_dumps (snd kv)) members)
          +:+ "}"
  end.

(** *** Reading *)

Definition is_ws (ch : ascii) : bool :=
  let n := N_of_ascii ch in (n =? 32) || (n =? 9) || (n =? 10) || (n =? 13).

Fixpoint skip_ws (s : string) : string :=
  match s with
  | String ch rest => if is_ws ch then skip_ws rest else s
  | EmptyString => s
  end.

Fixpoint drop (n : nat) (s : string) : string :=
  match n, s with
  | S n', String _ rest => drop n' rest
  | _, _ => s
  end.

Definition literal (name : string) (v : json) (s : string) : option (json * string) :=
  if String.prefix name s then Some (v, drop (String.length name) s) else None.

Definition digit_value (ch : ascii) : option N :=
  let n := N_of_ascii ch in
  if (48 <=? n) && (n <=? 57) then Some (n - 48) else None.

Definition hex_value (ch : ascii) : option N :=
  let n := N_of_ascii ch in
  if (48 <=? n) && (n <=? 57) then Some (n - 48)
  else if (97 <=? n) && (n <=? 102) then Some (n - 87)
  else if (65 <=? n) && (n <=? 70) then Some (n - 55)
  else None.

Fixpoint digits (s : string) (acc : N) : N * string :=
  match s with
  | String ch rest =>
      match digit_value ch with
      | Some d => digits rest (10 * acc + d)
      | None => (acc, s)
      end
  | EmptyString => (acc, s)
  end.

Definition starts_fraction (s : string) : bool :=
  match s with
  | String ch _ => let n := N_of_ascii ch in (n =? 46) || (n =? 101) || (n =? 69)
  | EmptyString => false
  end.

(** A natural number without a leading zero, refusing a fraction or an
    exponent after it. *)
Definition natural (s : string) : option (N * string) :=
  match s with
  | String ch rest =>
      match digit_value ch with
      | Some 0 => if starts_fraction rest then None else Some (0, rest)
      | Some d =>
          let '(n, rest') := digits rest d in
          if starts_fraction rest' then None else Some (n, rest')
      | None => None
      end
  | EmptyString => None
  end.

Definition hex4 (s : string) : option (N * string) :=
  match s with
  | String a (String b (String c (String d rest))) =>
      match hex_value a, hex_value b, hex_value c, hex_value d with
      | Some x, Some y, Some z, Some t => Some (((x * 16 + y) * 16 + z) * 16 + t, rest)
      | _, _, _, _ => None
      end
  | _ => None
  end.

(** [chr(n).encode('utf-8')]; surrogates have no encoding. *)
Definition utf8_encode (n : N) : option string :=
  let tail k := ascii_of_N (128 + N.shiftr n k mod 64) in
  if n <? 128 then Some (String (ascii_of_N n) EmptyString)
  else if n <? 2048 then
    Some (String (ascii_of_N (192 + N.shiftr n 6)) (String (tail 0) EmptyString))
  else if (55296 <=? n) && (n <=? 57343) then None
  else if n <? 65536 then
    Some (String (ascii_of_N (224 + N.shiftr n 12))
         (String (tail 6) (String (tail 0) EmptyString)))
  else
    Some (String (ascii_of_N (240 + N.shiftr n 18))
         (String (tail 12) (String (tail 6) (String (tail 0) EmptyString)))).

(** The code point of a [\u] escape, joined with a following low
    surrogate escape when it is a high surrogate. *)
Definition unicode_escape (s : string) : option (N * string) :=
  match hex4 s with
  | Some (hi, rest) =>
      if (55296 <=? hi) && (hi <=? 56319) then
        match rest with
        | String "092" (String "u" rest') =>
            match hex4 rest' with
            | Some (lo, rest'') =>
                if (56320 <=? lo) && (lo <=? 57343)
                then Some (65536 + (hi - 55296) * 1024 + (lo - 56320), rest'')
                else Some (hi, rest)
            | None => Some (hi, rest)
            end
        | _ => Some (hi, rest)
        end
      else Some (hi, rest)
  | None => None
  end.

(** The content of a string literal after its opening quote. *)
Fixpoint scanstring (fuel : nat) (s : string) (acc : string) : option (string * string) :=
  match fuel with
  | O => None
  | S fuel' =>
      match s with
      | EmptyString => None
      | String "034" rest => Some (acc, rest)
      | String "092" EmptyString => None
      | String "092" (String esc rest) =>
          let simple (n : N) :=
            scanstring fuel' rest (acc +:+ String (ascii_of_N n) EmptyString) in
          match esc with
          | "034"%char => simple 34
          | "092"%char => simple 92
          | "/"%char => simple 47
          | "b"%char => simple 8
          | "f"%char => simple 12
          | "n"%char => simple 10
          | "r"%char => simple 13
          | "t"%char => simple 9
          | "u"%char =>
              match unicode_escape rest with
              | Some (n, rest') =>
                  match utf8_encode n with
                  | Some enc => scanstring fuel' rest' (acc +:+ enc)
                  | None => None
                  end
              | None => None
              end
          | _ => None
          end
      | String ch rest =>
          if N_of_ascii ch <? 32 then None
          else scanstring fuel' rest (acc +:+ String ch EmptyString)
      end
  end.

(** [d[key] = v] on the members of a dict. *)
Fixpoint dict_set (key : string) (v : json) (members : list (string * json))
  : list (string * json) :=
  match members with
  | [] => [(key, v)]
  | (k, x) :: rest =>
      if String.eqb k key then (k, v) :: rest else (k, x) :: dict_set key v rest
  end.

(** The elements of an array after the first [[]. *)
Fixpoint parse_items (value : string -> option (json * string))
    (fuel : nat) (s : string) (acc : list json) : option (json * string) :=
  match fuel with
  | O => None
  | S fuel' =>
      match value (skip_ws s) with
      | Some (v, rest) =>
          match skip_ws rest with
          | String "," rest' => parse_items value fuel' rest' (acc ++ [v])
          | String "]" rest' => Some (JArr (acc ++ [v]), rest')
          | _ => None
          end
      | None => None
      end
  end.

(** The members of an object, from the opening quote of a key. *)
Fixpoint parse_members (value : string -> option (json * string))
    (fuel : nat) (s : string) (acc : list (string * json)) : option (json * string) :=
  match fuel with
  | O => None
  | S fuel' =>
      match skip_ws s with
      | String "034" rest =>
          match scanstring (S (String.length rest)) rest EmptyString with
          | Some (key, rest1) =>
              match skip_ws rest1 with
              | String ":" rest2 =>
                  match value (skip_ws rest2) with
                  | Some (v, rest3) =>
                      match skip_ws rest3 with
                      | String "," rest4 =>
                          parse_members value fuel' rest4 (dict_set key v acc)
                      | String "}" rest4 => Some (JObj (dict_set key v acc), rest4)
                      | _ => None
                      end
                  | None => None
                  end
              | _ => None
              end
          | None => None
          end
      | _ => None
      end
  end.

Fixpoint parse_value (fuel : nat) (s : string) : option (json * string) :=
  match fuel with
  | O => None
  | S fuel' =>
      match s with
      | String "034" rest =>
          match scanstring (S (String.length rest)) rest EmptyString with
          | Some (str, rest') => Some (JStr str, rest')
          | None => None
          end
      | String "[" rest =>
          match skip_ws rest with
          | String "]" rest' => Some (JArr [], rest')
          | rest' => parse_items (parse_value fuel') (String.length rest') rest' []
          end
      | String "{" rest =>
          match skip_ws rest with
          | String "}" rest' => Some (JObj [], rest')
          | rest' => parse_members (parse_value fuel') (String.length rest') rest' []
          end
      | String "n" _ => literal "null" JNull s
      | String "t" _ => literal "true" (JBool true) s
      | String "f" _ => literal "false" (JBool false) s
      | String "N" _ => literal "NaN" (JFloat S754_nan) s
      | String "I" _ => literal "Infinity" (JFloat (S754_infinity false)) s
      | String "-" (String "I" _) => literal "-Infinity" (JFloat (S754_infinity true)) s
      | String "-" rest =>
          match natural rest with
          | Some (n, rest') => Some (JInt (- Z.of_N n), rest')
          | None => None
          end
      | _ =>
          match natural s with
          | Some (n, rest') => Some (JInt (Z.of_N n), rest')
          | None => None
          end
      end
  end.

Definition ref_loads (s : string) : option json :=
  let s := skip_ws s in
  match parse_value (S (String.length s)) s with
  | Some (v, rest) =>
      match skip_ws rest with
      | EmptyString => Some v
      | _ => None
      end
  | None => None
  end.

End Codec.

(** ** Shapes of messages *)

Module Shape.

Import Py.

(** A message announcing the server: a mapping whose [method] is
    [server_info]. *)
Definition server_info (v : json) : Prop :=
  exists members, v = JObj members
    /\ lookup_key "method" members = Some (JStr "server_info").

(** Any other message: a mapping with another [method], or with none. *)
Definition other_message (v : json) : Prop :=
  exists members, v = JObj members
    /\ lookup_key "method" members <> Some (JStr "server_info").

(** [r] is a mapping whose [result] is a mapping whose [content] is
    [content]. *)
Definition has_result_content (r content : json) : Prop :=
  exists members result,
    r = JObj members /\ lookup_key "result" members = Some (JObj result)
    /\ lookup_key "content" result = Some content.

(** [r] is a mapping without [result], or its [result] is a mapping
    without [content]. *)
Definition lacks_content (r : json) : Prop :=
  exists members, r = JObj members /\
    (lookup_key "result" members = None \/
     exists result, lookup_key "result" members = Some (JObj result)
                    /\ lookup_key "content" result = None).

(** The first content entry of [r] is a mapping with [field] set to [x]. *)
Definition first_entry_field (r : json) (field : string) (x : json) : Prop :=
  exists entry rest,
    has_result_content r (JArr (JObj entry :: rest))
    /\ lookup_key field entry = Some x.

End Shape.

(** ** Concrete children *)

Module Examples.

Import Py Harness Codec.

(** JSON text is written with apostrophes in place of double quotes. *)
Fixpoint dq (s : string) : string :=
  match s with
  | EmptyString => EmptyString
  | String ch rest => String (if Ascii.eqb ch "'" then "034"%char else ch) (dq rest)
  end.

(** A line of the child's output. *)
Definition text (s : string) : string := dq s +:+ newline.

Definition server_info_text : string :=
  text "{'jsonrpc':'2.0','method':'server_info','params':{'name':'mobile-mcp'}}".
Definition server_info_message : json :=
  JObj [("jsonrpc", JStr "2.0"); ("method", JStr "server_info");
        ("params", JObj [("name", JStr "mobile-mcp")])].

Definition notification_text : string :=
  text "{'jsonrpc':'2.0','method':'log','params':{}}".
Definition notification_message : json :=
  JObj [("jsonrpc", JStr "2.0"); ("method", JStr "log"); ("params", JObj [])].

Definition init_ok_text : string :=
  text "{'jsonrpc':'2.0','id':0,'result':{'capabilities':{}}}".

Definition init_error_text : string :=
  text "{'jsonrpc':'2.0','id':0,'error':{'code':-32601,'message':'unknown'}}".
Definition init_error_members : list (string * json) :=
  [("jsonrpc", JStr "2.0"); ("id", JInt 0);
   ("error", JObj [("code", JInt (-32601)); ("message", JStr "unknown")])].

Definition two_devices : string := dq "{'devices':[{'id':'dev-1'},{'id':'dev-2'}]}".
Definition two_devices_text : string :=
  text "{'jsonrpc':'2.0','id':1,'result':{'content':[{'type':'text','text':'{\'devices\':[{\'id\':\'dev-1\'},{\'id\':\'dev-2\'}]}'}]}}".
Definition two_devices_response : json :=
  JObj [("jsonrpc", JStr "2.0"); ("id", JInt 1);
        ("result", JObj [("content",
           JArr [JObj [("type", JStr "text"); ("text", JStr two_devices)]])])].

Definition no_devices : string := dq "{'devices':[]}".
Definition no_devices_text : string :=
  text "{'jsonrpc':'2.0','id':1,'result':{'content':[{'type':'text','text':'{\'devices\':[]}'}]}}".
Definition no_devices_response : json :=
  JObj [("jsonrpc", JStr "2.0"); ("id", JInt 1);
        ("result", JObj [("content",
           JArr [JObj [("type", JStr "text"); ("text", JStr no_devices)]])])].

Definition empty_content_text : string :=
  text "{'jsonrpc':'2.0','id':1,'result':{'content':[]}}".
Definition empty_content_response : json :=
  JObj [("jsonrpc", JStr "2.0"); ("id", JInt 1);
        ("result", JObj [("content", JArr [])])].

Definition no_result_text : string := text "{'jsonrpc':'2.0','id':1}".
Definition no_result_response : json :=
  JObj [("jsonrpc", JStr "2.0"); ("id", JInt 1)].

(** An image whose data are the eight bytes every PNG file starts with. *)
Definition png_signature : string :=
  String "137" (String "P" (String "N" (String "G"
    (String "013" (String "010" (String "026" (String "010" EmptyString))))))).
Definition image_text : string :=
  text "{'jsonrpc':'2.0','id':2,'result':{'content':[{'type':'image','data':'iVBORw0KGgo='}]}}".
Definition image_response : json :=
  JObj [("jsonrpc", JStr "2.0"); ("id", JInt 2);
        ("result", JObj [("content",
           JArr [JObj [("type", JStr "image"); ("data", JStr "iVBORw0KGgo=")]])])].

(** An image whose data are one character short of a group. *)
Definition bad_image_text : string :=
  text "{'jsonrpc':'2.0','id':2,'result':{'content':[{'type':'image','data':'iVBOR'}]}}".
Definition bad_image_response : json :=
  JObj [("jsonrpc", JStr "2.0"); ("id", JInt 2);
        ("result", JObj [("content",
           JArr [JObj [("type", JStr "image"); ("data", JStr "iVBOR")]])])].

(** A child whose output is observed as [obs], then as [rest] forever;
    its input is always open. *)
Definition replay (obs : list (option string)) (rest : option string)
    (alive : bool) (latency : option Z) : child :=
  Child (fun k => nth k obs rest) (fun _ => true) alive latency.

Definition end_of_stream : option string := Some EmptyString.
Definition silence : option string := None.

(** Closes its output at once. *)
Definition closing_child : child := replay [] end_of_stream true (Some 1%Z).

(** Keeps sending a notification, never [server_info]. *)
Definition chatty_child : child :=
  replay [] (Some notification_text) true (Some 1%Z).

(** Stays silent. *)
Definition silent_child : child := replay [] silence true (Some 1%Z).

(** Announces itself at once. *)
Definition announcing_child : child :=
  replay [Some server_info_text] silence true (Some 1%Z).

(** Refuses to initialize. *)
Definition refusing_child : child :=
  replay [silence; Some init_error_text] end_of_stream true (Some 1%Z).

(** Announces itself after a notification, lists two devices and
    returns an image. *)
Definition device_child : child :=
  replay [Some notification_text; Some server_info_text; Some init_ok_text;
          Some two_devices_text; Some image_text]
         end_of_stream true (Some 1%Z).

(** Lists no device. *)
Definition deviceless_child : child :=
  replay [silence; Some init_ok_text; Some no_devices_text] end_of_stream true (Some 1%Z).

(** Answers the device listing with an empty content, respectively
    without a result. *)
Definition empty_content_child : child :=
  replay [silence; Some init_ok_text; Some empty_content_text] end_of_stream true (Some 1%Z).
Definition no_result_child : child :=
  replay [silence; Some init_ok_text; Some no_result_text] end_of_stream true (Some 1%Z).

(** Children observed from the device-listing step on: the first wait
    yields the device list. *)
Definition listing_child (first second : string) : child :=
  replay [Some first; Some second] end_of_stream true (Some 1%Z).

(** Lists no device and ignores the termination request. *)
Definition stubborn_child : child :=
  replay [silence; Some init_ok_text; Some no_devices_text] end_of_stream true None.

(** Lists no device and exits only a minute after the termination
    request. *)
Definition slow_child : child :=
  replay [silence; Some init_ok_text; Some no_devices_text] end_of_stream true (Some 60%Z).

Definition main_ref := main ref_dumps ref_loads.

(** The world in which the child has just been spawned, on an empty
    file system. *)
Definition fresh : world := spawned (initial_world ∅).

(** The same after a handshake that ended with the first wait timing
    out. *)
Definition presumed_ready : world :=
  logged [WaitingForMessage 5; NoMessageFromServer] (waited fresh).

(** The conversation with [refusing_child], as far as the handler. *)
Definition refused : world * result unit :=
  (exchanged ref_dumps init_request init_error_text
             (InitializeResponse (JObj init_error_members)) presumed_ready,
   Raise (RuntimeError "Server initialization failed")).

(** The device-listing step from [fresh]: what was exchanged when the
    child answers [line], parsed to [r]. *)
Definition listed (line : string) (r : json) : world :=
  exchanged ref_dumps list_devices_request line (ListDevicesResponse r) fresh.

(** The capture step for [dev-1] from [fresh], likewise. *)
Definition shot (line : string) (r : json) : world :=
  exchanged ref_dumps (screenshot_request (JStr "dev-1")) line (ScreenshotResponse r) fresh.

(** The capture request for [dev-1] as [json.dumps] writes it. *)
Definition dev1_capture_request : string :=
  dq "{'jsonrpc': '2.0', 'method': 'tool/call', 'params': {'name': 'mobile_take_screenshot', 'input': {'device': 'dev-1'}}, 'id': 2}".

End Examples.

(** ** The thread draining the child's error stream *)

Module Drain.

Import Py.

(** One constructor per [print] of [read_output]. *)
Inductive drain_entry : Type :=
| Tagged (pipe_name line : string)
    (* print(f"[{pipe_name}] {line.decode('utf-8').strip()}", file=sys.stderr) *)
| ReadingFailed (pipe_name : string) (e : exn).
    (* print(f"Error reading from {pipe_name}: {e}", file=sys.stderr) *)

(** The pipe as the successive calls of [readline] see it: the bytes of
    a line, empty at end of stream, or an exception. *)
Definition pipe : Type := nat -> result string.

(** What the thread has done: the calls of [readline] it made and what
    it printed, oldest first. *)
Record drained : Type := Drained {
  calls : nat;
  printed : list drain_entry
}.

(** [for line in iter(pipe.readline, b'')] with its body, from the call
    number [position] on; [None] when the loop is still running after
    [fuel] calls. *)
Fixpoint drain_loop (p : pipe) (pipe_name : string) (fuel position : nat)
    (out : list drain_entry) : option (drained * result unit) :=
  match fuel with
  | O => None
  | S fuel' =>
      match p position with
      | Raise e => Some (Drained (S position) out, Raise e)
      | Ok raw =>
          if String.eqb raw EmptyString then Some (Drained (S position) out, Ok tt)
          else
            match decode_utf8 raw with
            | Raise e => Some (Drained (S position) out, Raise e)
            | Ok line =>
                drain_loop p pipe_name fuel' (S position) (out ++ [Tagged pipe_name line])
            end
      end
  end.

(** [read_output(pipe, pipe_name)], with its [except Exception]. *)
Definition read_output (p : pipe) (pipe_name : string) (fuel : nat) : option drained :=
  match drain_loop p pipe_name fuel 0 [] with
  | Some (d, Ok _) => Some d
  | Some (d, Raise e) =>
      Some (Drained (calls d) (printed d ++ [ReadingFailed pipe_name e]))
  | None => None
  end.

(** A line the loop prints: not the end of the stream, and well-formed
    UTF-8. *)
Definition printable (raw : string) : Prop :=
  raw <> EmptyString /\ decode_utf8 raw = Ok raw.

(** The calls from number [from] on return the lines [ls], in order. *)
Definition offers (p : pipe) (from : nat) (ls : list string) : Prop :=
  forall i raw, nth_error ls i = Some raw -> p (from + i) = Ok raw.

(** A pipe that returns the lines [ls], then [rest] forever. *)
Definition replay_pipe (ls : list string) (rest : result string) : pipe :=
  fun k => nth k (map Ok ls) rest.

End Drain.

(** ** What a run keeps *)

Module Conduct.

Import Py Harness.

(** What the child receives for the request [m]. *)
Definition request_line (json_dumps : json -> string) (m : json) : string :=
  json_dumps m +:+ backslash_n.

(** The first [n] of the three requests as the child receives them, the
    third naming [device_id]. *)
Definition requests (json_dumps : json -> string) (n : nat) (device_id : json) : string :=
  match n with
  | 0 => EmptyString
  | 1 => request_line json_dumps init_request
  | 2 => request_line json_dumps init_request
         +:+ request_line json_dumps list_devices_request
  | _ => (request_line json_dumps init_request
          +:+ request_line json_dumps list_devices_request)
         +:+ request_line json_dumps (screenshot_request device_id)
  end.

(** The world once [m] is sent and the wait for its response has timed
    out. *)
Definition timed_out (json_dumps : json -> string) (m : json) (w : world) : world :=
  logged [Sent (json_dumps m); WaitingForMessage 30]
         (waited (delivered (json_dumps m +:+ backslash_n) w)).

(** The error of a wait that timed out. *)
Definition timeout_error : exn :=
  TimeoutError "Timed out waiting for a response from the server.".

(** The prints of [send_message] and of [read_message] on its entry. *)
Definition is_traffic (e : entry) : bool :=
  match e with
  | Sent _ | WaitingForMessage _ => true
  | _ => false
  end.

(** What a log tells of the traffic with the child: the requests sent
    and the waits begun, in the order in which they were printed. *)
Definition traffic (l : list entry) : list entry := List.filter is_traffic l.

(** What one exchange prints of its traffic: the request once it is
    flushed, then the wait for its response. *)
Definition exchange_prints (json_dumps : json -> string) (m : json) : list entry :=
  [Sent (json_dumps m); WaitingForMessage 30].

(** The same for the first [n] of the three exchanges, the third naming
    [device_id]. *)
Definition exchanges (json_dumps : json -> string) (n : nat) (device_id : json)
  : list entry :=
  match n with
  | 0 => []
  | 1 => exchange_prints json_dumps init_request
  | 2 => (exchange_prints json_dumps init_request
          ++ exchange_prints json_dumps list_devices_request)%list
  | _ => ((exchange_prints json_dumps init_request
           ++ exchange_prints json_dumps list_devices_request)
          ++ exchange_prints json_dumps (screenshot_request device_id))%list
  end.

(** The device-list response [r] names [device_id] first: the text of
    its first content entry parses to a mapping whose [devices] is a list
    that starts with a mapping whose [id] is [device_id]. *)
Definition selects (json_loads : string -> option json) (r device_id : json) : Prop :=
  exists t members entry rest,
    Shape.first_entry_field r "text" (JStr t)
    /\ json_loads t = Some (JObj members)
    /\ lookup_key "devices" members = Some (JArr (JObj entry :: rest))
    /\ lookup_key "id" entry = Some device_id.

(** Between [w] and [w'] nothing was sent, no wait was made and no file
    was touched; nothing was printed of the traffic, nor that a
    screenshot was saved. *)
Definition still (w w' : world) : Prop :=
  same_stdin w w' /\ reads w' = reads w /\ files w' = files w
  /\ traffic (log w') = traffic (log w)
  /\ (In ScreenshotSaved (log w') -> In ScreenshotSaved (log w)).

(** Between [w] and [w'] the request [m] was delivered with one flush
    and one wait was made, both printed; apart from that the steps were
    still. *)
Definition heard (json_dumps : json -> string) (m : json) (w w' : world) : Prop :=
  stdin_pipe w' = stdin_pipe w +:+ request_line json_dumps m
  /\ stdin_buffer w' = EmptyString
  /\ flushes w' = S (flushes w) /\ reads w' = S (reads w) /\ files w' = files w
  /\ traffic (log w') = (traffic (log w) ++ exchange_prints json_dumps m)%list
  /\ (In ScreenshotSaved (log w') -> In ScreenshotSaved (log w)).

(** The world in which the flush of the request [m] has failed: the
    request stays in the buffer. *)
Definition stuck (json_dumps : json -> string) (m : json) (w : world) : world :=
  set_stdin (S (flushes w)) (stdin_buffer w +:+ request_line json_dumps m)
            (stdin_pipe w) w.

(** How the device-listing step goes on once the response [r] is
    printed, in [w]: it ends there, having printed at most that no device
    was found, or [r] names a device first and the capture step runs for
    it. *)
Definition listing_outcome (json_dumps : json -> string)
    (json_loads : string -> option json) (c : child) (r : json) (w : world)
    (st : world * result unit) : Prop :=
  fst st = w \/ fst st = logged [NoDevicesFound] w
  \/ exists device_id,
       selects json_loads r device_id
       /\ st = capture json_dumps json_loads c device_id
                 (logged [FoundDevice device_id] w).

(** How the capture step goes on once the response [r] is printed, in
    [w]: it ends there; or the output file is left open and empty by a
    failed decoding; or the first content entry of [r] has [data] that
    decode to the bytes written, and this is printed. *)
Definition saving_outcome (r : json) (w : world) (st : world * result unit) : Prop :=
  fst st = w
  \/ (exists e, st = (stored output_path EmptyString w, Raise e))
  \/ exists image_data data,
       Shape.first_entry_field r "data" image_data
       /\ b64decode image_data = Ok data
       /\ st = (logged [ScreenshotSaved]
                  (stored output_path data (stored output_path EmptyString w)), Ok tt).

(** Between [w] and [w'] one wait with the timeout [t] was made and
    printed; apart from that the steps were still. *)
Definition listened (t : Z) (w w' : world) : Prop :=
  same_stdin w w' /\ files w' = files w /\ reads w' = S (reads w)
  /\ traffic (log w') = (traffic (log w) ++ [WaitingForMessage t])%list
  /\ (In ScreenshotSaved (log w') -> In ScreenshotSaved (log w)).

(** What a wait at the read number [k] returned: the value read from a
    line, or [None] at the end of the stream. *)
Definition answer (json_loads : string -> option json) (c : child) (k : nat)
    (v : json) : Prop :=
  (exists line, yields json_loads c k line v) \/ v = JNull.

(** Since the conversation began in [w1], where nothing had been sent,
    the first [n] requests were delivered and their responses awaited,
    one after the other, and nothing else was done: each flush
    succeeded; the second request followed a response to the first
    without an [error] key, the third a response to the second that
    names [device_id] first. *)
Definition reached (json_dumps : json -> string) (json_loads : string -> option json)
    (c : child) (n : nat) (device_id : json) (w1 w : world) : Prop :=
  stdin_pipe w = requests json_dumps n device_id
  /\ stdin_buffer w = EmptyString
  /\ flushes w = n
  /\ reads w = reads w1 + n
  /\ files w = files w1
  /\ traffic (log w) = (traffic (log w1) ++ exchanges json_dumps n device_id)%list
  /\ (In ScreenshotSaved (log w) -> In ScreenshotSaved (log w1))
  /\ (forall k, k < n -> stdin_accepts c k = true)
  /\ (1 < n -> exists line v,
        yields json_loads c (reads w1) line v /\ py_in "error" v = Ok false)
  /\ (2 < n -> exists line v,
        yields json_loads c (S (reads w1)) line v /\ selects json_loads v device_id).

(** The capture response [v], read at the wait number [k], has a first
    content entry whose [data] decode to [data]. *)
Definition image_received (json_loads : string -> option json) (c : child) (k : nat)
    (data : string) : Prop :=
  exists line v image_data,
    yields json_loads c k line v
    /\ Shape.first_entry_field v "data" image_data
    /\ b64decode image_data = Ok data.

(** How the conversation ends, [n] requests being delivered and awaited
    in [wn]: with still steps; on a flush that fails; on a decoding that
    fails, the output file left open and empty; or on the print that the
    screenshot is saved, the output file holding the bytes decoded. *)
Definition ending (json_dumps : json -> string) (json_loads : string -> option json)
    (c : child) (n : nat) (wn : world) (st : world * result unit) : Prop :=
  still wn (fst st)
  \/ (n < 3 /\ stdin_accepts c n = false
      /\ exists m, st = (stuck json_dumps m wn, Raise BrokenPipeError))
  \/ (n = 3 /\ exists wn' e,
        still wn wn' /\ st = (stored output_path EmptyString wn', Raise e))
  \/ (n = 3 /\ exists wn' data,
        still wn wn' /\ image_received json_loads c (Nat.pred (reads wn)) data
        /\ st = (logged [ScreenshotSaved]
                   (stored output_path data (stored output_path EmptyString wn')),
                 Ok tt)).

(** Every file but the output file is in [w'] what it is in [w]. *)
Definition other_files_kept (w w' : world) : Prop :=
  forall path, path <> output_path -> files w' !! path = files w !! path.

(** The characters [a2b_base64] does not skip: the alphabet and [=]. *)
Definition significant (ch : ascii) : bool :=
  Ascii.eqb ch Base64.BASE64_PAD || (Base64.table_a2b_base64 ch <? 64)%N.

Fixpoint keep (f : ascii -> bool) (s : string) : string :=
  match s with
  | EmptyString => EmptyString
  | String ch rest => if f ch then String ch (keep f rest) else keep f rest
  end.

(** [pre] put before the bytes decoded. *)
Definition prepend (pre : string) (r : result string) : result string :=
  match r with
  | Ok out => Ok (pre +:+ out)
  | Raise e => Raise e
  end.

(** [s] occurs in [hay]. *)
Definition occurs_in (s hay : string) : Prop :=
  exists before after, hay = before +:+ (s +:+ after).

End Conduct.

(** ** More concrete pipes, children and runs *)

Module Samples.

Import Py Harness Codec Examples Drain.

Definition starting_line : string := "Starting server" +:+ newline.
Definition listening_line : string := "Listening on stdio" +:+ newline.

(** A line with a byte that no UTF-8 text contains. *)
Definition bad_line : string := String "255" newline.

(** An error stream with two lines, then its end. *)
Definition short_stream : pipe :=
  replay_pipe [starting_line; listening_line] (Ok EmptyString).

(** An error stream whose second line is not UTF-8. *)
Definition broken_stream : pipe :=
  replay_pipe [starting_line; bad_line; listening_line] (Ok EmptyString).

(** A child whose first output is [first], followed by silence. *)
Definition saying (first : string) : child :=
  replay [Some first] silence true (Some 1%Z).

(** A banner that is not JSON, and an array. *)
Definition banner_text : string := "mobile-mcp ready" +:+ newline.
Definition array_text : string := text "[1, 2]".
Definition array_message : json := JArr [JInt 1; JInt 2].

(** A response to initialize that is a string. *)
Definition remark_text : string := text "'no error here'".
Definition remark : json := JStr "no error here".

(** The run with [device_child] on the file system [fs]. *)
Definition device_run (fs : gmap string string) : world * result unit :=
  match main ref_dumps ref_loads fs (Some device_child) 2 with
  | Some st => st
  | None => (initial_world fs, Ok tt)
  end.

(** A file system with one file. *)
Definition notes : gmap string string := {[ "notes.txt" := "keep" ]}.

(** A file system in which the output file exists already. *)
Definition stale : gmap string string := {[ "screenshot.png" := "old" ]}.

(** A child like [device_child] whose input accepts one flush only. *)
Definition hanging_up_child : child :=
  Child (stdout device_child) (fun k => Nat.ltb k 1) true (Some 1%Z).

(** The run with [hanging_up_child] on an empty file system. *)
Definition hanging_up_run : world * result unit :=
  match main ref_dumps ref_loads ∅ (Some hanging_up_child) 2 with
  | Some st => st
  | None => (initial_world ∅, Ok tt)
  end.

(** The handshake with a child that starts with a banner. *)
Definition after_banner : world :=
  logged [WaitingForMessage 5; Received banner_text] (waited fresh).

(** Base64 data broken over two lines. *)
Definition wrapped_data : string := "SGVs" +:+ newline +:+ "bG8=".

End Samples.

(** * Properties *)

(** ** Strings *)

Lemma append_nil_r (s : string) : s +:+ EmptyString = s.
Proof.
  induction s as [|ch s IH]; [reflexivity|].
  change (String ch (s +:+ EmptyString) = String ch s). now rewrite IH.
Qed.

Lemma append_assoc (s t u : string) : (s +:+ t) +:+ u = s +:+ (t +:+ u).
Proof.
  induction s as [|ch s IH]; [reflexivity|].
  change (String ch ((s +:+ t) +:+ u) = String ch (s +:+ (t +:+ u))).
  now rewrite IH.
Qed.

(** ** base64: decoding what was encoded *)

Module Base64Facts.

Import Base64.
Local Open Scope N_scope.

Lemma all_below_spec (n : nat) (f : N -> bool) :
  all_below n f = true -> forall i, i < N.of_nat n -> f i = true.
Proof.
  induction n as [|k IH]; intros H i Hi; [lia|].
  cbn [all_below] in H. apply andb_prop in H as [H1 H2].
  destruct (N.eq_dec i (N.of_nat k)) as [->|Hne]; [exact H1|].
  apply IH; [exact H2|lia].
Qed.

Lemma ord_bounded (a : ascii) : ord a < N.of_nat 256.
Proof. unfold ord. pose proof (N_ascii_bounded a). lia. Qed.

Lemma chr_ord (a : ascii) : chr (ord a) = a.
Proof.
  unfold chr, ord. rewrite N.mod_small by apply N_ascii_bounded.
  apply ascii_N_embedding.
Qed.

(** Every sextet the encoder produces is below 64. *)
Lemma sextets_small (a b : ascii) :
  enc1 (ord a) < 64 /\ enc2 (ord a) (ord b) < 64 /\ enc3 (ord a) (ord b) < 64
  /\ enc4 (ord a) < 64 /\ enc2 (ord a) 0 < 64 /\ enc3 (ord a) 0 < 64.
Proof.
  assert (H : all_below 256 (fun x => all_below 256 (fun y =>
            (enc1 x <? 64) && (enc2 x y <? 64) && (enc3 x y <? 64)
            && (enc4 x <? 64) && (enc2 x 0 <? 64) && (enc3 x 0 <? 64))) = true)
    by (vm_compute; reflexivity).
  pose proof (all_below_spec _ _ (all_below_spec _ _ H _ (ord_bounded a)) _ (ord_bounded b)) as E.
  cbv beta in E. repeat (apply andb_prop in E as [E ?]).
  repeat match goal with X : (_ <? _) = true |- _ => apply N.ltb_lt in X end.
  tauto.
Qed.

(** The two tables are inverse on sextets, and no sextet is written [=]. *)
Lemma table_inverse (i : N) :
  i < 64 ->
  table_a2b_base64 (table_b2a_base64 i) = i
  /\ Ascii.eqb (table_b2a_base64 i) BASE64_PAD = false.
Proof.
  intros Hi.
  assert (H : all_below 64 (fun i =>
            (table_a2b_base64 (table_b2a_base64 i) =? i)
            && negb (Ascii.eqb (table_b2a_base64 i) BASE64_PAD)) = true)
    by (vm_compute; reflexivity).
  pose proof (all_below_spec _ _ H i Hi) as E. cbv beta in E.
  apply andb_prop in E as [E1 E2].
  apply N.eqb_eq in E1. apply negb_true_iff in E2. tauto.
Qed.

(** The bytes rebuilt from the sextets of a group are the bytes encoded. *)
Lemma first_byte (a b : ascii) :
  chr (N.lor (N.shiftl (enc1 (ord a)) 2) (N.shiftr (enc2 (ord a) (ord b)) 4)) = a
  /\ chr (N.lor (N.shiftl (enc1 (ord a)) 2) (N.shiftr (enc2 (ord a) 0) 4)) = a.
Proof.
  assert (H : all_below 256 (fun x => all_below 256 (fun y =>
            (N.lor (N.shiftl (enc1 x) 2) (N.shiftr (enc2 x y) 4) =? x)
            && (N.lor (N.shiftl (enc1 x) 2) (N.shiftr (enc2 x 0) 4) =? x))) = true)
    by (vm_compute; reflexivity).
  pose proof (all_below_spec _ _ (all_below_spec _ _ H _ (ord_bounded a)) _ (ord_bounded b)) as E.
  cbv beta in E. apply andb_prop in E as [E1 E2].
  apply N.eqb_eq in E1, E2. rewrite E1, E2. split; apply chr_ord.
Qed.

Lemma second_byte_parts (a b c : ascii) :
  N.land (enc2 (ord a) (ord b)) 15 = N.shiftr (ord b) 4
  /\ N.shiftr (enc3 (ord b) (ord c)) 2 = N.land (ord b) 15
  /\ N.shiftr (enc3 (ord b) 0) 2 = N.land (ord b) 15
  /\ N.lor (N.shiftl (N.shiftr (ord b) 4) 4) (N.land (ord b) 15) = ord b.
Proof.
  assert (H : all_below 256 (fun y => all_below 256 (fun x =>
            (N.land (enc2 x y) 15 =? N.shiftr y 4)
            && (N.shiftr (enc3 y x) 2 =? N.land y 15)
            && (N.shiftr (enc3 y 0) 2 =? N.land y 15)
            && (N.lor (N.shiftl (N.shiftr y 4) 4) (N.land y 15) =? y))) = true)
    by (vm_compute; reflexivity).
  pose proof (all_below_spec _ _ (all_below_spec _ _ H _ (ord_bounded b))) as E.
  pose proof (E _ (ord_bounded a)) as Ea. pose proof (E _ (ord_bounded c)) as Ec.
  cbv beta in Ea, Ec.
  repeat (apply andb_prop in Ea as [Ea ?]). repeat (apply andb_prop in Ec as [Ec ?]).
  repeat match goal with X : (_ =? _) = true |- _ => apply N.eqb_eq in X end.
  tauto.
Qed.

Lemma second_byte (a b c : ascii) :
  chr (N.lor (N.shiftl (N.land (enc2 (ord a) (ord b)) 15) 4)
             (N.shiftr (enc3 (ord b) (ord c)) 2)) = b
  /\ chr (N.lor (N.shiftl (N.land (enc2 (ord a) (ord b)) 15) 4)
                (N.shiftr (enc3 (ord b) 0) 2)) = b.
Proof.
  destruct (second_byte_parts a b c) as (E1 & E2 & E3 & E4).
  rewrite E1, E2, E3, E4. split; apply chr_ord.
Qed.

Lemma third_byte (b c : ascii) :
  chr (N.lor (N.shiftl (N.land (enc3 (ord b) (ord c)) 3) 6) (enc4 (ord c))) = c.
Proof.
  assert (H : all_below 256 (fun y => all_below 256 (fun x =>
            N.lor (N.shiftl (N.land (enc3 x y) 3) 6) (enc4 y) =? y)) = true)
    by (vm_compute; reflexivity).
  pose proof (all_below_spec _ _ (all_below_spec _ _ H _ (ord_bounded c)) _ (ord_bounded b)) as E.
  cbv beta in E. apply N.eqb_eq in E. rewrite E. apply chr_ord.
Qed.

(** One alphabet character advances the automaton by [a2b_shift]. *)
Lemma loop_alphabet (i : N) (rest : string) (st : a2b_state) :
  i < 64 ->
  a2b_loop (String (table_b2a_base64 i) rest) st = a2b_loop rest (a2b_shift st i).
Proof.
  intros Hi. destruct (table_inverse i Hi) as [E1 E2].
  cbn [a2b_loop]. rewrite E2, E1.
  destruct (N.leb_spec 64 i); [lia|reflexivity].
Qed.

(** A full group read from the start of a quad gives back its bytes. *)
Lemma loop_group (a b c : ascii) (rest out : string) :
  a2b_loop (String (table_b2a_base64 (enc1 (ord a)))
           (String (table_b2a_base64 (enc2 (ord a) (ord b)))
           (String (table_b2a_base64 (enc3 (ord b) (ord c)))
           (String (table_b2a_base64 (enc4 (ord c))) rest))))
           (A2B 0 0 0 out)
  = a2b_loop rest (A2B 0 0 0 (out +:+ String a (String b (String c EmptyString)))).
Proof.
  destruct (sextets_small a b) as (S1 & S2 & _).
  destruct (sextets_small b c) as (_ & _ & S3 & _).
  destruct (sextets_small c c) as (_ & _ & _ & S4 & _).
  rewrite !loop_alphabet by assumption.
  unfold a2b_shift, emit; cbn [quad_pos leftchar pads bin_data].
  rewrite (proj1 (first_byte a b)), (proj1 (second_byte a b c)), (third_byte b c).
  rewrite !append_assoc. reflexivity.
Qed.

(** Induction on byte strings three bytes at a time. *)
Lemma string_ind3 (P : string -> Prop) :
  P EmptyString ->
  (forall a, P (String a EmptyString)) ->
  (forall a b, P (String a (String b EmptyString))) ->
  (forall a b c rest, P rest -> P (String a (String b (String c rest)))) ->
  forall s, P s.
Proof.
  intros H0 H1 H2 H3 s.
  assert (H : P s /\ (forall a, P (String a s)) /\ (forall a b, P (String a (String b s)))).
  { induction s as [|ch s (IH0 & IH1 & IH2)]; [auto|].
    split; [apply IH1|]. split; [intros a; apply IH2|].
    intros a b. apply H3, IH0. }
  apply H.
Qed.

(** The decoder, started between two groups with [out] produced so
    far, reads an encoding up to its end or to its padding. *)
Lemma loop_encode (bs out : string) :
  match a2b_loop (b64encode bs) (A2B 0 0 0 out) with
  | inl res => res = out +:+ bs
  | inr st => quad_pos st = 0 /\ bin_data st = out +:+ bs
  end.
Proof.
  revert out. induction bs as [|a|a b|a b c rest IH] using string_ind3; intros out.
  - cbn. now rewrite append_nil_r.
  - destruct (sextets_small a a) as (S1 & _ & _ & _ & S2 & _).
    cbn [b64encode]. rewrite !loop_alphabet by assumption.
    unfold a2b_shift, emit; cbn [quad_pos leftchar pads bin_data].
    rewrite (proj2 (first_byte a a)). reflexivity.
  - destruct (sextets_small a b) as (S1 & S2 & _).
    destruct (sextets_small b b) as (_ & _ & _ & _ & _ & S3).
    cbn [b64encode]. rewrite !loop_alphabet by assumption.
    unfold a2b_shift, emit; cbn [quad_pos leftchar pads bin_data].
    rewrite (proj1 (first_byte a b)), (proj2 (second_byte a b b)).
    rewrite !append_assoc. reflexivity.
  - cbn [b64encode]. rewrite loop_group.
    specialize (IH (out +:+ String a (String b (String c EmptyString)))).
    rewrite !append_assoc in IH. exact IH.
Qed.

Lemma a2b_b64encode (bs : string) : a2b_base64 (b64encode bs) = Ok bs.
Proof.
  unfold a2b_base64, a2b_init. pose proof (loop_encode bs EmptyString) as H.
  destruct (a2b_loop (b64encode bs) (A2B 0 0 0 EmptyString)) as [res|st].
  - now rewrite H.
  - destruct H as [-> ->]. reflexivity.
Qed.

(** An encoding is made of ASCII characters. *)
Lemma table_ascii (i : N) : (ord (table_b2a_base64 i) <? 128) = true.
Proof.
  destruct (N.lt_ge_cases i 64) as [Hi|Hi].
  - assert (H : all_below 64 (fun i => ord (table_b2a_base64 i) <? 128) = true)
      by (vm_compute; reflexivity).
    exact (all_below_spec _ _ H i Hi).
  - unfold table_b2a_base64.
    assert (E : String.get (N.to_nat i) alphabet = None).
    { assert (Hn : (64 <= N.to_nat i)%nat) by lia.
      destruct (String.get (N.to_nat i) alphabet) eqn:G; [|reflexivity].
      exfalso. clear Hi.
      assert (L : forall s n ch, String.get n s = Some ch -> (n < String.length s)%nat).
      { induction s as [|x s IHs]; intros [|m] ch' Hg; cbn in *; try discriminate; try lia.
        apply IHs in Hg. lia. }
      apply L in G. cbn in G. lia. }
    rewrite E. reflexivity.
Qed.

Lemma b64encode_ascii (bs : string) : is_ascii (b64encode bs) = true.
Proof.
  unfold is_ascii.
  induction bs as [|a|a b|a b c rest IH] using string_ind3;
    cbn [b64encode list_ascii_of_string forallb];
    rewrite ?table_ascii; try reflexivity.
  exact IH.
Qed.

Example encode_hello : b64encode "Hello" = "SGVsbG8=".
Proof. reflexivity. Qed.

Example decode_hello : a2b_base64 "SGVsbG8=" = Ok "Hello"%string.
Proof. reflexivity. Qed.

(** Characters outside the alphabet are skipped, and what follows a
    complete padding is not read. *)
Example decode_lenient : a2b_base64 "SGV sbG8=!SGVs" = Ok "Hello"%string.
Proof. reflexivity. Qed.

Example decode_unpadded : a2b_base64 "SGVsbG8" = Raise BinasciiError.
Proof. reflexivity. Qed.

End Base64Facts.

(** ** The harness, step by step *)

Module Steps.

Import Py Harness Shape.

Ltac fields :=
  cbn [reads flushes stdin_buffer stdin_pipe log files child_alive sigterm_sent
       stderr_joined logged delivered waited stored spawned initial_world
       set_log set_reads set_stdin set_files set_process fst snd] in *.

(** Unfolds the plumbing of a computation down to its calls of
    [send_message], [read_message] and the lookups in mappings. *)
Ltac plumb :=
  cbv beta iota delta [mbind M_bind mret M_ret lift raise loads_value loads
                       py_in getitem getitem0 get has_content first_content].

(** Runs a computation on messages whose shape the hypotheses describe. *)
Ltac shape :=
  repeat (plumb;
          progress (repeat match goal with
                           | H : ?x = _ |- context [?x] => rewrite H
                           end)).

(** Two descriptions of one world, up to the grouping of the log. *)
Ltac same_world :=
  unfold logged, delivered, waited, stored, spawned; fields;
  rewrite <- ?List.app_assoc; reflexivity.

Lemma logged_logged (l1 l2 : list entry) (w : world) :
  logged l2 (logged l1 w) = logged (l1 ++ l2) w.
Proof. unfold logged, set_log. fields. now rewrite <- List.app_assoc. Qed.

Lemma say_logged (e : entry) (w : world) : say e w = (logged [e] w, Ok tt).
Proof. reflexivity. Qed.

(** *** Frames *)

Lemma same_stdin_refl (w : world) : same_stdin w w.
Proof. repeat split. Qed.

Lemma same_stdin_trans (w1 w2 w3 : world) :
  same_stdin w1 w2 -> same_stdin w2 w3 -> same_stdin w1 w3.
Proof. unfold same_stdin. intuition congruence. Qed.

Lemma only_listened_trans (w1 w2 w3 : world) :
  only_listened w1 w2 -> only_listened w2 w3 -> only_listened w1 w3.
Proof. unfold only_listened, same_stdin. intuition congruence. Qed.

Section Keeps.

Variable R : world -> world -> Prop.
Hypothesis R_refl : forall w, R w w.
Hypothesis R_trans : forall w1 w2 w3, R w1 w2 -> R w2 w3 -> R w1 w3.

Lemma keeps_bind {A B : Type} (m : M A) (f : A -> M B) :
  keeps R m -> (forall a, keeps R (f a)) -> keeps R (m ≫= f).
Proof.
  intros Hm Hf w. unfold mbind, M_bind. specialize (Hm w).
  destruct (m w) as [w1 [a|e]]; fields; [|exact Hm].
  exact (R_trans _ _ _ Hm (Hf a w1)).
Qed.

Lemma keeps_ret {A : Type} (a : A) : keeps R (mret a : M A).
Proof. intros w. apply R_refl. Qed.

Lemma keeps_lift {A : Type} (r : result A) : keeps R (lift r).
Proof. intros w. apply R_refl. Qed.

End Keeps.

Lemma keeps_weaken {A : Type} (m : M A) : keeps only_listened m -> keeps same_stdin m.
Proof. intros H w. apply H. Qed.

Lemma keeps_say (e : entry) : keeps only_listened (say e).
Proof. intros w. repeat split. Qed.

Lemma keeps_open_wb (path : string) : keeps same_stdin (open_wb path).
Proof. intros w. repeat split. Qed.

Lemma keeps_file_write (path data : string) : keeps same_stdin (file_write path data).
Proof. intros w. repeat split. Qed.

Lemma keeps_has_content (R : world -> world -> Prop) (r : json) :
  (forall w, R w w) -> keeps R (has_content r).
Proof.
  intros HR w. unfold has_content. plumb.
  destruct r; try apply HR; cbn [fst].
  all: repeat match goal with
              | |- context [match ?x with _ => _ end] => destruct x; cbn [fst]
              end; apply HR.
Qed.

Lemma keeps_first_content (R : world -> world -> Prop) (r : json) (field : string) :
  (forall w, R w w) -> keeps R (first_content r field).
Proof.
  intros HR w. unfold first_content. plumb.
  destruct r; try apply HR; cbn [fst].
  all: repeat match goal with
              | |- context [match ?x with _ => _ end] => destruct x; cbn [fst]
              end; apply HR.
Qed.

Section Codec.

Variable json_dumps : json -> string.
Variable json_loads : string -> option json.
Variable c : child.

#[local] Abbreviation send_message := (send_message json_dumps c).
#[local] Abbreviation read_message := (read_message json_loads c).
#[local] Abbreviation yields := (yields json_loads c).
#[local] Abbreviation handshake_round := (handshake_round json_loads c).
#[local] Abbreviation handshake := (handshake json_loads c).
#[local] Abbreviation capture := (capture json_dumps json_loads c).

(** [send_message] writes the serialization and the two characters
    [backslash_n], flushes, and prints. *)
Lemma send_message_ok (m : json) (w : world) :
  stdin_accepts c (flushes w) = true ->
  send_message m w
  = (logged [Sent (json_dumps m)] (delivered (json_dumps m +:+ backslash_n) w), Ok tt).
Proof.
  intros H. unfold Harness.send_message, stdin_write, stdin_flush. plumb. fields.
  rewrite H. reflexivity.
Qed.

Lemma send_message_broken (m : json) (w : world) :
  stdin_accepts c (flushes w) = false ->
  send_message m w
  = (set_stdin (S (flushes w)) (stdin_buffer w +:+ (json_dumps m +:+ backslash_n))
               (stdin_pipe w) w, Raise BrokenPipeError).
Proof.
  intros H. unfold Harness.send_message, stdin_write, stdin_flush. plumb. fields.
  rewrite H. reflexivity.
Qed.

Lemma read_message_yields (t : Z) (w : world) (line : string) (v : json) :
  yields (reads w) line v ->
  read_message t w
  = (logged [WaitingForMessage t; Received line] (waited w), Ok v).
Proof.
  intros (raw & Hraw & Hdec & Hne & Hload).
  unfold Harness.read_message, select_readline. plumb. rewrite say_logged. fields.
  rewrite Hraw, Hdec. apply String.eqb_neq in Hne. rewrite Hne, say_logged, Hload.
  unfold logged, set_log; fields. now rewrite <- List.app_assoc.
Qed.

Lemma read_message_eof (t : Z) (w : world) :
  stdout c (reads w) = Some EmptyString ->
  read_message t w = (logged [WaitingForMessage t] (waited w), Ok JNull).
Proof.
  intros H.
  unfold Harness.read_message, select_readline. plumb. rewrite say_logged. fields.
  rewrite H. reflexivity.
Qed.

Lemma read_message_timeout (t : Z) (w : world) :
  stdout c (reads w) = None ->
  read_message t w
  = (logged [WaitingForMessage t] (waited w),
     Raise (TimeoutError "Timed out waiting for a response from the server.")).
Proof.
  intros H.
  unfold Harness.read_message, select_readline. plumb. rewrite say_logged. fields.
  rewrite H. reflexivity.
Qed.

(** A wait changes nothing but the count of reads and the log, and
    counts as one read. *)
Lemma read_message_listens (t : Z) (w : world) :
  only_listened w (fst (read_message t w))
  /\ reads (fst (read_message t w)) = S (reads w).
Proof.
  unfold Harness.read_message, select_readline. plumb. rewrite say_logged. fields.
  destruct (stdout c (reads w)) as [raw|]; [|repeat split].
  destruct (decode_utf8 raw) as [line|e]; [|repeat split].
  destruct (String.eqb line EmptyString); [repeat split|].
  rewrite say_logged. destruct (json_loads line); repeat split.
Qed.

Lemma keeps_read_message (t : Z) : keeps only_listened (read_message t).
Proof. intros w. apply read_message_listens. Qed.

(** *** One round of the handshake loop *)

Lemma server_info_truthy (v : json) : server_info v -> truthy v = true.
Proof. intros (members & -> & H). destruct members; [discriminate|reflexivity]. Qed.

Lemma other_value_verdict (x : json) :
  x <> JStr "server_info" -> eq_str x "server_info" = false.
Proof.
  intros H. destruct x; try reflexivity. cbn. apply String.eqb_neq. congruence.
Qed.

Lemma round_server_info (w : world) (line : string) (v : json) :
  yields (reads w) line v -> server_info v ->
  handshake_round w
  = (logged [WaitingForMessage 5; Received line; ServerInfoReceived] (waited w), Ok true).
Proof.
  intros Hy Hv. pose proof (server_info_truthy v Hv) as Ht.
  destruct Hv as (members & -> & Hm).
  unfold Harness.handshake_round, handshake_attempt. plumb.
  rewrite (read_message_yields _ _ _ _ Hy). plumb. rewrite Ht. plumb. rewrite Hm.
  plumb. cbn [eq_str]. rewrite String.eqb_refl, say_logged, logged_logged. reflexivity.
Qed.

Lemma round_other_message (w : world) (line : string) (v : json) :
  yields (reads w) line v -> other_message v ->
  handshake_round w
  = (logged [WaitingForMessage 5; Received line; WaitingForServerInfo] (waited w), Ok false).
Proof.
  intros Hy (members & -> & Hm).
  unfold Harness.handshake_round, handshake_attempt. plumb.
  rewrite (read_message_yields _ _ _ _ Hy). plumb.
  destruct (truthy (JObj members)); plumb.
  - destruct (lookup_key "method" members) as [x|]; plumb.
    + rewrite other_value_verdict by congruence.
      rewrite say_logged, logged_logged. reflexivity.
    + cbn [eq_str]. rewrite say_logged, logged_logged. reflexivity.
  - rewrite say_logged, logged_logged. reflexivity.
Qed.

Lemma round_timeout (w : world) :
  stdout c (reads w) = None ->
  handshake_round w
  = (logged [WaitingForMessage 5; NoMessageFromServer] (waited w), Ok true).
Proof.
  intros H. unfold Harness.handshake_round, handshake_attempt. plumb.
  rewrite (read_message_timeout _ _ H). plumb. cbn [is_TimeoutError].
  plumb. rewrite say_logged, logged_logged. reflexivity.
Qed.

Lemma round_eof (w : world) :
  stdout c (reads w) = Some EmptyString ->
  handshake_round w
  = (logged [WaitingForMessage 5; WaitingForServerInfo] (waited w), Ok false).
Proof.
  intros H. unfold Harness.handshake_round, handshake_attempt. plumb.
  rewrite (read_message_eof _ _ H). plumb. cbn [truthy]. plumb.
  rewrite say_logged, logged_logged. reflexivity.
Qed.

(** A round only listens, and makes one read. *)
Lemma round_listens (w : world) :
  only_listened w (fst (handshake_round w))
  /\ reads (fst (handshake_round w)) = S (reads w).
Proof.
  unfold Harness.handshake_round, handshake_attempt. plumb.
  destruct (read_message_listens 5 w) as [HL HR].
  destruct (Harness.read_message json_loads c 5 w) as [w1 [v|e]]; fields.
  - destruct (truthy v); plumb.
    + destruct v; fields; try (split; [exact HL|exact HR]).
      destruct (lookup_key "method" members); plumb;
        destruct (eq_str _ _); rewrite say_logged; fields; (split; [exact HL|exact HR]).
    + rewrite say_logged; fields. split; [exact HL|exact HR].
  - destruct (is_TimeoutError e); plumb; [rewrite say_logged|]; fields;
      (split; [exact HL|exact HR]).
Qed.

Lemma handshake_listens (fuel : nat) (w w' : world) (r : result unit) :
  handshake fuel w = Some (w', r) -> only_listened w w'.
Proof.
  revert w. induction fuel as [|fuel IH]; intros w H; [discriminate|].
  cbn [Harness.handshake] in H.
  destruct (round_listens w) as [HL _].
  destruct (Harness.handshake_round json_loads c w) as [w1 [[|]|e]]; fields.
  - now inversion H; subst.
  - exact (only_listened_trans _ _ _ HL (IH _ H)).
  - now inversion H; subst.
Qed.

(** More fuel does not change the outcome of a loop that ended. *)
Lemma handshake_more_fuel (fuel : nat) (w : world) (st : world * result unit) :
  handshake fuel w = Some st -> handshake (S fuel) w = Some st.
Proof.
  revert w. induction fuel as [|fuel IH]; intros w H; [discriminate|].
  cbn [Harness.handshake] in H. change (Harness.handshake json_loads c (S (S fuel)) w)
    with (match Harness.handshake_round json_loads c w with
          | (w', Ok true) => Some (w', Ok tt)
          | (w', Ok false) => Harness.handshake json_loads c (S fuel) w'
          | (w', Raise e) => Some (w', Raise e)
          end).
  destruct (Harness.handshake_round json_loads c w) as [w1 [[|]|e]]; try exact H.
  apply IH, H.
Qed.

(** *** The capture step *)

Lemma keeps_save_screenshot (r : json) : keeps same_stdin (save_screenshot r).
Proof.
  unfold Harness.save_screenshot.
  apply keeps_bind; [apply same_stdin_trans|apply keeps_has_content, same_stdin_refl|].
  intros [|]; [|apply keeps_ret, same_stdin_refl].
  apply keeps_bind; [apply same_stdin_trans|apply keeps_first_content, same_stdin_refl|].
  intros image_data.
  apply keeps_bind; [apply same_stdin_trans|apply keeps_open_wb|]. intros _.
  apply keeps_bind; [apply same_stdin_trans|apply keeps_lift, same_stdin_refl|].
  intros data.
  apply keeps_bind; [apply same_stdin_trans|apply keeps_file_write|]. intros _.
  apply keeps_weaken, keeps_say.
Qed.

(** Whatever the child answers, the capture step sends one request,
    the one naming the device. *)
Lemma capture_sends_once (device_id : json) (w : world) :
  stdin_accepts c (flushes w) = true ->
  same_stdin (delivered (json_dumps (screenshot_request device_id) +:+ backslash_n) w)
             (fst (capture device_id w)).
Proof.
  intros H. unfold Harness.capture. unfold mbind at 1, M_bind at 1.
  rewrite (send_message_ok _ _ H).
  set (w1 := logged _ _).
  assert (H1 : same_stdin (delivered (json_dumps (screenshot_request device_id) +:+ backslash_n) w) w1)
    by (repeat split).
  apply (same_stdin_trans _ _ _ H1).
  apply (keeps_bind same_stdin same_stdin_trans).
  - apply keeps_weaken, keeps_read_message.
  - intros r. apply (keeps_bind same_stdin same_stdin_trans).
    + apply keeps_weaken, keeps_say.
    + intros _. apply keeps_save_screenshot.
Qed.

(** *** The three steps on given answers *)

#[local] Abbreviation initialize := (initialize json_dumps json_loads c).
#[local] Abbreviation exchanged := (exchanged json_dumps).
#[local] Abbreviation hung_up := (hung_up json_dumps).
#[local] Abbreviation list_devices := (list_devices json_dumps json_loads c).

Lemma initialize_answered (w : world) (line : string) (v : json) :
  stdin_accepts c (flushes w) = true -> yields (reads w) line v ->
  initialize w
  = match py_in "error" v with
    | Ok true => (exchanged init_request line (InitializeResponse v) w,
                  Raise (RuntimeError "Server initialization failed"))
    | Ok false => (exchanged init_request line (InitializeResponse v) w, Ok tt)
    | Raise e => (exchanged init_request line (InitializeResponse v) w, Raise e)
    end.
Proof.
  intros Hs Hy. unfold Harness.initialize.
  cbv beta iota delta [mbind M_bind mret M_ret lift raise].
  rewrite send_message_ok by exact Hs. erewrite read_message_yields by exact Hy.
  rewrite say_logged.
  destruct (py_in "error" v) as [[|]|e]; f_equal; unfold Harness.exchanged; same_world.
Qed.

Lemma initialize_eof (w : world) :
  stdin_accepts c (flushes w) = true -> stdout c (reads w) = Some EmptyString ->
  initialize w = (hung_up init_request (InitializeResponse JNull) w, Raise TypeError).
Proof.
  intros Hs He. unfold Harness.initialize. plumb.
  rewrite send_message_ok by exact Hs. rewrite read_message_eof by exact He.
  rewrite say_logged. f_equal. unfold Harness.hung_up; same_world.
Qed.

(** The device-listing step up to the test of the response's shape. *)
Lemma list_devices_answered (w : world) (line : string) (r : json) :
  stdin_accepts c (flushes w) = true -> yields (reads w) line r ->
  list_devices w
  = (ok ← has_content r;
     if ok : bool then
       devices_text ← first_content r "text";
       devices_data ← lift (loads_value json_loads devices_text);
       devices ← lift (getitem devices_data "devices");
       if truthy devices then
         first ← lift (getitem0 devices);
         device_id ← lift (getitem first "id");
         say (FoundDevice device_id) ;;
         capture device_id
       else say NoDevicesFound
     else mret tt) (exchanged list_devices_request line (ListDevicesResponse r) w).
Proof.
  intros Hs Hy. unfold Harness.list_devices.
  unfold mbind at 1 2 3, M_bind at 1 2 3.
  rewrite send_message_ok by exact Hs. erewrite read_message_yields by exact Hy.
  rewrite say_logged.
  replace (logged [ListDevicesResponse r] _)
    with (exchanged list_devices_request line (ListDevicesResponse r) w)
    by (unfold Harness.exchanged; same_world).
  reflexivity.
Qed.

Lemma list_devices_eof (w : world) :
  stdin_accepts c (flushes w) = true -> stdout c (reads w) = Some EmptyString ->
  list_devices w
  = (hung_up list_devices_request (ListDevicesResponse JNull) w, Raise TypeError).
Proof.
  intros Hs He. unfold Harness.list_devices. plumb.
  rewrite send_message_ok by exact Hs. rewrite read_message_eof by exact He.
  rewrite say_logged. f_equal. unfold Harness.hung_up; same_world.
Qed.

Lemma capture_answered (device_id : json) (w : world) (line : string) (r : json) :
  stdin_accepts c (flushes w) = true -> yields (reads w) line r ->
  capture device_id w
  = save_screenshot r
      (exchanged (screenshot_request device_id) line (ScreenshotResponse r) w).
Proof.
  intros Hs Hy. unfold Harness.capture.
  unfold mbind at 1 2 3, M_bind at 1 2 3.
  rewrite send_message_ok by exact Hs. erewrite read_message_yields by exact Hy.
  rewrite say_logged.
  replace (logged [ScreenshotResponse r] _)
    with (exchanged (screenshot_request device_id) line (ScreenshotResponse r) w)
    by (unfold Harness.exchanged; same_world).
  reflexivity.
Qed.

Lemma capture_eof (device_id : json) (w : world) :
  stdin_accepts c (flushes w) = true -> stdout c (reads w) = Some EmptyString ->
  capture device_id w
  = (hung_up (screenshot_request device_id) (ScreenshotResponse JNull) w, Raise TypeError).
Proof.
  intros Hs He. unfold Harness.capture, Harness.save_screenshot. plumb.
  rewrite send_message_ok by exact Hs. rewrite read_message_eof by exact He.
  rewrite say_logged. f_equal. unfold Harness.hung_up; same_world.
Qed.

(** *** Shutdown *)

Lemma shutdown_eval (w : world) :
  shutdown c w
  = if alive_at_shutdown c then
      if exits_within c 5
      then (set_process false true true (logged [TerminatingServer] w), Ok tt)
      else (set_process true true (stderr_joined w) (logged [TerminatingServer] w),
            Raise TimeoutExpired)
    else (set_process false (sigterm_sent w) true w, Ok tt).
Proof.
  unfold shutdown, poll, terminate, wait, join_stderr_thread. plumb. fields.
  destruct (alive_at_shutdown c); plumb; [|reflexivity].
  rewrite say_logged. fields. destruct (exits_within c 5); reflexivity.
Qed.

(** Shutdown keeps what was printed and what was sent. *)
Lemma shutdown_keeps (w : world) (e : entry) :
  (In e (log w) -> In e (log (fst (shutdown c w))))
  /\ same_stdin w (fst (shutdown c w)) /\ files (fst (shutdown c w)) = files w
  /\ reads (fst (shutdown c w)) = reads w.
Proof.
  rewrite shutdown_eval.
  destruct (alive_at_shutdown c); [destruct (exits_within c 5)|]; fields;
    repeat split; try (intros H; apply in_or_app; now left); auto.
Qed.

End Codec.

End Steps.

(** ** The claims of the specification *)

Module Claims.

Import Py Harness Shape Steps.
Local Open Scope list_scope.

Section Codec.

Variable json_dumps : json -> string.
Variable json_loads : string -> option json.
Variable c : child.

#[local] Abbreviation send_message := (send_message json_dumps c).
#[local] Abbreviation yields := (yields json_loads c).
#[local] Abbreviation handshake := (handshake json_loads c).
#[local] Abbreviation scripted := (scripted json_dumps json_loads c).
#[local] Abbreviation conversation := (conversation json_dumps json_loads c).
#[local] Abbreviation initialize := (initialize json_dumps json_loads c).
#[local] Abbreviation list_devices := (list_devices json_dumps json_loads c).
#[local] Abbreviation capture := (capture json_dumps json_loads c).
#[local] Abbreviation exchanged := (exchanged json_dumps).
#[local] Abbreviation hung_up := (hung_up json_dumps).
#[local] Abbreviation main := (main json_dumps json_loads).

(** C1.  What [send_message] writes to the child's input is the
    serialization of the message followed by the two characters backslash
    and n, not by a newline; when the pipe accepts it the buffer is flushed
    at once and nothing remains in it. *)
Theorem send_message_writes_backslash_n (m : json) (w : world) :
  let st := send_message m w in
  stdin_pipe (fst st) +:+ stdin_buffer (fst st)
  = stdin_pipe w +:+ (stdin_buffer w +:+ (json_dumps m +:+ backslash_n))
  /\ (if stdin_accepts c (flushes w)
      then stdin_buffer (fst st) = EmptyString /\ snd st = Ok tt
      else snd st = Raise BrokenPipeError)
  /\ json_dumps m +:+ backslash_n <> json_dumps m +:+ newline.
Proof.
  cbv zeta. split; [|split].
  - destruct (stdin_accepts c (flushes w)) eqn:H.
    + rewrite send_message_ok by exact H. fields. apply append_nil_r.
    + rewrite send_message_broken by exact H. fields. reflexivity.
  - destruct (stdin_accepts c (flushes w)) eqn:H.
    + rewrite send_message_ok by exact H. split; reflexivity.
    + rewrite send_message_broken by exact H. reflexivity.
  - intros E. apply String.app_inj in E. discriminate E.
Qed.

(** C2, amended.  Shutdown asks a child that is still running to
    terminate and waits five seconds for it.  It completes, with the
    child gone and the draining thread joined, when the child has exited
    already or exits within those five seconds.  When the child ignores
    the request for longer, nothing forces it to exit: the timeout of the
    wait leaves Shutdown as an error, the child keeps running and the
    thread is not joined. *)
Theorem shutdown_has_no_forced_exit (w : world) :
  let st := shutdown c w in
  if alive_at_shutdown c then
    sigterm_sent (fst st) = true /\ log (fst st) = log w ++ [TerminatingServer]
    /\ (if exits_within c 5
        then snd st = Ok tt /\ child_alive (fst st) = false
             /\ stderr_joined (fst st) = true
        else snd st = Raise TimeoutExpired /\ child_alive (fst st) = true
             /\ stderr_joined (fst st) = stderr_joined w)
  else snd st = Ok tt /\ sigterm_sent (fst st) = sigterm_sent w
       /\ log (fst st) = log w /\ child_alive (fst st) = false
       /\ stderr_joined (fst st) = true.
Proof.
  cbv zeta. rewrite shutdown_eval.
  destruct (alive_at_shutdown c); [destruct (exits_within c 5)|]; fields;
    repeat split.
Qed.

(** C3, amended.  Every failure of the scripted conversation is caught
    by the top-level handler and printed, and Shutdown follows; a failure
    to spawn the child is printed as well.  The exit status does not
    tell failure from success: it is zero whenever Shutdown completes and
    one only when the wait of Shutdown times out. *)
Theorem failures_are_caught_not_reported (fs : gmap string string) (fuel : nat)
    (w1 : world) (r1 : result unit) :
  scripted fuel (spawned (initial_world fs)) = Some (w1, r1) ->
  exists w r,
    main fs (Some c) fuel = Some (w, r)
    /\ (w, r) = shutdown c (handler (w1, r1))
    /\ (forall e, r1 = Raise e ->
          log (handler (w1, r1)) = log w1 ++ [ErrorOccurred e]
          /\ In (ErrorOccurred e) (log w))
    /\ exit_code r
       = (if alive_at_shutdown c && negb (exits_within c 5) then 1 else 0)%Z
    /\ main fs None fuel
       = Some (logged [ErrorOccurred OSError] (initial_world fs), Ok tt).
Proof.
  intros H.
  exists (fst (shutdown c (handler (w1, r1)))), (snd (shutdown c (handler (w1, r1)))).
  split; [|split; [|split; [|split]]].
  - unfold Harness.main, run. rewrite H. now destruct (shutdown c (handler (w1, r1))).
  - now destruct (shutdown c (handler (w1, r1))).
  - intros e ->. split; [reflexivity|].
    apply shutdown_keeps. cbn [handler]. rewrite say_logged. fields.
    apply in_or_app. right. now left.
  - rewrite shutdown_eval.
    destruct (alive_at_shutdown c); [destruct (exits_within c 5)|]; reflexivity.
  - reflexivity.
Qed.

(** C10.  When the wait of the initialize, device-listing or capture
    step meets the end of the child's output, [read_message] returns
    [None], the membership test on it raises a [TypeError], and the
    handler prints it like any other failure. *)
Theorem end_of_stream_raises_TypeError (w : world) :
  stdin_accepts c (flushes w) = true ->
  stdout c (reads w) = Some EmptyString ->
  initialize w = (hung_up init_request (InitializeResponse JNull) w, Raise TypeError)
  /\ list_devices w
     = (hung_up list_devices_request (ListDevicesResponse JNull) w, Raise TypeError)
  /\ (forall device_id,
        capture device_id w
        = (hung_up (screenshot_request device_id) (ScreenshotResponse JNull) w,
           Raise TypeError))
  /\ forall w', log (handler (w', Raise TypeError)) = log w' ++ [ErrorOccurred TypeError].
Proof.
  intros Hs He. split; [|split; [|split]].
  - now apply initialize_eof.
  - now apply list_devices_eof.
  - intros device_id. now apply capture_eof.
  - reflexivity.
Qed.

(** C6.  One round of the handshake loop: a received message whose
    method is [server_info] ends the handshake at once and the
    conversation starts; so does a wait that times out; any other
    message is printed and the loop waits again. *)
Theorem handshake_round_outcomes (fuel : nat) (w : world) :
  (forall line v, yields (reads w) line v -> server_info v ->
     let w' := logged [WaitingForMessage 5; Received line; ServerInfoReceived]
                      (waited w) in
     handshake (S fuel) w = Some (w', Ok tt)
     /\ scripted (S fuel) w = Some (conversation w'))
  /\ (stdout c (reads w) = None ->
     let w' := logged [WaitingForMessage 5; NoMessageFromServer] (waited w) in
     handshake (S fuel) w = Some (w', Ok tt)
     /\ scripted (S fuel) w = Some (conversation w'))
  /\ (forall line v, yields (reads w) line v -> other_message v ->
     let w' := logged [WaitingForMessage 5; Received line; WaitingForServerInfo]
                      (waited w) in
     handshake (S fuel) w = handshake fuel w'
     /\ scripted (S fuel) w = scripted fuel w').
Proof.
  split; [|split].
  - intros line v Hy Hv w'.
    assert (E : handshake (S fuel) w = Some (w', Ok tt))
      by (cbn [Harness.handshake]; now rewrite (round_server_info _ _ _ _ _ Hy Hv)).
    split; [exact E|]. unfold Harness.scripted. now rewrite E.
  - intros Ht w'.
    assert (E : handshake (S fuel) w = Some (w', Ok tt))
      by (cbn [Harness.handshake]; now rewrite (round_timeout _ _ _ Ht)).
    split; [exact E|]. unfold Harness.scripted. now rewrite E.
  - intros line v Hy Hv w'.
    assert (E : handshake (S fuel) w = handshake fuel w')
      by (cbn [Harness.handshake]; now rewrite (round_other_message _ _ _ _ _ Hy Hv)).
    split; [exact E|]. unfold Harness.scripted. now rewrite E.
Qed.

(** The loop ends at the first wait that times out or yields
    [server_info], after one round for each other message before it. *)
Lemma handshake_ends (n : nat) (w : world) :
  (forall i, i < n -> exists line v, yields (reads w + i) line v /\ other_message v) ->
  (stdout c (reads w + n) = None
   \/ exists line v, yields (reads w + n) line v /\ server_info v) ->
  forall fuel, n < fuel ->
  exists w', handshake fuel w = Some (w', Ok tt)
             /\ reads w' = reads w + S n
             /\ only_listened w w'
             /\ scripted fuel w = Some (conversation w').
Proof.
  revert w. induction n as [|n IH]; intros w Hother Hready fuel Hfuel.
  - destruct fuel as [|fuel]; [lia|]. rewrite Nat.add_0_r in Hready.
    assert (E : exists w', handshake (S fuel) w = Some (w', Ok tt)
                           /\ reads w' = S (reads w)).
    { destruct Hready as [Ht|(line & v & Hy & Hv)].
      - eexists. cbn [Harness.handshake]. rewrite (round_timeout _ _ _ Ht).
        split; reflexivity.
      - eexists. cbn [Harness.handshake]. rewrite (round_server_info _ _ _ _ _ Hy Hv).
        split; reflexivity. }
    destruct E as (w' & E & Hr). exists w'.
    split; [exact E|]. split; [lia|]. split; [exact (handshake_listens _ _ _ _ _ _ E)|].
    unfold Harness.scripted. now rewrite E.
  - destruct fuel as [|fuel]; [lia|].
    destruct (Hother 0) as (line & v & Hy & Hv); [lia|]. rewrite Nat.add_0_r in Hy.
    set (w1 := logged [WaitingForMessage 5; Received line; WaitingForServerInfo] (waited w)).
    assert (E : handshake (S fuel) w = handshake fuel w1)
      by (cbn [Harness.handshake]; now rewrite (round_other_message _ _ _ _ _ Hy Hv)).
    assert (R1 : reads w1 = S (reads w)) by reflexivity.
    destruct (IH w1) with (fuel := fuel) as (w' & E' & Hr & HL & _).
    + intros i Hi. rewrite R1. replace (S (reads w) + i) with (reads w + S i) by lia.
      apply Hother. lia.
    + rewrite R1. replace (S (reads w) + n) with (reads w + S n) by lia. exact Hready.
    + lia.
    + exists w'. rewrite E. split; [exact E'|]. split; [lia|].
      split; [|unfold Harness.scripted; now rewrite E, E'].
      apply (only_listened_trans w w1 w'); [repeat split|exact HL].
Qed.

(** The loop goes on as long as other messages keep coming. *)
Lemma handshake_goes_on (fuel : nat) (w : world) :
  (forall i, exists line v, yields (reads w + i) line v /\ other_message v) ->
  handshake fuel w = None.
Proof.
  revert w. induction fuel as [|fuel IH]; intros w Hother; [reflexivity|].
  destruct (Hother 0) as (line & v & Hy & Hv). rewrite Nat.add_0_r in Hy.
  cbn [Harness.handshake]. rewrite (round_other_message _ _ _ _ _ Hy Hv).
  apply IH. intros i. fields.
  replace (S (reads w) + i) with (reads w + S i) by lia. apply Hother.
Qed.

(** C4, amended.  The handshake loop ends, and the conversation starts,
    at the first wait that times out or yields a message whose method is
    [server_info]; the messages with another method received before
    that only prolong it, one round each.  The loop has no bound of its
    own: while such messages keep coming, each before the timeout, it
    goes on, and the conversation never starts. *)
Theorem handshake_ends_at_first_ready_wait (w : world) :
  (forall n,
     (forall i, i < n -> exists line v, yields (reads w + i) line v /\ other_message v) ->
     (stdout c (reads w + n) = None
      \/ exists line v, yields (reads w + n) line v /\ server_info v) ->
     forall fuel, n < fuel ->
     exists w', handshake fuel w = Some (w', Ok tt)
                /\ reads w' = reads w + S n
                /\ only_listened w w'
                /\ scripted fuel w = Some (conversation w'))
  /\ ((forall i, exists line v, yields (reads w + i) line v /\ other_message v) ->
      forall fuel, handshake fuel w = None /\ scripted fuel w = None).
Proof.
  split.
  - intros n. apply handshake_ends.
  - intros Hother fuel.
    pose proof (handshake_goes_on fuel w Hother) as E.
    split; [exact E|]. unfold Harness.scripted. now rewrite E.
Qed.

(** C7.  When the handshake has ended and the response to the
    initialize request is a mapping with an [error] key, the run fails
    with the error of a refused initialization, which the handler
    prints; the initialize request is the only thing ever sent to the
    child, and it is sent once. *)
Theorem initialize_error_halts (fs : gmap string string) (fuel : nat) (w1 : world)
    (line : string) (members : list (string * json)) (x : json) :
  handshake fuel (spawned (initial_world fs)) = Some (w1, Ok tt) ->
  stdin_accepts c 0 = true ->
  yields (reads w1) line (JObj members) ->
  lookup_key "error" members = Some x ->
  scripted fuel (spawned (initial_world fs))
  = Some (exchanged init_request line (InitializeResponse (JObj members)) w1,
          Raise (RuntimeError "Server initialization failed"))
  /\ exists w r,
      main fs (Some c) fuel = Some (w, r)
      /\ In (ErrorOccurred (RuntimeError "Server initialization failed")) (log w)
      /\ stdin_pipe w = json_dumps init_request +:+ backslash_n
      /\ stdin_buffer w = EmptyString
      /\ flushes w = 1
      /\ reads w = S (reads w1).
Proof.
  intros Hh Hs Hy He.
  destruct (handshake_listens _ _ _ _ _ _ Hh) as ((Hf & Hb & Hp) & _). fields.
  assert (Hs1 : stdin_accepts c (flushes w1) = true) by now rewrite Hf.
  assert (Ei : initialize w1
               = (exchanged init_request line (InitializeResponse (JObj members)) w1,
                  Raise (RuntimeError "Server initialization failed"))).
  { rewrite (initialize_answered _ _ _ _ _ _ Hs1 Hy). cbn [py_in]. now rewrite He. }
  assert (Es : scripted fuel (spawned (initial_world fs))
               = Some (exchanged init_request line (InitializeResponse (JObj members)) w1,
                       Raise (RuntimeError "Server initialization failed"))).
  { unfold Harness.scripted. rewrite Hh. unfold Harness.conversation.
    unfold mbind, M_bind. now rewrite Ei. }
  split; [exact Es|].
  set (wf := exchanged init_request line (InitializeResponse (JObj members)) w1) in *.
  set (e := RuntimeError "Server initialization failed") in *.
  exists (fst (shutdown c (handler (wf, Raise e)))), (snd (shutdown c (handler (wf, Raise e)))).
  destruct (shutdown_keeps c (handler (wf, Raise e)) (ErrorOccurred e))
    as (Hlog & (Kf & Kb & Kp) & _ & Kr).
  split; [|split; [|split; [|split; [|split]]]].
  - unfold Harness.main, run. rewrite Es. now destruct (shutdown c (handler (wf, Raise e))).
  - apply Hlog. cbn [handler]. rewrite say_logged. fields.
    apply in_or_app. right. now left.
  - rewrite Kp. cbn [handler]. rewrite say_logged. unfold wf, Harness.exchanged. fields.
    rewrite Hp, Hb. reflexivity.
  - rewrite Kb. reflexivity.
  - rewrite Kf. cbn [handler]. rewrite say_logged. unfold wf, Harness.exchanged. fields.
    now rewrite Hf.
  - rewrite Kr. reflexivity.
Qed.

(** C8.  When the text of the device-list response parses to a mapping
    whose [devices] is a list: if the list starts with a device that has
    an [id], that id is printed as the device found and the capture step
    runs for it, sending one request: the call, numbered 2, of the tool
    [mobile_take_screenshot] with that id as the [device] of its input;
    if the list is empty, "no devices" is printed and the step ends
    without error, nothing more being sent. *)
Theorem first_device_is_captured (w : world) (line : string) (r : json) (t : string)
    (dm : list (string * json)) (devs : list json) :
  stdin_accepts c (flushes w) = true ->
  yields (reads w) line r ->
  first_entry_field r "text" (JStr t) ->
  json_loads t = Some (JObj dm) ->
  lookup_key "devices" dm = Some (JArr devs) ->
  let listed := exchanged list_devices_request line (ListDevicesResponse r) w in
  (devs = [] -> list_devices w = (logged [NoDevicesFound] listed, Ok tt))
  /\ (forall members more device_id,
       devs = JObj members :: more ->
       lookup_key "id" members = Some device_id ->
       list_devices w = capture device_id (logged [FoundDevice device_id] listed)
       /\ (stdin_accepts c (S (flushes w)) = true ->
           let w' := fst (list_devices w) in
           let request :=
             JObj [("jsonrpc", JStr "2.0");
                   ("method", JStr "tool/call");
                   ("params", JObj [("name", JStr "mobile_take_screenshot");
                                    ("input", JObj [("device", device_id)])]);
                   ("id", JInt 2)] in
           flushes w' = S (S (flushes w))
           /\ stdin_buffer w' = EmptyString
           /\ stdin_pipe w'
              = (stdin_pipe w +:+ (stdin_buffer w
                   +:+ (json_dumps list_devices_request +:+ backslash_n)))
                +:+ (json_dumps request +:+ backslash_n))).
Proof.
  intros Hs Hy (entry & rest & (rm & result & -> & Hres & Hcont) & Htext) Hload Hdevs listed.
  rewrite (list_devices_answered _ _ _ _ _ _ Hs Hy). fold listed.
  split.
  - intros ->. shape. cbn [truthy]. now rewrite say_logged.
  - intros members more device_id -> Hid.
    assert (E : forall k : json -> M unit,
              (ok ← has_content (JObj rm);
               if ok : bool then
                 devices_text ← first_content (JObj rm) "text";
                 devices_data ← lift (loads_value json_loads devices_text);
                 devices ← lift (getitem devices_data "devices");
                 if truthy devices then
                   first ← lift (getitem0 devices);
                   device_id ← lift (getitem first "id");
                   say (FoundDevice device_id) ;; k device_id
                 else say NoDevicesFound
               else mret tt) listed
              = k device_id (logged [FoundDevice device_id] listed)).
    { intros k. shape. cbn [truthy]. shape. now rewrite say_logged. }
    rewrite E. split; [reflexivity|]. intros Hs2 w' request.
    destruct (capture_sends_once json_dumps json_loads c device_id
                (logged [FoundDevice device_id] listed) Hs2) as (Kf & Kb & Kp).
    subst w' request. rewrite Kf, Kb, Kp. repeat split.
Qed.

(** C9.  When the first content entry of the capture response carries
    the text [s] as its [data] and [s] decodes to [data], the capture
    step ends without error and the output file holds exactly [data],
    whatever it held before.  Decoding undoes encoding: every byte
    string is what its base64 encoding decodes to. *)
Theorem screenshot_holds_decoded_data (device_id : json) (w : world) (line : string)
    (r : json) (s data : string) :
  stdin_accepts c (flushes w) = true ->
  yields (reads w) line r ->
  first_entry_field r "data" (JStr s) ->
  b64decode (JStr s) = Ok data ->
  (exists w', capture device_id w = (w', Ok tt)
              /\ files w' = <[output_path := data]> (files w)
              /\ files w' !! output_path = Some data)
  /\ forall bs : string,
       Base64.a2b_base64 (Base64.b64encode bs) = Ok bs
       /\ b64decode (JStr (Base64.b64encode bs)) = Ok bs.
Proof.
  intros Hs Hy (entry & rest & (rm & result & -> & Hres & Hcont) & Hdata) Hdec.
  split.
  - rewrite (capture_answered _ _ _ _ _ _ _ Hs Hy).
    set (shot := exchanged _ _ _ _).
    exists (logged [ScreenshotSaved] (stored output_path data (stored output_path EmptyString shot))).
    split; [|split].
    + unfold Harness.save_screenshot. shape.
      unfold open_wb, file_write. shape.
      now rewrite say_logged.
    + fields. apply insert_insert_eq.
    + fields. apply lookup_insert_eq.
  - intros bs. split; [apply Base64Facts.a2b_b64encode|].
    unfold b64decode. now rewrite Base64Facts.b64encode_ascii, Base64Facts.a2b_b64encode.
Qed.

(** C5, amended.  A device-list or capture response that is a mapping
    without [result], or whose [result] is a mapping without [content],
    ends the step without error and without a word printed about it.
    With [result] and [content] present, an empty content, a first entry
    without [text] or [data], a text that is not JSON, a parsed text
    without [devices] and data that do not decode each raise an
    exception that ends the conversation; the handler prints it exactly
    as it prints the failure of initialize. *)
Theorem malformed_responses_raise (w : world) (line : string) (r : json) :
  stdin_accepts c (flushes w) = true ->
  yields (reads w) line r ->
  let listed := exchanged list_devices_request line (ListDevicesResponse r) w in
  (lacks_content r -> list_devices w = (listed, Ok tt))
  /\ (has_result_content r (JArr []) -> list_devices w = (listed, Raise IndexError))
  /\ (forall entry rest,
       has_result_content r (JArr (JObj entry :: rest)) ->
       lookup_key "text" entry = None ->
       list_devices w = (listed, Raise KeyError))
  /\ (forall t, first_entry_field r "text" (JStr t) -> json_loads t = None ->
       list_devices w = (listed, Raise JSONDecodeError))
  /\ (forall t dm,
       first_entry_field r "text" (JStr t) -> json_loads t = Some (JObj dm) ->
       lookup_key "devices" dm = None ->
       list_devices w = (listed, Raise KeyError))
  /\ (forall device_id,
       let shot := exchanged (screenshot_request device_id) line
                             (ScreenshotResponse r) w in
       (lacks_content r -> capture device_id w = (shot, Ok tt))
       /\ (has_result_content r (JArr []) ->
           capture device_id w = (shot, Raise IndexError))
       /\ (forall entry rest,
           has_result_content r (JArr (JObj entry :: rest)) ->
           lookup_key "data" entry = None ->
           capture device_id w = (shot, Raise KeyError))
       /\ (forall s e,
           first_entry_field r "data" (JStr s) -> b64decode (JStr s) = Raise e ->
           capture device_id w = (stored output_path EmptyString shot, Raise e)))
  /\ forall w' e, handler (w', Raise e) = logged [ErrorOccurred e] w'.
Proof.
  intros Hs Hy listed.
  split; [|split; [|split; [|split; [|split; [|split]]]]].
  - intros (rm & -> & [Hno|(result & Hres & Hno)]);
      rewrite (list_devices_answered _ _ _ _ _ _ Hs Hy); fold listed; now shape.
  - intros (rm & result & -> & Hres & Hcont).
    rewrite (list_devices_answered _ _ _ _ _ _ Hs Hy). fold listed. now shape.
  - intros entry rest (rm & result & -> & Hres & Hcont) Hno.
    rewrite (list_devices_answered _ _ _ _ _ _ Hs Hy). fold listed. now shape.
  - intros t (entry & rest & (rm & result & -> & Hres & Hcont) & Htext) Hload.
    rewrite (list_devices_answered _ _ _ _ _ _ Hs Hy). fold listed. now shape.
  - intros t dm (entry & rest & (rm & result & -> & Hres & Hcont) & Htext) Hload Hno.
    rewrite (list_devices_answered _ _ _ _ _ _ Hs Hy). fold listed. now shape.
  - intros device_id shot. split; [|split; [|split]].
    + intros (rm & -> & [Hno|(result & Hres & Hno)]);
        rewrite (capture_answered _ _ _ _ _ _ _ Hs Hy); fold shot;
        unfold Harness.save_screenshot; now shape.
    + intros (rm & result & -> & Hres & Hcont).
      rewrite (capture_answered _ _ _ _ _ _ _ Hs Hy). fold shot.
      unfold Harness.save_screenshot. now shape.
    + intros entry rest (rm & result & -> & Hres & Hcont) Hno.
      rewrite (capture_answered _ _ _ _ _ _ _ Hs Hy). fold shot.
      unfold Harness.save_screenshot. now shape.
    + intros s e (entry & rest & (rm & result & -> & Hres & Hcont) & Hdata) Hdec.
      rewrite (capture_answered _ _ _ _ _ _ _ Hs Hy). fold shot.
      unfold Harness.save_screenshot. shape. unfold open_wb. now shape.
  - reflexivity.
Qed.

End Codec.

End Claims.

(** ** The claims on concrete children *)

Module Runs.

Import Py Harness Shape Steps Codec Examples.
Local Open Scope list_scope.

(** What the reference reader makes of a line of a concrete child. *)
Ltac reads_as :=
  eexists; split; [reflexivity|];
  split; [vm_compute; reflexivity|];
  split; [discriminate|vm_compute; reflexivity].

Ltac first_entry :=
  eexists _, _; split;
  [eexists _, _; split; [reflexivity|]; split; reflexivity|reflexivity].

Lemma failures_are_caught_witness :
  exists w r,
    main_ref ∅ (Some refusing_child) 1 = Some (w, r)
    /\ (w, r) = shutdown refusing_child (handler refused)
    /\ (forall e, snd refused = Raise e ->
          log (handler refused) = log (fst refused) ++ [ErrorOccurred e]
          /\ In (ErrorOccurred e) (log w))
    /\ exit_code r
       = (if alive_at_shutdown refusing_child && negb (exits_within refusing_child 5)
          then 1 else 0)%Z
    /\ main_ref ∅ None 1
       = Some (logged [ErrorOccurred OSError] (initial_world ∅), Ok tt).
Proof.
  apply (Claims.failures_are_caught_not_reported
           ref_dumps ref_loads refusing_child ∅ 1 (fst refused) (snd refused)).
  vm_compute. reflexivity.
Defined.

Lemma end_of_stream_witness :
  initialize ref_dumps ref_loads closing_child fresh
  = (hung_up ref_dumps init_request (InitializeResponse JNull) fresh, Raise TypeError)
  /\ list_devices ref_dumps ref_loads closing_child fresh
     = (hung_up ref_dumps list_devices_request (ListDevicesResponse JNull) fresh,
        Raise TypeError)
  /\ (forall device_id,
        capture ref_dumps ref_loads closing_child device_id fresh
        = (hung_up ref_dumps (screenshot_request device_id) (ScreenshotResponse JNull)
                   fresh, Raise TypeError))
  /\ forall w', log (handler (w', Raise TypeError)) = log w' ++ [ErrorOccurred TypeError].
Proof.
  apply (Claims.end_of_stream_raises_TypeError ref_dumps ref_loads closing_child fresh);
    reflexivity.
Defined.

Lemma handshake_round_witness :
  (let w' := logged [WaitingForMessage 5; Received server_info_text; ServerInfoReceived]
                    (waited fresh) in
   handshake ref_loads announcing_child 1 fresh = Some (w', Ok tt)
   /\ scripted ref_dumps ref_loads announcing_child 1 fresh
      = Some (conversation ref_dumps ref_loads announcing_child w'))
  /\ handshake ref_loads silent_child 1 fresh = Some (presumed_ready, Ok tt)
  /\ (let w' := logged [WaitingForMessage 5; Received notification_text;
                        WaitingForServerInfo] (waited fresh) in
      handshake ref_loads chatty_child 3 fresh = handshake ref_loads chatty_child 2 w'
      /\ scripted ref_dumps ref_loads chatty_child 3 fresh
         = scripted ref_dumps ref_loads chatty_child 2 w').
Proof.
  split; [|split].
  - apply (proj1 (Claims.handshake_round_outcomes
                    ref_dumps ref_loads announcing_child 0 fresh)
             server_info_text server_info_message).
    + reads_as.
    + eexists. split; reflexivity.
  - apply (proj1 (proj2 (Claims.handshake_round_outcomes
                           ref_dumps ref_loads silent_child 0 fresh))).
    reflexivity.
  - apply (proj2 (proj2 (Claims.handshake_round_outcomes
                           ref_dumps ref_loads chatty_child 2 fresh))
             notification_text notification_message).
    + reads_as.
    + eexists. split; [reflexivity|]. vm_compute. discriminate.
Defined.

Lemma handshake_ends_witness :
  (exists w', handshake ref_loads device_child 2 fresh = Some (w', Ok tt)
              /\ reads w' = reads fresh + 2
              /\ only_listened fresh w'
              /\ scripted ref_dumps ref_loads device_child 2 fresh
                 = Some (conversation ref_dumps ref_loads device_child w'))
  /\ handshake ref_loads chatty_child 7 fresh = None
  /\ scripted ref_dumps ref_loads chatty_child 7 fresh = None.
Proof.
  split.
  - apply (proj1 (Claims.handshake_ends_at_first_ready_wait
                    ref_dumps ref_loads device_child fresh) 1).
    + intros i Hi. assert (i = 0) as -> by lia.
      exists notification_text, notification_message. split; [reads_as|].
      eexists. split; [reflexivity|]. vm_compute. discriminate.
    + right. exists server_info_text, server_info_message. split; [reads_as|].
      eexists. split; reflexivity.
    + lia.
  - apply (proj2 (Claims.handshake_ends_at_first_ready_wait
                    ref_dumps ref_loads chatty_child fresh)).
    intros i. exists notification_text, notification_message. split.
    + exists notification_text. split; [now destruct i|].
      split; [vm_compute; reflexivity|]. split; [discriminate|vm_compute; reflexivity].
    + eexists. split; [reflexivity|]. vm_compute. discriminate.
Defined.

Lemma initialize_error_witness :
  scripted ref_dumps ref_loads refusing_child 1 fresh = Some refused
  /\ exists w r,
      main_ref ∅ (Some refusing_child) 1 = Some (w, r)
      /\ In (ErrorOccurred (RuntimeError "Server initialization failed")) (log w)
      /\ stdin_pipe w = ref_dumps init_request +:+ backslash_n
      /\ stdin_buffer w = EmptyString
      /\ flushes w = 1
      /\ reads w = 2.
Proof.
  apply (Claims.initialize_error_halts
           ref_dumps ref_loads refusing_child ∅ 1 presumed_ready init_error_text
           init_error_members
           (JObj [("code", JInt (-32601)); ("message", JStr "unknown")])).
  - reflexivity.
  - reflexivity.
  - reads_as.
  - reflexivity.
Defined.

Lemma first_device_witness :
  list_devices ref_dumps ref_loads (listing_child no_devices_text image_text) fresh
  = (logged [NoDevicesFound] (listed no_devices_text no_devices_response), Ok tt)
  /\ (let c := listing_child two_devices_text image_text in
      list_devices ref_dumps ref_loads c fresh
      = capture ref_dumps ref_loads c (JStr "dev-1")
          (logged [FoundDevice (JStr "dev-1")] (listed two_devices_text two_devices_response))
      /\ let w' := fst (list_devices ref_dumps ref_loads c fresh) in
         flushes w' = 2
         /\ stdin_buffer w' = EmptyString
         /\ stdin_pipe w'
            = (ref_dumps list_devices_request +:+ backslash_n)
              +:+ (dev1_capture_request +:+ backslash_n)).
Proof.
  split.
  - apply (proj1 (Claims.first_device_is_captured
                    ref_dumps ref_loads (listing_child no_devices_text image_text) fresh
                    no_devices_text no_devices_response no_devices
                    [("devices", JArr [])] []
                    eq_refl ltac:(reads_as) ltac:(first_entry)
                    ltac:(vm_compute; reflexivity) eq_refl)).
    reflexivity.
  - cbv zeta.
    destruct (proj2 (Claims.first_device_is_captured
                ref_dumps ref_loads (listing_child two_devices_text image_text) fresh
                two_devices_text two_devices_response two_devices
                [("devices", JArr [JObj [("id", JStr "dev-1")]; JObj [("id", JStr "dev-2")]])]
                [JObj [("id", JStr "dev-1")]; JObj [("id", JStr "dev-2")]]
                eq_refl ltac:(reads_as) ltac:(first_entry)
                ltac:(vm_compute; reflexivity) eq_refl)
              [("id", JStr "dev-1")] [JObj [("id", JStr "dev-2")]] (JStr "dev-1")
              eq_refl eq_refl) as [E K].
    split; [exact E|]. exact (K eq_refl).
Defined.

Lemma screenshot_witness :
  (exists w', capture ref_dumps ref_loads (listing_child image_text image_text)
                      (JStr "dev-1") fresh = (w', Ok tt)
              /\ files w' = <[output_path := png_signature]> (files fresh)
              /\ files w' !! output_path = Some png_signature)
  /\ forall bs : string,
       Base64.a2b_base64 (Base64.b64encode bs) = Ok bs
       /\ b64decode (JStr (Base64.b64encode bs)) = Ok bs.
Proof.
  apply (Claims.screenshot_holds_decoded_data
           ref_dumps ref_loads (listing_child image_text image_text) (JStr "dev-1") fresh
           image_text image_response "iVBORw0KGgo=" png_signature).
  - reflexivity.
  - reads_as.
  - first_entry.
  - vm_compute. reflexivity.
Defined.

Lemma malformed_responses_witness :
  list_devices ref_dumps ref_loads (listing_child no_result_text image_text) fresh
  = (listed no_result_text no_result_response, Ok tt)
  /\ list_devices ref_dumps ref_loads (listing_child empty_content_text image_text) fresh
     = (listed empty_content_text empty_content_response, Raise IndexError)
  /\ capture ref_dumps ref_loads (listing_child bad_image_text image_text)
             (JStr "dev-1") fresh
     = (stored output_path EmptyString (shot bad_image_text bad_image_response),
        Raise BinasciiError).
Proof.
  split; [|split].
  - apply (proj1 (Claims.malformed_responses_raise
                    ref_dumps ref_loads (listing_child no_result_text image_text) fresh
                    no_result_text no_result_response eq_refl ltac:(reads_as))).
    eexists. split; [reflexivity|]. left. reflexivity.
  - apply (proj1 (proj2 (Claims.malformed_responses_raise
                    ref_dumps ref_loads (listing_child empty_content_text image_text) fresh
                    empty_content_text empty_content_response eq_refl ltac:(reads_as)))).
    eexists _, _. split; [reflexivity|]. split; reflexivity.
  - destruct (Claims.malformed_responses_raise
                ref_dumps ref_loads (listing_child bad_image_text image_text) fresh
                bad_image_text bad_image_response eq_refl ltac:(reads_as))
      as (_ & _ & _ & _ & _ & K & _).
    destruct (K (JStr "dev-1")) as (_ & _ & _ & D).
    apply (D "iVBOR" BinasciiError); [first_entry|vm_compute; reflexivity].
Defined.

(** *** Where the specification and the script part *)

(** C2.  A child that ignores the termination request: Shutdown ends
    with the timeout of its wait, the child is still running, the
    draining thread is not joined, and the script exits with status 1. *)
Lemma stubborn_child_outlives_shutdown :
  snd (shutdown stubborn_child fresh) = Raise TimeoutExpired
  /\ child_alive (fst (shutdown stubborn_child fresh)) = true
  /\ stderr_joined (fst (shutdown stubborn_child fresh)) = false
  /\ match main_ref ∅ (Some stubborn_child) 1 with
     | Some (w, r) =>
         r = Raise TimeoutExpired /\ child_alive w = true /\ exit_code r = 1%Z
     | None => False
     end.
Proof. vm_compute. repeat split. Qed.

(** C3.  A child that refuses to initialize: the conversation fails,
    the failure is printed, and the script exits with status 0. *)
Lemma refused_run_exits_with_zero :
  scripted ref_dumps ref_loads refusing_child 1 fresh
  = Some (fst refused, Raise (RuntimeError "Server initialization failed"))
  /\ match main_ref ∅ (Some refusing_child) 1 with
     | Some (w, r) =>
         In (ErrorOccurred (RuntimeError "Server initialization failed")) (log w)
         /\ exit_code r = 0%Z
     | None => False
     end.
Proof. vm_compute. split; [reflexivity|]. split; [|reflexivity]. tauto. Qed.

(** A child that keeps sending notifications keeps the loop going. *)
Lemma chatty_child_handshake (fuel : nat) (w : world) :
  handshake ref_loads chatty_child fuel w = None.
Proof.
  revert w. induction fuel as [|fuel IH]; intros w; [reflexivity|].
  cbn [handshake].
  rewrite (round_other_message ref_loads chatty_child w notification_text
             notification_message).
  - apply IH.
  - exists notification_text. split; [now destruct (reads w)|].
    split; [vm_compute; reflexivity|]. split; [discriminate|vm_compute; reflexivity].
  - eexists. split; [reflexivity|]. vm_compute. discriminate.
Qed.

(** So does a child that closes its output. *)
Lemma closing_child_handshake (fuel : nat) (w : world) :
  handshake ref_loads closing_child fuel w = None.
Proof.
  revert w. induction fuel as [|fuel IH]; intros w; [reflexivity|].
  cbn [handshake]. rewrite (round_eof ref_loads closing_child w).
  - apply IH.
  - now destruct (reads w).
Qed.

(** C4.  With a child that emits only messages other than
    [server_info], one after the other, the handshake loop never ends
    and [main] never returns. *)
Lemma chatty_child_blocks_the_harness :
  ~ (exists fuel, handshake ref_loads chatty_child fuel fresh <> None)
  /\ ~ (exists fuel, main_ref ∅ (Some chatty_child) fuel <> None).
Proof.
  split; intros [fuel H]; apply H.
  - apply chatty_child_handshake.
  - unfold main_ref, main, run, scripted. now rewrite chatty_child_handshake.
Qed.

(** C5.  A device-list response with an empty content: the
    conversation ends with an [IndexError], which the handler prints as
    it prints a refused initialization.  A response without [result]:
    the conversation ends without error, and the last thing printed
    before Shutdown is the response itself. *)
Lemma empty_content_aborts_with_exception :
  match scripted ref_dumps ref_loads empty_content_child 1 fresh with
  | Some (w, r) => r = Raise IndexError
  | None => False
  end
  /\ match main_ref ∅ (Some empty_content_child) 1 with
     | Some (w, r) => In (ErrorOccurred IndexError) (log w)
     | None => False
     end
  /\ match scripted ref_dumps ref_loads no_result_child 1 fresh with
     | Some (w, r) =>
         r = Ok tt /\ last (log w) = Some (ListDevicesResponse no_result_response)
     | None => False
     end.
Proof. vm_compute. split; [reflexivity|]. split; [tauto|]. split; reflexivity. Qed.

(** *** Whole runs *)

Example reference_dumps_initialize :
  ref_dumps init_request
  = dq "{'jsonrpc': '2.0', 'method': 'initialize', 'params': {'clientInfo': {'name': 'python-script'}}, 'id': 0}".
Proof. vm_compute. reflexivity. Qed.

Example reference_loads_devices :
  ref_loads two_devices_text = Some two_devices_response.
Proof. vm_compute. reflexivity. Qed.

(** A full conversation: three requests, each followed by backslash and
    n, and the decoded image on disk. *)
Example device_child_run :
  match main_ref ∅ (Some device_child) 2 with
  | Some (w, r) =>
      exit_code r = 0%Z
      /\ stdin_pipe w
         = (ref_dumps init_request +:+ backslash_n)
           +:+ (ref_dumps list_devices_request +:+ backslash_n)
           +:+ (ref_dumps (screenshot_request (JStr "dev-1")) +:+ backslash_n)
      /\ files w !! output_path = Some png_signature
      /\ String.index 0 newline (stdin_pipe w) = None
  | None => False
  end.
Proof. vm_compute. repeat split. Qed.

(** One round of fuel is not enough for it: the first message is a
    notification. *)
Example device_child_needs_two_rounds : main_ref ∅ (Some device_child) 1 = None.
Proof. vm_compute. reflexivity. Qed.

Example deviceless_child_run :
  match main_ref ∅ (Some deviceless_child) 1 with
  | Some (w, r) =>
      exit_code r = 0%Z /\ flushes w = 2 /\ files w = ∅
      /\ In NoDevicesFound (log w)
  | None => False
  end.
Proof. vm_compute. repeat split. tauto. Qed.

(** A child that takes a minute to exit is not waited for either. *)
Example slow_child_run :
  match main_ref ∅ (Some slow_child) 1 with
  | Some (w, r) => r = Raise TimeoutExpired /\ child_alive w = true
  | None => False
  end.
Proof. vm_compute. repeat split. Qed.

End Runs.

(** ** The draining thread *)

Module DrainFacts.

Import Py Harness Drain.
Local Open Scope list_scope.

Lemma offers_tail (p : pipe) (k : nat) (raw : string) (ls : list string) :
  offers p k (raw :: ls) -> p k = Ok raw /\ offers p (S k) ls.
Proof.
  intros H. split.
  - rewrite <- (Nat.add_0_r k). now apply H.
  - intros i x Hx. replace (S k + i) with (k + S i) by lia. now apply H.
Qed.

(** The loop prints the lines it is offered, one call each. *)
Lemma drain_loop_lines (p : pipe) (pipe_name : string) (ls : list string) :
  forall (k fuel : nat) (out : list drain_entry),
  offers p k ls -> Forall printable ls ->
  drain_loop p pipe_name (length ls + fuel) k out
  = drain_loop p pipe_name fuel (k + length ls) (out ++ map (Tagged pipe_name) ls).
Proof.
  induction ls as [|raw ls IH]; intros k fuel out Ho Hp.
  - cbn. now rewrite Nat.add_0_r, List.app_nil_r.
  - destruct (offers_tail _ _ _ _ Ho) as [E Ho'].
    apply Forall_cons in Hp as [[Hne Hdec] Hp].
    cbn [length Nat.add drain_loop]. rewrite E.
    apply String.eqb_neq in Hne. rewrite Hne, Hdec.
    rewrite (IH (S k) fuel _ Ho' Hp). cbn [map].
    replace (S k + length ls) with (k + S (length ls)) by lia.
    now rewrite <- List.app_assoc.
Qed.

(** X1.  [read_output] on a pipe that offers printable lines and then
    reaches its end: every line is printed once, tagged with the name of
    the pipe, in the order read; the thread ends after one more call of
    [readline], the one that finds the end, and prints no error. *)
Theorem read_output_drains_to_the_end (p : pipe) (pipe_name : string)
    (ls : list string) (fuel : nat) :
  offers p 0 ls -> Forall printable ls ->
  p (length ls) = Ok EmptyString ->
  length ls < fuel ->
  read_output p pipe_name fuel
  = Some (Drained (S (length ls)) (map (Tagged pipe_name) ls)).
Proof.
  intros Ho Hp Hend Hfuel. unfold read_output.
  replace fuel with (length ls + S (fuel - S (length ls))) by lia.
  rewrite (drain_loop_lines p pipe_name ls 0 _ [] Ho Hp).
  cbn [Nat.add drain_loop]. now rewrite Hend.
Qed.

(** X2.  [read_output] never lets an exception out, and the first one
    ends the draining: when, after the lines [ls], [readline] raises or
    returns bytes that are not UTF-8, the thread prints the lines, then
    the error, and returns; it makes no further call, so whatever the
    child writes afterwards is never read. *)
Theorem read_output_stops_at_the_first_error (p : pipe) (pipe_name : string)
    (ls : list string) (e : exn) (fuel : nat) :
  offers p 0 ls -> Forall printable ls ->
  (p (length ls) = Raise e
   \/ exists raw, p (length ls) = Ok raw /\ decode_utf8 raw = Raise e) ->
  length ls < fuel ->
  read_output p pipe_name fuel
  = Some (Drained (S (length ls))
                  (map (Tagged pipe_name) ls ++ [ReadingFailed pipe_name e])).
Proof.
  intros Ho Hp Hbad Hfuel. unfold read_output.
  replace fuel with (length ls + S (fuel - S (length ls))) by lia.
  rewrite (drain_loop_lines p pipe_name ls 0 _ [] Ho Hp).
  cbn [Nat.add drain_loop].
  destruct Hbad as [E|(raw & E & Hdec)]; rewrite E; [reflexivity|].
  destruct (String.eqb_spec raw EmptyString) as [->|_]; [discriminate Hdec|].
  now rewrite Hdec.
Qed.

End DrainFacts.

(** ** What every run keeps *)

Module Kept.

Import Py Harness Shape Steps Conduct.
Local Open Scope list_scope.

Section Relation.

(** A relation between worlds that every elementary effect of the
    script respects, the print of "Screenshot saved" only right after
    the write of the output file. *)
Variable R : world -> world -> Prop.
Hypothesis R_refl : forall w, R w w.
Hypothesis R_trans : forall w1 w2 w3, R w1 w2 -> R w2 w3 -> R w1 w3.
Hypothesis R_print : forall e w, e <> ScreenshotSaved -> R w (logged [e] w).
Hypothesis R_stdin : forall n buf pipe w, R w (set_stdin n buf pipe w).
Hypothesis R_reads : forall n w, R w (set_reads n w).
Hypothesis R_process : forall a b j w, R w (set_process a b j w).
Hypothesis R_open : forall w, R w (stored output_path EmptyString w).
Hypothesis R_saved :
  forall data w, R w (logged [ScreenshotSaved] (stored output_path data w)).

Variable json_dumps : json -> string.
Variable json_loads : string -> option json.
Variable c : child.

Lemma keeps_raise_any {A : Type} (e : exn) : keeps R (raise e : M A).
Proof. intros w. apply R_refl. Qed.

Lemma kept_say (e : entry) : e <> ScreenshotSaved -> keeps R (say e).
Proof. intros H w. now apply R_print. Qed.

Lemma kept_send_message (m : json) : keeps R (send_message json_dumps c m).
Proof.
  unfold send_message.
  apply (keeps_bind R R_trans); [intros w; apply R_stdin|intros _].
  apply (keeps_bind R R_trans); [|intros _; now apply kept_say].
  intros w. unfold stdin_flush. destruct (stdin_accepts c (flushes w)); apply R_stdin.
Qed.

Lemma kept_read_message (t : Z) : keeps R (read_message json_loads c t).
Proof.
  unfold read_message.
  apply (keeps_bind R R_trans); [now apply kept_say|intros _].
  apply (keeps_bind R R_trans); [intros w; apply R_reads|intros [raw|]].
  - apply (keeps_bind R R_trans); [apply (keeps_lift R R_refl)|intros line].
    destruct (String.eqb line EmptyString); [apply (keeps_ret R R_refl)|].
    apply (keeps_bind R R_trans); [now apply kept_say|intros _].
    apply (keeps_lift R R_refl).
  - apply keeps_raise_any.
Qed.

Lemma kept_handshake_round : keeps R (handshake_round json_loads c).
Proof.
  assert (Ha : keeps R (handshake_attempt json_loads c)).
  { unfold handshake_attempt.
    apply (keeps_bind R R_trans); [apply kept_read_message|intros v].
    apply (keeps_bind R R_trans).
    - destruct (truthy v); [|apply (keeps_ret R R_refl)].
      apply (keeps_bind R R_trans); [apply (keeps_lift R R_refl)|intros x].
      apply (keeps_ret R R_refl).
    - intros [|]; (apply (keeps_bind R R_trans);
                   [now apply kept_say|intros _; apply (keeps_ret R R_refl)]). }
  intros w. unfold handshake_round. specialize (Ha w).
  destruct (handshake_attempt json_loads c w) as [w1 [b|e]]; [exact Ha|].
  cbn [fst] in Ha. destruct (is_TimeoutError e); [|exact Ha].
  apply (R_trans _ _ _ Ha).
  apply (keeps_bind R R_trans (say NoMessageFromServer) (fun _ => mret true));
    [now apply kept_say|intros _; apply (keeps_ret R R_refl)].
Qed.

Lemma kept_handshake (fuel : nat) (w w' : world) (r : result unit) :
  handshake json_loads c fuel w = Some (w', r) -> R w w'.
Proof.
  revert w. induction fuel as [|fuel IH]; intros w H; [discriminate|].
  cbn [handshake] in H. pose proof (kept_handshake_round w) as Hr.
  destruct (handshake_round json_loads c w) as [w1 [[|]|e]]; cbn [fst] in Hr.
  - now inversion H; subst.
  - exact (R_trans _ _ _ Hr (IH _ H)).
  - now inversion H; subst.
Qed.

Lemma kept_initialize : keeps R (initialize json_dumps json_loads c).
Proof.
  unfold initialize.
  apply (keeps_bind R R_trans); [apply kept_send_message|intros _].
  apply (keeps_bind R R_trans); [apply kept_read_message|intros v].
  apply (keeps_bind R R_trans); [now apply kept_say|intros _].
  apply (keeps_bind R R_trans); [apply (keeps_lift R R_refl)|intros [|]].
  - apply keeps_raise_any.
  - apply (keeps_ret R R_refl).
Qed.

Lemma kept_save_screenshot (r : json) : keeps R (save_screenshot r).
Proof.
  unfold save_screenshot.
  apply (keeps_bind R R_trans); [apply keeps_has_content, R_refl|intros [|]];
    [|apply (keeps_ret R R_refl)].
  apply (keeps_bind R R_trans); [apply keeps_first_content, R_refl|intros image_data].
  apply (keeps_bind R R_trans); [intros w; apply R_open|intros _].
  apply (keeps_bind R R_trans); [apply (keeps_lift R R_refl)|intros data].
  intros w. apply R_saved.
Qed.

Lemma kept_capture (device_id : json) :
  keeps R (capture json_dumps json_loads c device_id).
Proof.
  unfold capture.
  apply (keeps_bind R R_trans); [apply kept_send_message|intros _].
  apply (keeps_bind R R_trans); [apply kept_read_message|intros v].
  apply (keeps_bind R R_trans); [now apply kept_say|intros _].
  apply kept_save_screenshot.
Qed.

Lemma kept_list_devices : keeps R (list_devices json_dumps json_loads c).
Proof.
  unfold list_devices.
  apply (keeps_bind R R_trans); [apply kept_send_message|intros _].
  apply (keeps_bind R R_trans); [apply kept_read_message|intros v].
  apply (keeps_bind R R_trans); [now apply kept_say|intros _].
  apply (keeps_bind R R_trans); [apply keeps_has_content, R_refl|intros [|]];
    [|apply (keeps_ret R R_refl)].
  apply (keeps_bind R R_trans); [apply keeps_first_content, R_refl|intros devices_text].
  apply (keeps_bind R R_trans); [apply (keeps_lift R R_refl)|intros devices_data].
  apply (keeps_bind R R_trans); [apply (keeps_lift R R_refl)|intros devices].
  destruct (truthy devices); [|now apply kept_say].
  apply (keeps_bind R R_trans); [apply (keeps_lift R R_refl)|intros first].
  apply (keeps_bind R R_trans); [apply (keeps_lift R R_refl)|intros device_id].
  apply (keeps_bind R R_trans); [now apply kept_say|intros _].
  apply kept_capture.
Qed.

Lemma kept_conversation : keeps R (conversation json_dumps json_loads c).
Proof.
  unfold conversation.
  apply (keeps_bind R R_trans); [apply kept_initialize|intros _].
  apply kept_list_devices.
Qed.

Lemma kept_shutdown : keeps R (shutdown c).
Proof.
  intros w. rewrite shutdown_eval.
  destruct (alive_at_shutdown c); [destruct (exits_within c 5)|]; cbn [fst];
    try apply R_process;
    (eapply R_trans; [apply (R_print TerminatingServer w); discriminate|apply R_process]).
Qed.

Lemma kept_handler (w : world) (r : result unit) : R w (handler (w, r)).
Proof.
  destruct r as [u|e]; cbn [handler]; [apply R_refl|].
  rewrite say_logged. now apply R_print.
Qed.

(** From the start of [main] to its return. *)
Lemma kept_main (fs : gmap string string) (fuel : nat) (w : world) (r : result unit) :
  main json_dumps json_loads fs (Some c) fuel = Some (w, r) ->
  R (initial_world fs) w.
Proof.
  intros H.
  - unfold main, run, scripted in H.
    assert (Hs : R (initial_world fs) (spawned (initial_world fs)))
      by apply R_process.
    destruct (handshake json_loads c fuel (spawned (initial_world fs)))
      as [[w1 r1]|] eqn:Hh; [|discriminate].
    pose proof (kept_handshake _ _ _ _ Hh) as H1.
    assert (H2 : exists w2 r2, (match r1 with
                                | Ok _ => Some (conversation json_dumps json_loads c w1)
                                | Raise e => Some (w1, Raise e)
                                end) = Some (w2, r2) /\ R w1 w2).
    { destruct r1 as [u|e].
      - pose proof (kept_conversation w1) as Hk.
        destruct (conversation json_dumps json_loads c w1) as [w2 r2].
        exists w2, r2. split; [reflexivity|exact Hk].
      - exists w1, (Raise e). split; [reflexivity|apply R_refl]. }
    destruct H2 as (w2 & r2 & E2 & H2).
    assert (E : match (match r1 with
                       | Ok _ => Some (conversation json_dumps json_loads c w1)
                       | Raise e => Some (w1, Raise e)
                       end) with
                | Some st => Some (shutdown c (handler st))
                | None => None
                end = Some (w, r)).
    { destruct r1; exact H. }
    rewrite E2 in E.
    assert (E' : shutdown c (handler (w2, r2)) = (w, r)) by congruence.
    pose proof (kept_shutdown (handler (w2, r2))) as H4. rewrite E' in H4.
    cbn [fst] in H4.
    exact (R_trans _ _ _ Hs (R_trans _ _ _ H1 (R_trans _ _ _ H2
             (R_trans _ _ _ (kept_handler w2 r2) H4)))).
Qed.

Lemma kept_main_unspawned (fs : gmap string string) (fuel : nat) (w : world)
    (r : result unit) :
  main json_dumps json_loads fs None fuel = Some (w, r) ->
  R (initial_world fs) w.
Proof.
  intros H. unfold main in H.
  assert (E : w = handler (initial_world fs, Raise OSError)) by congruence.
  rewrite E. apply kept_handler.
Qed.

End Relation.

End Kept.

(** ** The order of a run *)

Module Order.

Import Py Harness Shape Steps Conduct.
Local Open Scope list_scope.

Lemma traffic_app (l1 l2 : list entry) : traffic (l1 ++ l2) = traffic l1 ++ traffic l2.
Proof. apply List.filter_app. Qed.

Lemma traffic_aside (l : list entry) (e : entry) :
  is_traffic e = false -> traffic (l ++ [e]) = traffic l.
Proof.
  intros H. rewrite traffic_app. unfold traffic at 2. cbn [List.filter].
  rewrite H. apply app_nil_r.
Qed.

Lemma not_in_snoc (e : entry) (l : list entry) :
  e <> ScreenshotSaved -> In ScreenshotSaved (l ++ [e]) -> In ScreenshotSaved l.
Proof.
  intros Hne H. apply in_app_or in H as [H|[H|[]]]; [exact H|congruence].
Qed.

Lemma still_refl (w : world) : still w w.
Proof. repeat split; auto. Qed.

Lemma still_trans (w1 w2 w3 : world) : still w1 w2 -> still w2 w3 -> still w1 w3.
Proof. unfold still, same_stdin. intuition congruence. Qed.

Lemma still_say (e : entry) :
  is_traffic e = false -> e <> ScreenshotSaved -> keeps still (say e).
Proof.
  intros Ht Hs w. rewrite say_logged. repeat split; fields.
  - now apply traffic_aside.
  - now apply not_in_snoc.
Qed.

Lemma still_logged (e : entry) (w : world) :
  is_traffic e = false -> e <> ScreenshotSaved -> still w (logged [e] w).
Proof. intros Ht Hs. exact (still_say e Ht Hs w). Qed.

Lemma still_process (a b j : bool) (w : world) : still w (set_process a b j w).
Proof. repeat split; auto. Qed.

Section Codec.

Variable json_dumps : json -> string.
Variable json_loads : string -> option json.
Variable c : child.

#[local] Abbreviation send_message := (send_message json_dumps c).
#[local] Abbreviation read_message := (read_message json_loads c).
#[local] Abbreviation yields := (yields json_loads c).
#[local] Abbreviation handshake := (handshake json_loads c).
#[local] Abbreviation capture := (capture json_dumps json_loads c).
#[local] Abbreviation heard := (heard json_dumps).
#[local] Abbreviation stuck := (stuck json_dumps).
#[local] Abbreviation exchange_prints := (exchange_prints json_dumps).

Lemma heard_still (m : json) (w1 w2 w3 : world) :
  heard m w1 w2 -> still w2 w3 -> heard m w1 w3.
Proof. unfold Conduct.heard, still, same_stdin. intuition congruence. Qed.

(** A wait, whatever it meets: one read, printed on entry; what it
    returns was read from a line, or is [None] at the end of the
    stream. *)
Lemma read_message_cases (t : Z) (w : world) :
  same_stdin w (fst (read_message t w))
  /\ files (fst (read_message t w)) = files w
  /\ reads (fst (read_message t w)) = S (reads w)
  /\ traffic (log (fst (read_message t w))) = traffic (log w) ++ [WaitingForMessage t]
  /\ (In ScreenshotSaved (log (fst (read_message t w))) -> In ScreenshotSaved (log w))
  /\ (forall v, snd (read_message t w) = Ok v ->
        (exists line, yields (reads w) line v) \/ v = JNull).
Proof.
  assert (T : traffic (log w ++ [WaitingForMessage t])
              = traffic (log w) ++ [WaitingForMessage t])
    by now rewrite traffic_app.
  assert (S1 : In ScreenshotSaved (log w ++ [WaitingForMessage t])
               -> In ScreenshotSaved (log w))
    by (apply not_in_snoc; discriminate).
  unfold Harness.read_message, select_readline. plumb. rewrite say_logged. fields.
  destruct (stdout c (reads w)) as [raw|] eqn:Hraw; fields;
    [|repeat split; auto; discriminate].
  destruct (decode_utf8 raw) as [line|e] eqn:Hdec; fields;
    [|repeat split; auto; discriminate].
  destruct (String.eqb line EmptyString) eqn:Hne; fields.
  - repeat split; auto. intros v Hv. right. congruence.
  - rewrite say_logged. fields.
    assert (T2 : traffic ((log w ++ [WaitingForMessage t]) ++ [Received line])
                 = traffic (log w) ++ [WaitingForMessage t])
      by now rewrite traffic_aside.
    assert (S2 : In ScreenshotSaved ((log w ++ [WaitingForMessage t]) ++ [Received line])
                 -> In ScreenshotSaved (log w))
      by (intros H; apply S1; revert H; apply not_in_snoc; discriminate).
    destruct (json_loads line) as [v0|] eqn:Hload; fields;
      [|repeat split; auto; discriminate].
    repeat split; auto. intros v Hv. left. exists line, raw.
    apply String.eqb_neq in Hne. repeat split; congruence.
Qed.


Lemma read_message_listened (t : Z) (w : world) :
  listened t w (fst (read_message t w))
  /\ (forall v, snd (read_message t w) = Ok v -> answer json_loads c (reads w) v).
Proof.
  destruct (read_message_cases t w) as (H1 & H2 & H3 & H4 & H5 & H6).
  split; [repeat split; auto; apply H1|exact H6].
Qed.

Lemma listened_still (t : Z) (w1 w2 w3 : world) :
  listened t w1 w2 -> still w2 w3 -> listened t w1 w3.
Proof. unfold listened, still, same_stdin. intuition congruence. Qed.

(** *** The handshake *)

Lemma round_listened (w : world) :
  listened 5 w (fst (handshake_round json_loads c w)).
Proof.
  unfold Harness.handshake_round, handshake_attempt. plumb.
  destruct (read_message_listened 5 w) as [HL _].
  destruct (Harness.read_message json_loads c 5 w) as [w1 [v|e]]; fields.
  - destruct (truthy v); plumb.
    + destruct v; fields; try exact HL.
      destruct (lookup_key "method" members); plumb;
        destruct (eq_str _ _); rewrite say_logged; fields;
        (apply (listened_still _ _ _ _ HL), still_logged; [reflexivity|discriminate]).
    + rewrite say_logged; fields.
      apply (listened_still _ _ _ _ HL), still_logged; [reflexivity|discriminate].
  - destruct (is_TimeoutError e); plumb; [rewrite say_logged|]; fields; [|exact HL].
    apply (listened_still _ _ _ _ HL), still_logged; [reflexivity|discriminate].
Qed.

(** The handshake makes waits and nothing else; each is printed. *)
Lemma handshake_waits (fuel : nat) (w w' : world) (r : result unit) :
  handshake fuel w = Some (w', r) ->
  exists k, reads w' = reads w + k
            /\ traffic (log w') = traffic (log w) ++ repeat (WaitingForMessage 5) k
            /\ (In ScreenshotSaved (log w') -> In ScreenshotSaved (log w)).
Proof.
  revert w. induction fuel as [|fuel IH]; intros w H; [discriminate|].
  cbn [Harness.handshake] in H.
  destruct (round_listened w) as (_ & _ & Hr & Ht & Hs).
  assert (One : exists k, reads (fst (handshake_round json_loads c w)) = reads w + k
            /\ traffic (log (fst (handshake_round json_loads c w)))
               = traffic (log w) ++ repeat (WaitingForMessage 5) k
            /\ (In ScreenshotSaved (log (fst (handshake_round json_loads c w)))
                -> In ScreenshotSaved (log w))).
  { exists 1. split; [lia|]. split; [exact Ht|exact Hs]. }
  destruct (Harness.handshake_round json_loads c w) as [w1 [[|]|e]]; fields.
  - now inversion H; subst.
  - destruct (IH _ H) as (k & Kr & Kt & Ks). exists (S k).
    split; [lia|]. split; [|auto].
    rewrite Kt, Ht, <- List.app_assoc. reflexivity.
  - now inversion H; subst.
Qed.

(** *** One exchange *)

Lemma exchange_cases {A : Type} (m : json) (f : json -> M A) (w : world) :
  stdin_buffer w = EmptyString ->
  (stdin_accepts c (flushes w) = false
   /\ (send_message m ;; read_message 30 ≫= f) w = (stuck m w, Raise BrokenPipeError))
  \/ (stdin_accepts c (flushes w) = true
      /\ exists w3,
          heard m w w3
          /\ ((exists e, (send_message m ;; read_message 30 ≫= f) w = (w3, Raise e))
              \/ exists v, answer json_loads c (reads w) v
                   /\ (send_message m ;; read_message 30 ≫= f) w = f v w3)).
Proof.
  intros Hb. destruct (stdin_accepts c (flushes w)) eqn:Ha; [right|left].
  - split; [reflexivity|].
    set (w1 := logged [Sent (json_dumps m)] (delivered (json_dumps m +:+ backslash_n) w)).
    assert (E : (send_message m ;; read_message 30 ≫= f) w = (read_message 30 ≫= f) w1).
    { unfold mbind at 1, M_bind at 1. now rewrite send_message_ok by exact Ha. }
    destruct (read_message_listened 30 w1) as [((Kf & Kb & Kp) & Kfs & Kr & Kt & Ks) Kv].
    exists (fst (Harness.read_message json_loads c 30 w1)). split.
    + unfold Conduct.heard. rewrite Kf, Kb, Kp, Kfs, Kr, Kt. subst w1. fields.
      rewrite Hb. repeat split.
      * rewrite traffic_app, <- List.app_assoc. reflexivity.
      * intros H. apply Ks in H. revert H. apply not_in_snoc. discriminate.
    + rewrite E. unfold mbind, M_bind.
      destruct (Harness.read_message json_loads c 30 w1) as [w3 [v|e]]; fields.
      * right. exists v. split; [now apply Kv|reflexivity].
      * left. now exists e.
  - split; [reflexivity|].
    unfold mbind at 1, M_bind at 1. now rewrite send_message_broken by exact Ha.
Qed.


(** *** What the lookups tell of a response *)

Lemma getitem_ok (v : json) (key : string) (x : json) :
  getitem v key = Ok x ->
  exists members, v = JObj members /\ lookup_key key members = Some x.
Proof.
  destruct v; try discriminate. cbn [getitem].
  destruct (lookup_key key members) as [y|] eqn:E; [|discriminate].
  intros H. exists members. split; [reflexivity|congruence].
Qed.

Lemma getitem0_mapping (v : json) (entry : list (string * json)) :
  getitem0 v = Ok (JObj entry) -> exists rest, v = JArr (JObj entry :: rest).
Proof.
  destruct v; try discriminate; cbn [getitem0].
  - destruct s; discriminate.
  - destruct items as [|x rest]; [discriminate|]. intros H. exists rest. congruence.
Qed.

Lemma first_content_shape (r res content first x : json) (field : string) :
  getitem r "result" = Ok res -> getitem res "content" = Ok content ->
  getitem0 content = Ok first -> getitem first field = Ok x ->
  first_entry_field r field x.
Proof.
  intros H1 H2 H3 H4.
  apply getitem_ok in H1 as (members & -> & H1).
  apply getitem_ok in H2 as (result & -> & H2).
  apply getitem_ok in H4 as (entry & -> & H4).
  apply getitem0_mapping in H3 as (rest & ->).
  exists entry, rest. split; [|exact H4]. now exists members, result.
Qed.

Lemma loads_value_ok (x v : json) :
  loads_value json_loads x = Ok v -> exists t, x = JStr t /\ json_loads t = Some v.
Proof.
  destruct x; try discriminate. cbn [loads_value]. unfold loads.
  destruct (json_loads s) as [y|] eqn:E; [|discriminate].
  intros H. exists s. split; [reflexivity|congruence].
Qed.

(** One lookup of a computation, by cases on what it returns. *)
Ltac look :=
  match goal with
  | |- context [match py_in ?k ?v with _ => _ end] =>
      destruct (py_in k v) as [[|]|?] eqn:?
  | |- context [match getitem ?v ?k with _ => _ end] => destruct (getitem v k) eqn:?
  | |- context [match getitem0 ?v with _ => _ end] => destruct (getitem0 v) eqn:?
  | |- context [match loads_value ?l ?v with _ => _ end] =>
      destruct (loads_value l v) eqn:?
  | |- context [match b64decode ?v with _ => _ end] => destruct (b64decode v) eqn:?
  | |- context [if truthy ?v then _ else _] => destruct (truthy v) eqn:?
  end;
  cbv beta iota.

(** The device-listing step after its wait. *)
Lemma listing_cases (r : json) (w : world) :
  listing_outcome json_dumps json_loads c r w
    ((ok ← has_content r;
      if ok : bool then
        devices_text ← first_content r "text";
        devices_data ← lift (loads_value json_loads devices_text);
        devices ← lift (getitem devices_data "devices");
        if truthy devices then
          first ← lift (getitem0 devices);
          device_id ← lift (getitem first "id");
          say (FoundDevice device_id) ;;
          capture device_id
        else say NoDevicesFound
      else mret tt) w).
Proof.
  cbv beta iota delta [mbind M_bind mret M_ret lift raise has_content first_content say].
  repeat look; unfold listing_outcome;
    try (left; reflexivity); try (right; left; reflexivity).
  right. right.
  match goal with
  | H1 : getitem r "result" = Ok ?res, H2 : getitem ?res "content" = Ok ?content,
    H3 : getitem0 ?content = Ok ?first, H4 : getitem ?first "text" = Ok ?dt,
    H5 : loads_value json_loads ?dt = Ok ?dd, H6 : getitem ?dd "devices" = Ok ?devices,
    H7 : getitem0 ?devices = Ok ?first2, H8 : getitem ?first2 "id" = Ok ?device_id |- _ =>
      exists device_id; split; [|reflexivity];
      apply loads_value_ok in H5 as (t & -> & H5);
      pose proof (first_content_shape _ _ _ _ _ _ H1 H2 H3 H4) as F;
      apply getitem_ok in H6 as (dm & -> & H6);
      apply getitem_ok in H8 as (entry & -> & H8);
      apply getitem0_mapping in H7 as (rest & ->);
      exists t, dm, entry, rest; repeat split; assumption
  end.
Qed.

(** The capture step after its wait. *)
Lemma saving_cases (r : json) (w : world) :
  saving_outcome r w (save_screenshot r w).
Proof.
  unfold save_screenshot.
  cbv beta iota delta [mbind M_bind mret M_ret lift raise has_content first_content
                       open_wb file_write say].
  repeat look; unfold saving_outcome;
    try (left; reflexivity).
  - right. right.
    match goal with
    | H1 : getitem r "result" = Ok ?res, H2 : getitem ?res "content" = Ok ?content,
      H3 : getitem0 ?content = Ok ?first, H4 : getitem ?first "data" = Ok ?image,
      H5 : b64decode ?image = Ok ?data |- _ =>
        exists image, data; split; [|split; [exact H5|reflexivity]];
        exact (first_content_shape _ _ _ _ _ _ H1 H2 H3 H4)
    end.
  - right. left. eexists. reflexivity.
Qed.


(** *** The three steps *)

#[local] Abbreviation answer := (answer json_loads c).
#[local] Abbreviation reached := (reached json_dumps json_loads c).
#[local] Abbreviation selects := (selects json_loads).

Lemma answer_of_mapping (k : nat) (members : list (string * json)) :
  answer k (JObj members) -> exists line, yields k line (JObj members).
Proof. intros [H|H]; [exact H|discriminate]. Qed.

Lemma initialize_cases (w : world) :
  stdin_buffer w = EmptyString ->
  (stdin_accepts c (flushes w) = false
   /\ initialize json_dumps json_loads c w = (stuck init_request w, Raise BrokenPipeError))
  \/ (stdin_accepts c (flushes w) = true
      /\ exists w3,
          heard init_request w w3
          /\ ((exists e, initialize json_dumps json_loads c w = (w3, Raise e))
              \/ (initialize json_dumps json_loads c w = (w3, Ok tt)
                  /\ exists line v, yields (reads w) line v
                                    /\ py_in "error" v = Ok false))).
Proof.
  intros Hb. unfold initialize.
  destruct (exchange_cases init_request
              (fun init_response =>
                 say (InitializeResponse init_response) ;;
                 failed ← lift (py_in "error" init_response);
                 if failed : bool then raise (RuntimeError "Server initialization failed")
                 else mret tt) w Hb)
    as [(Ha & E)|(Ha & w3 & Hh & [(e & E)|(v & Hv & E)])].
  - left. split; [exact Ha|exact E].
  - right. split; [exact Ha|]. exists w3. split; [exact Hh|]. left. now exists e.
  - right. split; [exact Ha|]. rewrite E.
    exists (logged [InitializeResponse v] w3). split.
    + apply (heard_still _ _ _ _ Hh), still_logged; [reflexivity|discriminate].
    + cbv beta iota delta [mbind M_bind mret M_ret lift raise say].
      destruct (py_in "error" v) as [[|]|e] eqn:He.
      * left. eexists. reflexivity.
      * right. split; [reflexivity|].
        destruct Hv as [(line & Hy)| ->]; [|discriminate He]. now exists line, v.
      * left. eexists. reflexivity.
Qed.

Lemma capture_cases (device_id : json) (w : world) :
  stdin_buffer w = EmptyString ->
  (stdin_accepts c (flushes w) = false
   /\ capture device_id w = (stuck (screenshot_request device_id) w, Raise BrokenPipeError))
  \/ (stdin_accepts c (flushes w) = true
      /\ exists w3,
          heard (screenshot_request device_id) w w3
          /\ (fst (capture device_id w) = w3
              \/ (exists e, capture device_id w
                            = (stored output_path EmptyString w3, Raise e))
              \/ exists data,
                   image_received json_loads c (reads w) data
                   /\ capture device_id w
                      = (logged [ScreenshotSaved]
                           (stored output_path data (stored output_path EmptyString w3)),
                         Ok tt))).
Proof.
  intros Hb. unfold Harness.capture.
  destruct (exchange_cases (screenshot_request device_id)
              (fun screenshot_response =>
                 say (ScreenshotResponse screenshot_response) ;;
                 save_screenshot screenshot_response) w Hb)
    as [(Ha & E)|(Ha & w3 & Hh & [(e & E)|(v & Hv & E)])].
  - left. split; [exact Ha|exact E].
  - right. split; [exact Ha|]. exists w3. split; [exact Hh|]. left. now rewrite E.
  - right. split; [exact Ha|]. rewrite E.
    exists (logged [ScreenshotResponse v] w3). split.
    + apply (heard_still _ _ _ _ Hh), still_logged; [reflexivity|discriminate].
    + unfold mbind at 1, M_bind at 1. rewrite say_logged.
      destruct (saving_cases v (logged [ScreenshotResponse v] w3))
        as [K|[(e & K)|(image_data & data & Hf & Hd & K)]].
      * left. exact K.
      * right. left. now exists e.
      * right. right. exists data. split; [|exact K].
        pose proof Hf as (entry & rest & (members & result & -> & _) & _).
        destruct (answer_of_mapping _ _ Hv) as (line & Hy).
        now exists line, (JObj members), image_data.
Qed.

Lemma list_devices_cases (w : world) :
  stdin_buffer w = EmptyString ->
  (stdin_accepts c (flushes w) = false
   /\ list_devices json_dumps json_loads c w
      = (stuck list_devices_request w, Raise BrokenPipeError))
  \/ (stdin_accepts c (flushes w) = true
      /\ exists w3,
          heard list_devices_request w w3
          /\ (fst (list_devices json_dumps json_loads c w) = w3
              \/ exists line v device_id,
                   yields (reads w) line v /\ selects v device_id
                   /\ list_devices json_dumps json_loads c w = capture device_id w3)).
Proof.
  intros Hb. unfold list_devices.
  destruct (exchange_cases list_devices_request
              (fun list_devices_response =>
                 say (ListDevicesResponse list_devices_response) ;;
                 ok ← has_content list_devices_response;
                 if ok : bool then
                   devices_text ← first_content list_devices_response "text";
                   devices_data ← lift (loads_value json_loads devices_text);
                   devices ← lift (getitem devices_data "devices");
                   if truthy devices then
                     first ← lift (getitem0 devices);
                     device_id ← lift (getitem first "id");
                     say (FoundDevice device_id) ;;
                     capture device_id
                   else say NoDevicesFound
                 else mret tt) w Hb)
    as [(Ha & E)|(Ha & w3 & Hh & [(e & E)|(v & Hv & E)])].
  - left. split; [exact Ha|exact E].
  - right. split; [exact Ha|]. exists w3. split; [exact Hh|]. left. now rewrite E.
  - right. split; [exact Ha|]. rewrite E.
    unfold mbind at 1, M_bind at 1. rewrite say_logged.
    assert (H1 : heard list_devices_request w (logged [ListDevicesResponse v] w3))
      by (apply (heard_still _ _ _ _ Hh), still_logged; [reflexivity|discriminate]).
    destruct (listing_cases v (logged [ListDevicesResponse v] w3))
      as [K|[K|(device_id & Hsel & K)]].
    + exists (logged [ListDevicesResponse v] w3). split; [exact H1|]. left. exact K.
    + exists (logged [NoDevicesFound] (logged [ListDevicesResponse v] w3)).
      split; [|left; exact K].
      apply (heard_still _ _ _ _ H1), still_logged; [reflexivity|discriminate].
    + exists (logged [FoundDevice device_id] (logged [ListDevicesResponse v] w3)).
      split; [apply (heard_still _ _ _ _ H1), still_logged; [reflexivity|discriminate]|].
      right.
      pose proof Hsel as (t & dm & entry & rest & (en & re & (members & result & -> & _) & _) & _).
      destruct (answer_of_mapping _ _ Hv) as (line & Hy).
      exists line, (JObj members), device_id. split; [exact Hy|]. split; [exact Hsel|exact K].
Qed.


(** *** The conversation *)

#[local] Abbreviation ending := (ending json_dumps json_loads c).

Lemma reached_start (w1 : world) :
  stdin_pipe w1 = EmptyString -> stdin_buffer w1 = EmptyString -> flushes w1 = 0 ->
  reached 0 JNull w1 w1.
Proof.
  intros Hp Hb Hf. unfold Conduct.reached.
  split; [exact Hp|]. split; [exact Hb|]. split; [exact Hf|]. split; [lia|].
  split; [reflexivity|]. split; [cbn [exchanges]; now rewrite app_nil_r|].
  split; [auto|]. split; [intros k Hk; lia|]. split; intros Hn; lia.
Qed.

Lemma reached_next (n : nat) (d d' m : json) (w1 w w' : world) :
  reached n d w1 w -> heard m w w' -> stdin_accepts c (flushes w) = true ->
  requests json_dumps (S n) d' = requests json_dumps n d +:+ request_line json_dumps m ->
  exchanges json_dumps (S n) d' = exchanges json_dumps n d ++ exchange_prints m ->
  (1 < S n -> exists line v, yields (reads w1) line v /\ py_in "error" v = Ok false) ->
  (2 < S n -> exists line v, yields (S (reads w1)) line v /\ selects v d') ->
  reached (S n) d' w1 w'.
Proof.
  intros (Hp & Hb & Hf & Hr & Hfs & Ht & Hs & Ha & _) (Kp & Kb & Kf & Kr & Kfs & Kt & Ks)
         Hacc Ereq Eexc C1 C2.
  unfold Conduct.reached.
  split; [now rewrite Kp, Hp, Ereq|]. split; [exact Kb|]. split; [congruence|].
  split; [lia|]. split; [congruence|].
  split; [now rewrite Kt, Ht, Eexc, <- List.app_assoc|]. split; [auto|].
  split; [|split; assumption].
  intros k Hk. destruct (Nat.eq_dec k n) as [->|Hne]; [congruence|apply Ha; lia].
Qed.

(** The conversation from a world in which nothing was sent yet. *)
Lemma conversation_cases (w1 : world) :
  stdin_pipe w1 = EmptyString -> stdin_buffer w1 = EmptyString -> flushes w1 = 0 ->
  exists n device_id wn,
    n <= 3 /\ reached n device_id w1 wn
    /\ ending n wn (conversation json_dumps json_loads c w1).
Proof.
  intros Hp Hb Hf. pose proof (reached_start w1 Hp Hb Hf) as R0.
  unfold conversation. unfold mbind at 1, M_bind at 1.
  destruct (initialize_cases w1 Hb) as [(Ha & E)|(Ha & wi & Hh & Hi)].
  { rewrite E. exists 0, JNull, w1. split; [lia|]. split; [exact R0|].
    right. left. split; [lia|]. split; [congruence|]. now exists init_request. }
  assert (R1 : reached 1 JNull w1 wi).
  { apply (reached_next 0 JNull JNull init_request w1 w1 wi R0 Hh Ha);
      try reflexivity; intros; lia. }
  destruct Hi as [(e & E)|(E & line0 & v0 & Hy0 & Hv0)]; rewrite E.
  { exists 1, JNull, wi. split; [lia|]. split; [exact R1|]. left. apply still_refl. }
  pose proof R1 as (_ & Ib & If & Ir & _).
  destruct (list_devices_cases wi Ib) as [(La & E2)|(La & wl & Lh & Hl)].
  { rewrite E2. exists 1, JNull, wi. split; [lia|]. split; [exact R1|].
    right. left. split; [lia|]. split; [congruence|]. now exists list_devices_request. }
  assert (R2 : reached 2 JNull w1 wl).
  { apply (reached_next 1 JNull JNull list_devices_request w1 wi wl R1 Lh La);
      try reflexivity; [intros _; now exists line0, v0|intros; lia]. }
  destruct Hl as [E2|(line1 & v1 & device_id & Hy1 & Hsel & E2)].
  { exists 2, JNull, wl. split; [lia|]. split; [exact R2|].
    left. rewrite E2. apply still_refl. }
  rewrite E2. pose proof R2 as (_ & Lb & Lf & Lr & _).
  destruct (capture_cases device_id wl Lb) as [(Ca & E3)|(Ca & ws & Ch & Hend)].
  { rewrite E3. exists 2, JNull, wl. split; [lia|]. split; [exact R2|].
    right. left. split; [lia|]. split; [congruence|].
    now exists (screenshot_request device_id). }
  assert (R3 : reached 3 device_id w1 ws).
  { apply (reached_next 2 JNull device_id (screenshot_request device_id) w1 wl ws R2 Ch Ca);
      try reflexivity; intros _; [now exists line0, v0|].
    exists line1, v1. split; [|exact Hsel].
    replace (S (reads w1)) with (reads wi) by lia. exact Hy1. }
  exists 3, device_id, ws. split; [lia|]. split; [exact R3|].
  destruct Hend as [K|[(e & K)|(data & Hi & K)]].
  - left. rewrite K. apply still_refl.
  - right. right. left. split; [reflexivity|]. exists ws, e. split; [apply still_refl|exact K].
  - right. right. right. split; [reflexivity|]. exists ws, data.
    split; [apply still_refl|]. split; [|exact K].
    destruct Ch as (_ & _ & _ & Cr & _). now rewrite Cr.
Qed.

(** *** The handler and the finally block *)

Lemma wind_down (wc : world) (rc : result unit) :
  still wc (fst (shutdown c (handler (wc, rc))))
  /\ stdin_buffer (fst (shutdown c (handler (wc, rc)))) = stdin_buffer wc
  /\ forall e, rc = Raise e -> In (ErrorOccurred e) (log (fst (shutdown c (handler (wc, rc))))).
Proof.
  assert (H1 : still wc (handler (wc, rc))).
  { destruct rc as [u|e]; cbn [handler]; [apply still_refl|].
    rewrite say_logged. apply still_logged; [reflexivity|discriminate]. }
  assert (H2 : still (handler (wc, rc)) (fst (shutdown c (handler (wc, rc))))).
  { rewrite shutdown_eval.
    destruct (alive_at_shutdown c); [destruct (exits_within c 5)|]; cbn [fst];
      try apply still_process;
      (eapply still_trans; [apply (still_logged TerminatingServer); [reflexivity|discriminate]
                           |apply still_process]). }
  split; [exact (still_trans _ _ _ H1 H2)|]. split.
  - destruct H1 as ((_ & B1 & _) & _), H2 as ((_ & B2 & _) & _). congruence.
  - intros e ->.
    apply (proj1 (shutdown_keeps c (handler (wc, Raise e)) (ErrorOccurred e))).
    cbn [handler]. rewrite say_logged. fields. apply in_or_app. right. now left.
Qed.


(** What an ending leaves of the traffic: nothing is delivered and no
    wait is made after the last exchange; at most one more flush is
    made, which fails. *)
Lemma ending_traffic (n : nat) (wn : world) (st : world * result unit) :
  ending n wn st ->
  stdin_pipe (fst st) = stdin_pipe wn /\ reads (fst st) = reads wn
  /\ traffic (log (fst st)) = traffic (log wn)
  /\ (flushes (fst st) = flushes wn /\ stdin_buffer (fst st) = stdin_buffer wn
      \/ flushes (fst st) = S (flushes wn) /\ stdin_accepts c n = false
         /\ snd st = Raise BrokenPipeError).
Proof.
  intros [((Sf & Sb & Sp) & Sr & _ & St & _)
         |[(_ & Ha & m & ->)
          |[(_ & wn' & e & ((Sf & Sb & Sp) & Sr & _ & St & _) & ->)
           |(_ & wn' & data & ((Sf & Sb & Sp) & Sr & _ & St & _) & _ & ->)]]]; fields.
  - repeat split; auto.
  - repeat split; auto.
  - repeat split; auto.
  - split; [exact Sp|]. split; [exact Sr|]. split; [|left; split; assumption].
    rewrite traffic_aside by reflexivity. exact St.
Qed.

(** What an ending that printed "Screenshot saved" leaves in the output
    file. *)
Lemma ending_saved (n : nat) (wn : world) (st : world * result unit) :
  ending n wn st ->
  In ScreenshotSaved (log (fst st)) ->
  In ScreenshotSaved (log wn)
  \/ exists data,
       n = 3 /\ image_received json_loads c (Nat.pred (reads wn)) data
       /\ files (fst st) = <[output_path := data]> (files wn).
Proof.
  intros [(_ & _ & _ & _ & Ss)
         |[(_ & _ & m & ->)
          |[(_ & wn' & e & (_ & _ & _ & _ & Ss) & ->)
           |(Hn & wn' & data & (_ & _ & Sfs & _) & Hi & ->)]]] H; fields.
  - left. auto.
  - left. exact H.
  - left. auto.
  - right. exists data. split; [exact Hn|]. split; [exact Hi|].
    rewrite Sfs. apply insert_insert_eq.
Qed.

End Codec.

End Order.

(** ** Further properties of the script *)

Module Further.

Import Py Harness Shape Steps Conduct.
Local Open Scope list_scope.

Lemma other_files_kept_refl (w : world) : other_files_kept w w.
Proof. intros path _. reflexivity. Qed.

Lemma other_files_kept_trans (w1 w2 w3 : world) :
  other_files_kept w1 w2 -> other_files_kept w2 w3 -> other_files_kept w1 w3.
Proof. intros H1 H2 path Hp. now rewrite (H2 path Hp), (H1 path Hp). Qed.

Section Codec.

Variable json_dumps : json -> string.
Variable json_loads : string -> option json.
Variable c : child.

#[local] Abbreviation read_message := (read_message json_loads c).
#[local] Abbreviation yields := (yields json_loads c).
#[local] Abbreviation handshake := (handshake json_loads c).
#[local] Abbreviation scripted := (scripted json_dumps json_loads c).
#[local] Abbreviation initialize := (initialize json_dumps json_loads c).
#[local] Abbreviation exchanged := (exchanged json_dumps).
#[local] Abbreviation main := (main json_dumps json_loads).

(** X3.  Whatever the child does, a run that returns has delivered to it
    only the first [n] of the three requests (initialize, device listing,
    capture), in that order and nothing else, each with a flush that
    succeeded, and has made one wait after each.  The log tells the order:
    after the waits of the handshake, each request sent is followed by
    the wait for its response before the next request is sent.  The
    second request is delivered only when the wait after the first
    yielded a response without an [error] key, the third only when the
    wait after the second yielded a device list that names its device
    first.  At most one more flush is made: it fails, which ends the
    conversation with a [BrokenPipeError] that is printed. *)
Theorem requests_are_sent_in_order (fs : gmap string string) (fuel : nat)
    (w : world) (r : result unit) :
  main fs (Some c) fuel = Some (w, r) ->
  exists w1 r1 n device_id,
    handshake fuel (spawned (initial_world fs)) = Some (w1, r1)
    /\ n <= 3
    /\ stdin_pipe w = requests json_dumps n device_id
    /\ reads w = reads w1 + n
    /\ traffic (log w)
       = repeat (WaitingForMessage 5) (reads w1) ++ exchanges json_dumps n device_id
    /\ (forall k, k < n -> stdin_accepts c k = true)
    /\ (1 < n -> exists line v,
          yields (reads w1) line v /\ py_in "error" v = Ok false)
    /\ (2 < n -> exists line v,
          yields (S (reads w1)) line v /\ selects json_loads v device_id)
    /\ (flushes w = n /\ stdin_buffer w = EmptyString
        \/ flushes w = S n /\ stdin_accepts c n = false
           /\ In (ErrorOccurred BrokenPipeError) (log w)).
Proof.
  intros H. unfold Harness.main, run, Harness.scripted in H.
  destruct (handshake fuel (spawned (initial_world fs))) as [[w1 r1]|] eqn:Hh;
    [|discriminate].
  exists w1, r1.
  destruct (handshake_listens _ _ _ _ _ _ Hh) as ((Hf & Hb & Hp) & _).
  destruct (Order.handshake_waits _ _ _ _ _ _ Hh) as (k & Hk & Ht & _). fields.
  assert (Ht1 : traffic (log w1) = repeat (WaitingForMessage 5) (reads w1))
    by (rewrite Ht, Hk; reflexivity).
  assert (E : exists n device_id wn st,
             shutdown c (handler st) = (w, r)
             /\ n <= 3 /\ reached json_dumps json_loads c n device_id w1 wn
             /\ ending json_dumps json_loads c n wn st).
  { destruct r1 as [u|e].
    - destruct (Order.conversation_cases json_dumps json_loads c w1 Hp Hb Hf)
        as (n & device_id & wn & Hn & HR & HE).
      exists n, device_id, wn, (conversation json_dumps json_loads c w1).
      split; [congruence|]. split; [exact Hn|]. split; [exact HR|exact HE].
    - exists 0, JNull, w1, (w1, Raise e). split; [congruence|]. split; [lia|].
      split; [now apply Order.reached_start|]. left. apply Order.still_refl. }
  destruct E as (n & device_id & wn & [wc rc] & Es & Hn & HR & HE).
  exists n, device_id. split; [reflexivity|]. split; [exact Hn|].
  destruct HR as (Rp & Rb & Rf & Rr & _ & Rt & _ & Ra & C1 & C2).
  destruct (Order.ending_traffic _ _ _ _ _ _ HE) as (Ep & Er & Et & Ef). fields.
  destruct (Order.wind_down c wc rc) as (((Sf & Sb & Sp) & Sr & _ & St & _) & Sb' & Se).
  rewrite Es in Sf, Sb, Sp, Sr, St, Se. fields.
  split; [congruence|]. split; [congruence|].
  split; [rewrite St, Et, Rt, Ht1; reflexivity|].
  split; [exact Ra|]. split; [exact C1|]. split; [exact C2|].
  destruct Ef as [(Ef & Eb)|(Ef & Ea & ->)].
  - left. split; congruence.
  - right. split; [congruence|]. split; [exact Ea|]. now apply Se.
Qed.

(** X4.  A run touches no file but the output file: every other path
    holds after [main] what it held before, whatever the child does and
    whether or not it could be spawned. *)
Theorem only_the_output_file_is_touched (fs : gmap string string)
    (popen : option child) (fuel : nat) (w : world) (r : result unit) (path : string) :
  main fs popen fuel = Some (w, r) ->
  path <> output_path ->
  files w !! path = fs !! path.
Proof.
  intros H Hp.
  assert (K : other_files_kept (initial_world fs) w).
  { destruct popen as [c0|];
      [eapply (Kept.kept_main other_files_kept)
      |eapply (Kept.kept_main_unspawned other_files_kept)];
      try exact H; try exact other_files_kept_refl; try exact other_files_kept_trans;
      intros; intros p Hne; fields; try reflexivity; now apply lookup_insert_ne. }
  exact (K path Hp).
Qed.

(** X5.  "Screenshot saved to screenshot.png" is printed only for a
    file that was written: in every run that returns with that line in
    its log, the last wait of the run yielded a response whose first
    content entry has [data] that decode, and the output file holds
    exactly the bytes decoded, whatever it held before. *)
Theorem saved_is_printed_only_after_the_write (fs : gmap string string)
    (popen : option child) (fuel : nat) (w : world) (r : result unit) :
  main fs popen fuel = Some (w, r) ->
  In ScreenshotSaved (log w) ->
  exists c0 k line v image_data data,
    popen = Some c0 /\ reads w = S k
    /\ Harness.yields json_loads c0 k line v
    /\ first_entry_field v "data" image_data
    /\ b64decode image_data = Ok data
    /\ files w = <[output_path := data]> fs.
Proof.
  intros H Hin. destruct popen as [c0|].
  - unfold Harness.main, run, Harness.scripted in H.
    destruct (Harness.handshake json_loads c0 fuel (spawned (initial_world fs)))
      as [[w1 r1]|] eqn:Hh; [|discriminate].
    destruct (handshake_listens _ _ _ _ _ _ Hh) as ((Hf & Hb & Hp) & Hfs & _).
    destruct (Order.handshake_waits _ _ _ _ _ _ Hh) as (_ & _ & _ & Hs). fields.
    assert (E : exists n device_id wn st,
               shutdown c0 (handler st) = (w, r)
               /\ reached json_dumps json_loads c0 n device_id w1 wn
               /\ ending json_dumps json_loads c0 n wn st).
    { destruct r1 as [u|e].
      - destruct (Order.conversation_cases json_dumps json_loads c0 w1 Hp Hb Hf)
          as (n & device_id & wn & _ & HR & HE).
        exists n, device_id, wn, (Harness.conversation json_dumps json_loads c0 w1).
        split; [congruence|]. split; [exact HR|exact HE].
      - exists 0, JNull, w1, (w1, Raise e). split; [congruence|].
        split; [now apply Order.reached_start|]. left. apply Order.still_refl. }
    destruct E as (n & device_id & wn & [wc rc] & Es & HR & HE).
    destruct HR as (_ & _ & _ & Rr & Rfs & _ & Rs & _).
    destruct (Order.wind_down c0 wc rc) as ((_ & Sr & Sfs & _ & Ss) & _).
    destruct (Order.ending_traffic _ _ _ _ _ _ HE) as (_ & Er & _).
    rewrite Es in Sr, Sfs, Ss. fields.
    destruct (Order.ending_saved _ _ _ _ _ _ HE (Ss Hin))
      as [Hw|(data & -> & (line & v & image_data & Hy & Hfd & Hd) & Efs)].
    + destruct (Hs (Rs Hw)).
    + exists c0, (Nat.pred (reads wn)), line, v, image_data, data. fields.
      split; [reflexivity|]. split; [lia|]. split; [exact Hy|]. split; [exact Hfd|].
      split; [exact Hd|]. congruence.
  - unfold Harness.main in H.
    assert (E : w = handler (initial_world fs, Raise OSError)) by congruence.
    rewrite E in Hin. cbn in Hin. destruct Hin as [Hin|[]]. discriminate Hin.
Qed.

(** X6.  Once the child's output is at its end, the handshake loop
    never leaves: every wait returns at once with no message, which the
    loop takes for a message other than [server_info], and [main] does
    not return. *)
Theorem handshake_spins_at_end_of_stream :
  (forall w, (forall i, stdout c (reads w + i) = Some EmptyString) ->
     forall fuel, handshake fuel w = None /\ scripted fuel w = None)
  /\ ((forall k, stdout c k = Some EmptyString) ->
      forall fs fuel, main fs (Some c) fuel = None).
Proof.
  assert (A : forall fuel w, (forall i, stdout c (reads w + i) = Some EmptyString) ->
                handshake fuel w = None).
  { induction fuel as [|fuel IH]; intros w Hend; [reflexivity|].
    cbn [Harness.handshake]. rewrite round_eof by (rewrite <- (Nat.add_0_r (reads w)); apply Hend).
    apply IH. intros i. fields.
    replace (S (reads w) + i) with (reads w + S i) by lia. apply Hend. }
  split.
  - intros w Hend fuel. split; [now apply A|].
    unfold Harness.scripted. now rewrite A.
  - intros Hend fs fuel. unfold Harness.main, run, Harness.scripted.
    rewrite A; [reflexivity|]. intros i. apply Hend.
Qed.

(** X7.  What the child writes during the handshake must be a JSON
    mapping (or a falsy JSON value): bytes that are not UTF-8, a line that
    is not JSON, and a truthy JSON value that is not a mapping each raise
    out of the loop, at that wait. *)
Theorem handshake_raises_on_other_output (fuel : nat) (w : world) :
  (forall raw e,
     stdout c (reads w) = Some raw -> decode_utf8 raw = Raise e ->
     handshake (S fuel) w = Some (logged [WaitingForMessage 5] (waited w), Raise e))
  /\ (forall raw line,
       stdout c (reads w) = Some raw -> decode_utf8 raw = Ok line ->
       line <> EmptyString -> json_loads line = None ->
       handshake (S fuel) w
       = Some (logged [WaitingForMessage 5; Received line] (waited w),
               Raise JSONDecodeError))
  /\ (forall line v,
       yields (reads w) line v -> truthy v = true ->
       (forall members, v <> JObj members) ->
       handshake (S fuel) w
       = Some (logged [WaitingForMessage 5; Received line] (waited w),
               Raise AttributeError)).
Proof.
  split; [|split].
  - intros raw e Hraw Hdec. cbn [Harness.handshake].
    unfold Harness.handshake_round, handshake_attempt, Harness.read_message,
      select_readline. plumb. rewrite say_logged. fields. rewrite Hraw, Hdec.
    assert (T : is_TimeoutError e = false).
    { unfold decode_utf8 in Hdec. destruct (utf8_valid _ _); [discriminate|].
      now inversion Hdec. }
    now rewrite T.
  - intros raw line Hraw Hdec Hne Hload. cbn [Harness.handshake].
    unfold Harness.handshake_round, handshake_attempt, Harness.read_message,
      select_readline. plumb. rewrite say_logged. fields. rewrite Hraw, Hdec.
    apply String.eqb_neq in Hne. rewrite Hne, say_logged, Hload. cbn [is_TimeoutError].
    do 2 f_equal. same_world.
  - intros line v Hy Ht Hv. cbn [Harness.handshake].
    unfold Harness.handshake_round, handshake_attempt. plumb.
    rewrite (read_message_yields _ _ _ _ _ _ Hy). plumb. rewrite Ht.
    destruct v; try reflexivity. now destruct (Hv members).
Qed.

(** X8.  A run whose handshake fails sends nothing: the failure is
    printed, Shutdown follows, and the child has received no request
    and no file was touched. *)
Theorem failed_handshake_sends_nothing (fs : gmap string string) (fuel : nat)
    (w1 : world) (e : exn) :
  handshake fuel (spawned (initial_world fs)) = Some (w1, Raise e) ->
  exists w r,
    main fs (Some c) fuel = Some (w, r)
    /\ In (ErrorOccurred e) (log w)
    /\ flushes w = 0 /\ stdin_pipe w = EmptyString /\ stdin_buffer w = EmptyString
    /\ files w = fs.
Proof.
  intros Hh.
  destruct (handshake_listens _ _ _ _ _ _ Hh) as ((Hf & Hb & Hp) & Hfs & _). fields.
  exists (fst (shutdown c (handler (w1, Raise e)))),
         (snd (shutdown c (handler (w1, Raise e)))).
  destruct (shutdown_keeps c (handler (w1, Raise e)) (ErrorOccurred e))
    as (Hlog & (Kf & Kb & Kp) & Kfs & _).
  split; [|split; [|split; [|split; [|split]]]].
  - unfold Harness.main, run, Harness.scripted. rewrite Hh.
    now destruct (shutdown c (handler (w1, Raise e))).
  - apply Hlog. cbn [handler]. rewrite say_logged. fields.
    apply in_or_app. right. now left.
  - rewrite Kf. cbn [handler]. rewrite say_logged. fields. exact Hf.
  - rewrite Kp. cbn [handler]. rewrite say_logged. fields. exact Hp.
  - rewrite Kb. cbn [handler]. rewrite say_logged. fields. exact Hb.
  - rewrite Kfs. cbn [handler]. rewrite say_logged. fields. exact Hfs.
Qed.

(** X9.  [read_message] only listens: whatever it meets (a timeout, the
    end of the stream, bytes that are not UTF-8, a line that is not
    JSON, a message), it makes exactly one wait on the child's output
    and leaves the child's input, the files and the child itself as
    they were. *)
Theorem read_message_only_listens (t : Z) (w : world) :
  reads (fst (read_message t w)) = S (reads w)
  /\ flushes (fst (read_message t w)) = flushes w
  /\ stdin_buffer (fst (read_message t w)) = stdin_buffer w
  /\ stdin_pipe (fst (read_message t w)) = stdin_pipe w
  /\ files (fst (read_message t w)) = files w
  /\ child_alive (fst (read_message t w)) = child_alive w
  /\ sigterm_sent (fst (read_message t w)) = sigterm_sent w.
Proof.
  destruct (read_message_listens json_loads c t w)
    as [((Hf & Hb & Hp) & Hfs & Ha & Hs & _) Hr].
  repeat split; assumption.
Qed.

End Codec.

(** *** Membership as the initialize step tests it *)

Lemma prefix_occurs (s hay : string) :
  String.prefix s hay = true <-> exists after, hay = s +:+ after.
Proof.
  revert hay. induction s as [|a s IH]; intros hay.
  - split; [intros _; now exists hay|now destruct hay].
  - destruct hay as [|b hay].
    + split; [discriminate|]. intros [after H]. discriminate H.
    + cbn [String.prefix]. destruct (ascii_dec a b) as [->|Hne].
      * rewrite IH. split; intros [after H]; exists after.
        -- now rewrite H.
        -- change (String b s +:+ after) with (String b (s +:+ after)) in H. congruence.
      * split; [discriminate|]. intros [after H].
        change (String a s +:+ after) with (String a (s +:+ after)) in H. congruence.
Qed.

Lemma contains_occurs (s hay : string) : contains s hay = true <-> occurs_in s hay.
Proof.
  split.
  - induction hay as [|x hay IH]; cbn [contains]; intros H;
      apply orb_prop in H as [H|H].
    + apply prefix_occurs in H as [after H]. now exists EmptyString, after.
    + discriminate H.
    + apply prefix_occurs in H as [after H]. now exists EmptyString, after.
    + destruct (IH H) as (before & after & E).
      exists (String x before), after. now rewrite E.
  - intros (before & after & ->). induction before as [|x before IH].
    + assert (P : String.prefix s (s +:+ after) = true)
        by (apply prefix_occurs; now exists after).
      change (EmptyString +:+ (s +:+ after)) with (s +:+ after).
      destruct (s +:+ after); cbn [contains]; now rewrite P.
    + change (String x before +:+ (s +:+ after))
        with (String x (before +:+ (s +:+ after))).
      cbn [contains]. rewrite IH. apply orb_true_r.
Qed.

Lemma element_is (key : string) (items : list json) :
  existsb (fun x => eq_str x key) items = true <-> In (JStr key) items.
Proof.
  rewrite existsb_exists. split.
  - intros (x & Hin & Hx). destruct x; try discriminate Hx.
    cbn in Hx. apply String.eqb_eq in Hx. now subst.
  - intros H. exists (JStr key). split; [exact H|]. cbn. apply String.eqb_refl.
Qed.

Section Codec2.

Variable json_dumps : json -> string.
Variable json_loads : string -> option json.
Variable c : child.

#[local] Abbreviation yields := (yields json_loads c).
#[local] Abbreviation initialize := (initialize json_dumps json_loads c).
#[local] Abbreviation exchanged := (exchanged json_dumps).

(** X10.  The initialize step tests ['error' in init_response] on
    whatever JSON value it received.  A string fails the step exactly
    when "error" occurs in it, a list exactly when the string "error" is
    one of its elements; [null], a boolean or a number raises a
    [TypeError]; a mapping without an [error] key passes. *)
Theorem initialize_tests_membership (w : world) (line : string) (v : json) :
  stdin_accepts c (flushes w) = true ->
  yields (reads w) line v ->
  let done := exchanged init_request line (InitializeResponse v) w in
  let refused := Raise (RuntimeError "Server initialization failed") in
  (forall s, v = JStr s ->
     (occurs_in "error" s -> initialize w = (done, refused))
     /\ (~ occurs_in "error" s -> initialize w = (done, Ok tt)))
  /\ (forall items, v = JArr items ->
       (In (JStr "error") items -> initialize w = (done, refused))
       /\ (~ In (JStr "error") items -> initialize w = (done, Ok tt)))
  /\ (v = JNull \/ (exists b, v = JBool b) \/ (exists z, v = JInt z)
       \/ (exists f, v = JFloat f) ->
       initialize w = (done, Raise TypeError))
  /\ (forall members, v = JObj members -> lookup_key "error" members = None ->
       initialize w = (done, Ok tt)).
Proof.
  intros Hs Hy done refused. subst done refused.
  rewrite (initialize_answered _ _ _ _ _ _ Hs Hy).
  split; [|split; [|split]].
  - intros s ->. cbn [py_in]. split; intros H.
    + apply contains_occurs in H. now rewrite H.
    + destruct (contains "error" s) eqn:E; [|reflexivity].
      apply contains_occurs in E. contradiction.
  - intros items ->. cbn [py_in]. split; intros H.
    + apply element_is in H. now rewrite H.
    + destruct (existsb _ items) eqn:E; [|reflexivity].
      apply element_is in E. contradiction.
  - intros [->|[[b ->]|[[z ->]|[f ->]]]]; reflexivity.
  - intros members -> H. cbn [py_in]. now rewrite H.
Qed.

(** X13.  During the handshake a falsy JSON value ([null], [false],
    zero, an empty string, list or mapping) is taken for a message other
    than [server_info]: it is printed and the loop waits again. *)
Theorem handshake_skips_falsy_values (fuel : nat) (w : world) (line : string)
    (v : json) :
  yields (reads w) line v ->
  truthy v = false ->
  handshake json_loads c (S fuel) w
  = handshake json_loads c fuel
      (logged [WaitingForMessage 5; Received line; WaitingForServerInfo] (waited w)).
Proof.
  intros Hy Ht. cbn [handshake].
  unfold handshake_round, handshake_attempt. plumb.
  rewrite (read_message_yields _ _ _ _ _ _ Hy). plumb. rewrite Ht. plumb.
  now rewrite say_logged, logged_logged.
Qed.

(** X14.  After the handshake a timeout is an error: when the wait of
    the initialize, device-listing or capture step times out, the step
    raises a [TimeoutError] right after its request, and a conversation
    whose initialize times out sends no further request. *)
Theorem timeouts_end_the_conversation (w : world) :
  stdin_accepts c (flushes w) = true ->
  stdout c (reads w) = None ->
  initialize w = (timed_out json_dumps init_request w, Raise timeout_error)
  /\ list_devices json_dumps json_loads c w
     = (timed_out json_dumps list_devices_request w, Raise timeout_error)
  /\ (forall device_id,
        capture json_dumps json_loads c device_id w
        = (timed_out json_dumps (screenshot_request device_id) w, Raise timeout_error))
  /\ conversation json_dumps json_loads c w
     = (timed_out json_dumps init_request w, Raise timeout_error).
Proof.
  intros Hs Ht.
  assert (Ei : initialize w = (timed_out json_dumps init_request w, Raise timeout_error)).
  { unfold Harness.initialize. plumb.
    rewrite send_message_ok by exact Hs. rewrite read_message_timeout by exact Ht.
    f_equal. unfold timed_out. same_world. }
  split; [exact Ei|]. split; [|split].
  - unfold list_devices. plumb.
    rewrite send_message_ok by exact Hs. rewrite read_message_timeout by exact Ht.
    f_equal. unfold timed_out. same_world.
  - intros device_id. unfold capture. plumb.
    rewrite send_message_ok by exact Hs. rewrite read_message_timeout by exact Ht.
    f_equal. unfold timed_out. same_world.
  - unfold conversation. unfold mbind, M_bind. now rewrite Ei.
Qed.

End Codec2.

End Further.

(** ** More on decoding base64 *)

Module Base64More.

Import Base64 Base64Facts Conduct.
Local Open Scope N_scope.

Lemma app_cons (ch : ascii) (s t : string) : String ch s +:+ t = String ch (s +:+ t).
Proof. reflexivity. Qed.

(** The loop does not see the characters that are not significant. *)
Lemma loop_keep (s : string) :
  forall st, a2b_loop s st = a2b_loop (keep significant s) st.
Proof.
  induction s as [|ch s IH]; intros st; [reflexivity|].
  cbn [keep]. unfold significant.
  destruct (Ascii.eqb ch BASE64_PAD) eqn:Ep; cbn [orb].
  - cbn [a2b_loop]. rewrite Ep.
    destruct (2 <=? quad_pos st); [|apply IH].
    destruct (4 <=? quad_pos st + (pads st + 1)); [reflexivity|apply IH].
  - destruct (table_a2b_base64 ch <? 64) eqn:Ev.
    + cbn [a2b_loop]. rewrite Ep.
      assert (E : (64 <=? table_a2b_base64 ch) = false)
        by (apply N.leb_gt; now apply N.ltb_lt).
      cbv zeta. rewrite E. apply IH.
    + cbn [a2b_loop]. rewrite Ep.
      assert (E : (64 <=? table_a2b_base64 ch) = true)
        by (apply N.leb_le; now apply N.ltb_ge).
      cbv zeta. rewrite E. apply IH.
Qed.

Lemma keep_ascii (f : ascii -> bool) (s : string) :
  is_ascii s = true -> is_ascii (keep f s) = true.
Proof.
  unfold is_ascii. induction s as [|ch s IH]; [reflexivity|].
  cbn [list_ascii_of_string forallb keep]. intros H.
  apply andb_prop in H as [H1 H2].
  destruct (f ch); [|now apply IH].
  cbn [list_ascii_of_string forallb]. now rewrite H1, IH.
Qed.

(** X11.  Decoding skips every character that is neither in the base64
    alphabet nor [=]: the data decode like the data without those
    characters, to the same bytes or to the same error.  For the text of
    a response, which must be ASCII, [b64decode] therefore ignores line
    breaks, spaces and the like. *)
Theorem decoding_skips_other_characters (s : string) :
  a2b_base64 s = a2b_base64 (keep significant s)
  /\ (is_ascii s = true ->
      Py.b64decode (Py.JStr s) = Py.b64decode (Py.JStr (keep significant s))).
Proof.
  assert (E : a2b_base64 s = a2b_base64 (keep significant s))
    by (unfold a2b_base64; now rewrite loop_keep).
  split; [exact E|]. intros H. unfold Py.b64decode.
  now rewrite H, (keep_ascii significant s H), E.
Qed.

(** Bytes already produced stay in front of what the loop adds. *)
Lemma loop_prefix (pre : string) (s : string) :
  forall q l p out,
  a2b_loop s (A2B q l p (pre +:+ out))
  = match a2b_loop s (A2B q l p out) with
    | inl res => inl (pre +:+ res)
    | inr st => inr (A2B (quad_pos st) (leftchar st) (pads st) (pre +:+ bin_data st))
    end.
Proof.
  induction s as [|ch s IH]; intros q l p out; [reflexivity|].
  cbn [a2b_loop quad_pos leftchar pads bin_data].
  destruct (Ascii.eqb ch BASE64_PAD).
  - destruct (2 <=? q); [|apply IH].
    destruct (4 <=? q + (p + 1)); [reflexivity|apply IH].
  - cbv zeta. destruct (64 <=? table_a2b_base64 ch); [apply IH|].
    unfold a2b_shift, emit; cbn [quad_pos leftchar pads bin_data].
    destruct q as [|[p1|[p2|p2|]|]]; cbv beta iota; rewrite ?append_assoc; apply IH.
Qed.

Lemma length_three (a b c : ascii) (s : string) :
  (String.length (String a (String b (String c s))) mod 3
   = String.length s mod 3)%nat.
Proof.
  cbn [String.length].
  replace (S (S (S (String.length s)))) with (String.length s + 1 * 3)%nat by lia.
  apply Nat.Div0.mod_add.
Qed.

(** The loop on an encoding followed by more input: a padded encoding
    ends the decoding, an unpadded one leaves the loop between two
    groups. *)
Lemma loop_encode_then (bs rest : string) :
  forall out,
  a2b_loop (b64encode bs +:+ rest) (A2B 0 0 0 out)
  = if (String.length bs mod 3 =? 0)%nat
    then a2b_loop rest (A2B 0 0 0 (out +:+ bs))
    else inl (out +:+ bs).
Proof.
  induction bs as [|a|a b|a b c bs IH] using string_ind3; intros out.
  - cbn. now rewrite append_nil_r.
  - destruct (sextets_small a a) as (S1 & _ & _ & _ & S2 & _).
    cbn [b64encode]. rewrite !app_cons, !loop_alphabet by assumption.
    unfold a2b_shift, emit; cbn [quad_pos leftchar pads bin_data].
    rewrite (proj2 (first_byte a a)). reflexivity.
  - destruct (sextets_small a b) as (S1 & S2 & _).
    destruct (sextets_small b b) as (_ & _ & _ & _ & _ & S3).
    cbn [b64encode]. rewrite !app_cons, !loop_alphabet by assumption.
    unfold a2b_shift, emit; cbn [quad_pos leftchar pads bin_data].
    rewrite (proj1 (first_byte a b)), (proj2 (second_byte a b b)).
    rewrite !append_assoc. reflexivity.
  - cbn [b64encode]. rewrite !app_cons, loop_group, length_three, IH.
    now rewrite !append_assoc.
Qed.

(** X12.  Decoding an encoding followed by more input.  When the
    encoded bytes are a multiple of three, so that the encoding has no
    padding, what follows is decoded too and its bytes come after; when
    the encoding ends in padding, the decoding ends there and what
    follows is not read: not even an error in it is noticed. *)
Theorem decoding_an_encoding_followed_by_more (bs rest : string) :
  a2b_base64 (b64encode bs +:+ rest)
  = if (String.length bs mod 3 =? 0)%nat
    then prepend bs (a2b_base64 rest)
    else Ok bs.
Proof.
  unfold a2b_base64, a2b_init. rewrite loop_encode_then.
  destruct (String.length bs mod 3 =? 0)%nat; [|reflexivity].
  change (EmptyString +:+ bs) with bs.
  rewrite <- (append_nil_r bs) at 1. rewrite loop_prefix.
  destruct (a2b_loop rest (A2B 0 0 0 EmptyString)) as [res|st]; [reflexivity|].
  cbn [quad_pos bin_data]. destruct (quad_pos st =? 0); reflexivity.
Qed.

End Base64More.

(** ** The further properties on concrete inputs *)

Module FurtherRuns.

Import Py Harness Shape Steps Conduct Codec Examples Drain Samples.
Local Open Scope list_scope.

Ltac reads_as :=
  eexists; split; [reflexivity|];
  split; [vm_compute; reflexivity|];
  split; [discriminate|vm_compute; reflexivity].

Ltac is_printable := split; [discriminate|vm_compute; reflexivity].

Lemma offers_replay (ls : list string) (rest : result string) :
  offers (replay_pipe ls rest) 0 ls.
Proof.
  intros i raw H. cbn [Nat.add]. unfold replay_pipe.
  revert i H. induction ls as [|x ls IH]; intros [|i] H; try discriminate H.
  - cbn in H. now inversion H.
  - cbn in H. cbn [map nth]. now apply IH.
Qed.

Lemma read_output_drains_witness :
  read_output short_stream "stderr" 3
  = Some (Drained 3 [Tagged "stderr" starting_line; Tagged "stderr" listening_line]).
Proof.
  apply (DrainFacts.read_output_drains_to_the_end
           short_stream "stderr" [starting_line; listening_line] 3).
  - apply offers_replay.
  - constructor; [is_printable|]. constructor; [is_printable|]. constructor.
  - reflexivity.
  - cbn. lia.
Defined.

Lemma read_output_stops_witness :
  read_output broken_stream "stderr" 9
  = Some (Drained 2 [Tagged "stderr" starting_line;
                     ReadingFailed "stderr" UnicodeDecodeError]).
Proof.
  apply (DrainFacts.read_output_stops_at_the_first_error
           broken_stream "stderr" [starting_line] UnicodeDecodeError 9).
  - intros [|i] raw H; [cbn in H; now inversion H|now destruct i].
  - constructor; [is_printable|]. constructor.
  - right. exists bad_line. split; [reflexivity|vm_compute; reflexivity].
  - cbn. lia.
Defined.

Lemma requests_in_order_witness :
  exists w1 r1 n device_id,
    handshake ref_loads device_child 2 (spawned (initial_world ∅)) = Some (w1, r1)
    /\ n <= 3
    /\ stdin_pipe (fst (device_run ∅)) = requests ref_dumps n device_id
    /\ reads (fst (device_run ∅)) = reads w1 + n
    /\ traffic (log (fst (device_run ∅)))
       = repeat (WaitingForMessage 5) (reads w1) ++ exchanges ref_dumps n device_id
    /\ (forall k, k < n -> stdin_accepts device_child k = true)
    /\ (1 < n -> exists line v,
          yields ref_loads device_child (reads w1) line v /\ py_in "error" v = Ok false)
    /\ (2 < n -> exists line v,
          yields ref_loads device_child (S (reads w1)) line v
          /\ selects ref_loads v device_id)
    /\ (flushes (fst (device_run ∅)) = n /\ stdin_buffer (fst (device_run ∅)) = EmptyString
        \/ flushes (fst (device_run ∅)) = S n /\ stdin_accepts device_child n = false
           /\ In (ErrorOccurred BrokenPipeError) (log (fst (device_run ∅)))).
Proof.
  apply (Further.requests_are_sent_in_order
           ref_dumps ref_loads device_child ∅ 2 (fst (device_run ∅)) (snd (device_run ∅))).
  vm_compute. reflexivity.
Defined.

(** The traffic of that run: two waits of the handshake, then the three
    exchanges. *)
Example device_run_traffic :
  traffic (log (fst (device_run ∅)))
  = [WaitingForMessage 5; WaitingForMessage 5;
     Sent (ref_dumps init_request); WaitingForMessage 30;
     Sent (ref_dumps list_devices_request); WaitingForMessage 30;
     Sent dev1_capture_request; WaitingForMessage 30]
  /\ stdin_pipe (fst (device_run ∅)) = requests ref_dumps 3 (JStr "dev-1")
  /\ flushes (fst (device_run ∅)) = 3.
Proof. vm_compute. repeat split. Qed.

(** A run whose second flush fails: one request is delivered, the second
    stays in the buffer, and the failure is printed. *)
Example hanging_up_run_traffic :
  traffic (log (fst hanging_up_run))
  = [WaitingForMessage 5; WaitingForMessage 5;
     Sent (ref_dumps init_request); WaitingForMessage 30]
  /\ stdin_pipe (fst hanging_up_run) = requests ref_dumps 1 JNull
  /\ stdin_buffer (fst hanging_up_run) = request_line ref_dumps list_devices_request
  /\ flushes (fst hanging_up_run) = 2
  /\ In (ErrorOccurred BrokenPipeError) (log (fst hanging_up_run)).
Proof. vm_compute. repeat split. tauto. Qed.

Lemma other_files_witness :
  files (fst (device_run notes)) !! "notes.txt" = Some "keep".
Proof.
  apply (Further.only_the_output_file_is_touched
           ref_dumps ref_loads notes (Some device_child) 2
           (fst (device_run notes)) (snd (device_run notes)) "notes.txt").
  - vm_compute. reflexivity.
  - discriminate.
Defined.

Lemma saved_witness :
  exists c0 k line v image_data data,
    Some device_child = Some c0 /\ reads (fst (device_run stale)) = S k
    /\ yields ref_loads c0 k line v
    /\ first_entry_field v "data" image_data
    /\ b64decode image_data = Ok data
    /\ files (fst (device_run stale)) = <[output_path := data]> stale.
Proof.
  apply (Further.saved_is_printed_only_after_the_write
           ref_dumps ref_loads stale (Some device_child) 2
           (fst (device_run stale)) (snd (device_run stale))).
  - vm_compute. reflexivity.
  - vm_compute. tauto.
Defined.

(** In that run the file that existed is replaced by the image. *)
Example stale_output_is_replaced :
  files (fst (device_run stale)) = <[output_path := png_signature]> stale
  /\ files (fst (device_run stale)) !! output_path = Some png_signature.
Proof. vm_compute. split; reflexivity. Qed.

Lemma end_of_stream_spin_witness :
  (handshake ref_loads closing_child 9 fresh = None
   /\ scripted ref_dumps ref_loads closing_child 9 fresh = None)
  /\ main_ref ∅ (Some closing_child) 9 = None.
Proof.
  split.
  - apply (proj1 (Further.handshake_spins_at_end_of_stream
                    ref_dumps ref_loads closing_child) fresh).
    intros i. now destruct i.
  - apply (proj2 (Further.handshake_spins_at_end_of_stream
                    ref_dumps ref_loads closing_child)).
    intros k. now destruct k.
Defined.

Lemma other_output_witness :
  handshake ref_loads (saying bad_line) 1 fresh
  = Some (logged [WaitingForMessage 5] (waited fresh), Raise UnicodeDecodeError)
  /\ handshake ref_loads (saying banner_text) 1 fresh
     = Some (after_banner, Raise JSONDecodeError)
  /\ handshake ref_loads (saying array_text) 1 fresh
     = Some (logged [WaitingForMessage 5; Received array_text] (waited fresh),
             Raise AttributeError).
Proof.
  split; [|split].
  - apply (proj1 (Further.handshake_raises_on_other_output
                    ref_loads (saying bad_line) 0 fresh) bad_line).
    + reflexivity.
    + vm_compute. reflexivity.
  - apply (proj1 (proj2 (Further.handshake_raises_on_other_output
                           ref_loads (saying banner_text) 0 fresh)) banner_text).
    + reflexivity.
    + vm_compute. reflexivity.
    + discriminate.
    + vm_compute. reflexivity.
  - apply (proj2 (proj2 (Further.handshake_raises_on_other_output
                           ref_loads (saying array_text) 0 fresh))
             array_text array_message).
    + reads_as.
    + reflexivity.
    + discriminate.
Defined.

Lemma failed_handshake_witness :
  exists w r,
    main_ref ∅ (Some (saying banner_text)) 1 = Some (w, r)
    /\ In (ErrorOccurred JSONDecodeError) (log w)
    /\ flushes w = 0 /\ stdin_pipe w = EmptyString /\ stdin_buffer w = EmptyString
    /\ files w = ∅.
Proof.
  apply (Further.failed_handshake_sends_nothing
           ref_dumps ref_loads (saying banner_text) ∅ 1 after_banner JSONDecodeError).
  vm_compute. reflexivity.
Defined.

Lemma initialize_membership_witness :
  initialize ref_dumps ref_loads (saying remark_text) fresh
  = (exchanged ref_dumps init_request remark_text (InitializeResponse remark) fresh,
     Raise (RuntimeError "Server initialization failed")).
Proof.
  apply (proj1 (proj1 (Further.initialize_tests_membership
                         ref_dumps ref_loads (saying remark_text) fresh
                         remark_text remark eq_refl ltac:(reads_as))
                      "no error here" eq_refl)).
  exists "no ", " here". reflexivity.
Defined.

Lemma falsy_values_witness :
  handshake ref_loads (saying (text "null")) 2 fresh
  = handshake ref_loads (saying (text "null")) 1
      (logged [WaitingForMessage 5; Received (text "null"); WaitingForServerInfo]
              (waited fresh)).
Proof.
  apply (Further.handshake_skips_falsy_values
           ref_loads (saying (text "null")) 1 fresh (text "null") JNull).
  - reads_as.
  - reflexivity.
Defined.

Lemma timeouts_witness :
  initialize ref_dumps ref_loads silent_child fresh
  = (timed_out ref_dumps init_request fresh, Raise timeout_error)
  /\ list_devices ref_dumps ref_loads silent_child fresh
     = (timed_out ref_dumps list_devices_request fresh, Raise timeout_error)
  /\ (forall device_id,
        capture ref_dumps ref_loads silent_child device_id fresh
        = (timed_out ref_dumps (screenshot_request device_id) fresh,
           Raise timeout_error))
  /\ conversation ref_dumps ref_loads silent_child fresh
     = (timed_out ref_dumps init_request fresh, Raise timeout_error).
Proof.
  apply (Further.timeouts_end_the_conversation ref_dumps ref_loads silent_child fresh);
    reflexivity.
Defined.

Lemma skipped_characters_witness :
  b64decode (JStr wrapped_data) = b64decode (JStr (keep significant wrapped_data)).
Proof.
  apply (proj2 (Base64More.decoding_skips_other_characters wrapped_data)).
  vm_compute. reflexivity.
Defined.

Example wrapped_data_decodes : b64decode (JStr wrapped_data) = Ok "Hello".
Proof. vm_compute. reflexivity. Qed.

Example padded_then_more :
  Base64.a2b_base64 (Base64.b64encode "Hello" +:+ "!not base64") = Ok "Hello".
Proof. vm_compute. reflexivity. Qed.

End FurtherRuns.
